(** * Legislative-train scraper: a shallow embedding of scraper.py and
      function_app.py, with the properties of the crawl-and-extract pipeline.

    Python [str] values are sequences of Unicode code points, [bytes] values
    are sequences of integers in 0..255, machine words of MD5 are integers
    with the wrap-around written out. *)

From Stdlib Require Import ZArith List Lia String Ascii Bool.
From stdpp Require Import base decidable option list gmap.
Import ListNotations.

Local Open Scope Z_scope.

#[local] Set Warnings "-register-all".

(** ** Python strings *)

(** A Python [str]: a sequence of code points. *)
Definition str := list Z.

(** The code points of an ASCII literal of the source. *)
Definition lit (x : string) : str :=
  List.map (fun a => Z.of_nat (nat_of_ascii a)) (list_ascii_of_string x).

(** Code points a Python [str] can hold. *)
Definition is_codepoint (c : Z) : bool := (0 <=? c) && (c <=? 0x10FFFF).

(** Lone surrogates live in a [str] but have no UTF-8 form. *)
Definition is_surrogate (c : Z) : bool := (0xD800 <=? c) && (c <=? 0xDFFF).

Definition is_scalar (c : Z) : bool := is_codepoint c && negb (is_surrogate c).

(** [str.encode('utf-8')] on one code point; [None] is UnicodeEncodeError. *)
Definition encode_codepoint (c : Z) : option (list Z) :=
  if negb (is_scalar c) then None
  else if c <? 0x80 then Some [c]
  else if c <? 0x800 then
    Some [Z.lor 0xC0 (Z.shiftr c 6); Z.lor 0x80 (Z.land c 0x3F)]
  else if c <? 0x10000 then
    Some [Z.lor 0xE0 (Z.shiftr c 12);
          Z.lor 0x80 (Z.land (Z.shiftr c 6) 0x3F);
          Z.lor 0x80 (Z.land c 0x3F)]
  else
    Some [Z.lor 0xF0 (Z.shiftr c 18);
          Z.lor 0x80 (Z.land (Z.shiftr c 12) 0x3F);
          Z.lor 0x80 (Z.land (Z.shiftr c 6) 0x3F);
          Z.lor 0x80 (Z.land c 0x3F)].

(** [u.encode('utf-8')]. *)
Fixpoint encode_utf8 (u : str) : option (list Z) :=
  match u with
  | [] => Some []
  | c :: rest =>
      match encode_codepoint c, encode_utf8 rest with
      | Some bs, Some more => Some (bs ++ more)
      | _, _ => None
      end
  end.

(** A [str] that encodes: every code point is a Unicode scalar value. *)
Definition encodable (u : str) : bool := forallb is_scalar u.

(** ** hashlib.md5 (RFC 1321) *)

Module MD5.

Definition wrap (x : Z) : Z := x mod 2 ^ 32.

Definition add32 (x y : Z) : Z := wrap (x + y).

Definition not32 (x : Z) : Z := Z.lxor x 0xFFFFFFFF.

Definition rotl (x n : Z) : Z :=
  Z.lor (wrap (Z.shiftl x n)) (Z.shiftr x (32 - n)).

Definition K : list Z :=
  [ 0xd76aa478; 0xe8c7b756; 0x242070db; 0xc1bdceee;
    0xf57c0faf; 0x4787c62a; 0xa8304613; 0xfd469501;
    0x698098d8; 0x8b44f7af; 0xffff5bb1; 0x895cd7be;
    0x6b901122; 0xfd987193; 0xa679438e; 0x49b40821;
    0xf61e2562; 0xc040b340; 0x265e5a51; 0xe9b6c7aa;
    0xd62f105d; 0x02441453; 0xd8a1e681; 0xe7d3fbc8;
    0x21e1cde6; 0xc33707d6; 0xf4d50d87; 0x455a14ed;
    0xa9e3e905; 0xfcefa3f8; 0x676f02d9; 0x8d2a4c8a;
    0xfffa3942; 0x8771f681; 0x6d9d6122; 0xfde5380c;
    0xa4beea44; 0x4bdecfa9; 0xf6bb4b60; 0xbebfbc70;
    0x289b7ec6; 0xeaa127fa; 0xd4ef3085; 0x04881d05;
    0xd9d4d039; 0xe6db99e5; 0x1fa27cf8; 0xc4ac5665;
    0xf4292244; 0x432aff97; 0xab9423a7; 0xfc93a039;
    0x655b59c3; 0x8f0ccc92; 0xffeff47d; 0x85845dd1;
    0x6fa87e4f; 0xfe2ce6e0; 0xa3014314; 0x4e0811a1;
    0xf7537e82; 0xbd3af235; 0x2ad7d2bb; 0xeb86d391 ].

Definition shifts : list Z :=
  [ 7; 12; 17; 22; 7; 12; 17; 22; 7; 12; 17; 22; 7; 12; 17; 22;
    5; 9; 14; 20; 5; 9; 14; 20; 5; 9; 14; 20; 5; 9; 14; 20;
    4; 11; 16; 23; 4; 11; 16; 23; 4; 11; 16; 23; 4; 11; 16; 23;
    6; 10; 15; 21; 6; 10; 15; 21; 6; 10; 15; 21; 6; 10; 15; 21 ].

(** The chaining value A, B, C, D. *)
Record digest_state := DS { wA : Z; wB : Z; wC : Z; wD : Z }.

Definition init : digest_state :=
  DS 0x67452301 0xefcdab89 0x98badcfe 0x10325476.

(** Round function and message-word index of step [i]. *)
Definition mix (i : Z) (b c d : Z) : Z * Z :=
  if i <? 16 then (Z.lor (Z.land b c) (Z.land (not32 b) d), i)
  else if i <? 32 then
    (Z.lor (Z.land d b) (Z.land (not32 d) c), (5 * i + 1) mod 16)
  else if i <? 48 then (Z.lxor (Z.lxor b c) d, (3 * i + 5) mod 16)
  else (Z.lxor c (Z.lor b (not32 d)), (7 * i) mod 16).

Definition step (M : list Z) (st : digest_state) (i : Z) : digest_state :=
  let '(f, g) := mix i (wB st) (wC st) (wD st) in
  let k := nth (Z.to_nat i) K 0 in
  let s := nth (Z.to_nat i) shifts 0 in
  let m := nth (Z.to_nat g) M 0 in
  let sum := add32 (add32 (add32 (wA st) f) k) m in
  DS (wD st) (add32 (wB st) (rotl sum s)) (wB st) (wC st).

Definition steps : list Z := List.map Z.of_nat (seq 0 64).

(** Little-endian 32-bit words of a block of bytes. *)
Fixpoint words (bs : list Z) : list Z :=
  match bs with
  | b0 :: b1 :: b2 :: b3 :: rest =>
      (b0 + 256 * b1 + 65536 * b2 + 16777216 * b3) :: words rest
  | _ => []
  end.

Definition compress (st : digest_state) (block : list Z) : digest_state :=
  let r := fold_left (step (words block)) steps st in
  DS (add32 (wA st) (wA r)) (add32 (wB st) (wB r))
     (add32 (wC st) (wC r)) (add32 (wD st) (wD r)).

(** Little-endian bytes of [x], [n] of them. *)
Fixpoint le_bytes (n : nat) (x : Z) : list Z :=
  match n with
  | O => []
  | S n' => (x mod 256) :: le_bytes n' (x / 256)
  end.

(** Padding: 0x80, zeros up to 56 mod 64, then the bit length on 64 bits. *)
Definition pad (msg : list Z) : list Z :=
  let len := Z.of_nat (length msg) in
  let zeros := Z.to_nat ((55 - len) mod 64) in
  msg ++ [0x80] ++ repeat 0 zeros ++ le_bytes 8 ((8 * len) mod 2 ^ 64).

(** The chaining value after [n] blocks of 64 bytes. *)
Fixpoint blocks (n : nat) (bs : list Z) (st : digest_state) : digest_state :=
  match n with
  | O => st
  | S n' => blocks n' (skipn 64 bs) (compress st (firstn 64 bs))
  end.

Definition digest (msg : list Z) : list Z :=
  let p := pad msg in
  let r := blocks (length p / 64) p init in
  le_bytes 4 (wA r) ++ le_bytes 4 (wB r) ++
  le_bytes 4 (wC r) ++ le_bytes 4 (wD r).

Definition hex_digit (n : Z) : Z :=
  nth (Z.to_nat n) (lit "0123456789abcdef") 0.

Definition hex_byte (b : Z) : str := [hex_digit (b / 16); hex_digit (b mod 16)].

(** [hashlib.md5(msg).hexdigest()]. *)
Definition hexdigest (msg : list Z) : str :=
  List.concat (List.map hex_byte (digest msg)).

End MD5.

(** Lowercase hexadecimal digits. *)
Definition is_lower_hex (c : Z) : bool :=
  ((48 <=? c) && (c <=? 57)) || ((97 <=? c) && (c <=? 102)).

(** ** scraper.py: generate_id *)

(** [hashlib.md5(url.encode('utf-8')).hexdigest()]; [None] when the encoding
    raises. *)
Definition generate_id (url : str) : option str :=
  match encode_utf8 url with
  | Some bs => Some (MD5.hexdigest bs)
  | None => None
  end.

(** ** String operations of the source *)

(** [str.isspace] on one code point. *)
Definition is_space (c : Z) : bool :=
  ((0x09 <=? c) && (c <=? 0x0D)) || ((0x1C <=? c) && (c <=? 0x20))
  || (c =? 0x85) || (c =? 0xA0) || (c =? 0x1680)
  || ((0x2000 <=? c) && (c <=? 0x200A))
  || (c =? 0x2028) || (c =? 0x2029) || (c =? 0x202F) || (c =? 0x205F)
  || (c =? 0x3000).

Definition not_space (c : Z) : bool := negb (is_space c).

Fixpoint lstrip (s : str) : str :=
  match s with
  | c :: rest => if is_space c then lstrip rest else s
  | [] => []
  end.

Definition rstrip (s : str) : str := rev (lstrip (rev s)).

(** [s.strip()]. *)
Definition strip (s : str) : str := rstrip (lstrip s).

(** [s.startswith(p)]. *)
Fixpoint startswith (p s : str) : bool :=
  match p, s with
  | [], _ => true
  | a :: p', b :: s' => (a =? b) && startswith p' s'
  | _ :: _, [] => false
  end.

(** [p in s] on strings. *)
Fixpoint contains (p s : str) : bool :=
  startswith p s ||
  match s with
  | [] => false
  | _ :: s' => contains p s'
  end.

(** [sep.join(parts)]. *)
Fixpoint join (sep : str) (parts : list str) : str :=
  match parts with
  | [] => []
  | [p] => p
  | p :: rest => p ++ sep ++ join sep rest
  end.

(** Truthiness of a [str]. *)
Definition nonempty (s : str) : bool :=
  match s with [] => false | _ :: _ => true end.

(** The class [[a-zA-Z0-9_-]] of the filename pattern. *)
Definition is_name_char (c : Z) : bool :=
  ((97 <=? c) && (c <=? 122)) || ((65 <=? c) && (c <=? 90))
  || ((48 <=? c) && (c <=? 57)) || (c =? 95) || (c =? 45).

(** [re.sub(r"[^a-zA-Z0-9_-]+", "_", s)], scanning left to right:
    [in_match] holds while the greedy match that started at an earlier
    character is still being extended. *)
Fixpoint re_sub_from (in_match : bool) (s : str) : str :=
  match s with
  | [] => []
  | c :: rest =>
      if is_name_char c then c :: re_sub_from false rest
      else if in_match then re_sub_from true rest
      else lit "_" ++ re_sub_from true rest
  end.

Definition re_sub (s : str) : str := re_sub_from false s.

(** The string is empty or begins with a character of the class. *)
Definition starts_with_name_char (s : str) : Prop :=
  match s with
  | [] => True
  | c :: _ => is_name_char c = true
  end.

(** [re.sub(...)[:100] + f"_{doc_id[:6]}.txt"] of scraper.py. *)
Definition safe_filename (title doc_id : str) : str :=
  firstn 100 (re_sub title) ++ lit "_" ++ firstn 6 doc_id ++ lit ".txt".

(** ** Parsed documents (BeautifulSoup) *)

(** A page element: a text string, a string that [get_text] leaves out
    (comment, declaration, script body), or a tag with its single-valued
    attributes, the tokens of its multi-valued [class] attribute and its
    contents. html.parser gives lowercase tag and attribute names. *)
Inductive node :=
| NavigableString (s : str)
| Comment (s : str)
| Tag (name : str) (attrs : list (str * str)) (classes : list str)
      (contents : list node).

(** The [BeautifulSoup] object: the top-level contents of the page. *)
Definition soup := list node.

(** A node followed by its descendants, in document order. *)
Fixpoint subtree (n : node) : list node :=
  n :: match n with
       | Tag _ _ _ cs => flat_map subtree cs
       | _ => []
       end.

(** [soup.descendants]. *)
Definition descendants (d : soup) : list node := flat_map subtree d.

Definition str_eqb (a b : str) : bool := bool_decide (a = b).

(** [tag.get(key)] / [tag.attrs.get(key)]. *)
Fixpoint attr_get (key : str) (attrs : list (str * str)) : option str :=
  match attrs with
  | [] => None
  | (k, v) :: rest => if str_eqb k key then Some v else attr_get key rest
  end.

Definition tag_name (n : node) : option str :=
  match n with Tag name _ _ _ => Some name | _ => None end.

Definition is_tag (name : str) (n : node) : bool :=
  match n with Tag nm _ _ _ => str_eqb nm name | _ => false end.

Definition get (key : str) (n : node) : option str :=
  match n with Tag _ attrs _ _ => attr_get key attrs | _ => None end.

Definition has_class (c : str) (n : node) : bool :=
  match n with
  | Tag _ _ classes _ => existsb (str_eqb c) classes
  | _ => false
  end.

(** The text strings under a node, in document order. *)
Fixpoint strings (n : node) : list str :=
  match n with
  | NavigableString s => [s]
  | Comment _ => []
  | Tag _ _ _ cs => flat_map strings cs
  end.

(** [el.text], that is [el.get_text()]. *)
Definition text (n : node) : str := List.concat (strings n).

(** The strings [get_text(..., strip=True)] keeps: stripped, empty ones out. *)
Definition stripped_strings (ss : list str) : list str :=
  List.filter nonempty (List.map strip ss).

(** [el.get_text(separator, strip=True)]. *)
Definition get_text_strip (sep : str) (n : node) : str :=
  join sep (stripped_strings (strings n)).

(** [soup.get_text(separator, strip=True)] on the whole document. *)
Definition soup_get_text_strip (sep : str) (d : soup) : str :=
  join sep (stripped_strings (flat_map strings d)).

(** [soup.select(sel)] for a selector given as a test on elements. *)
Definition select (matches : node -> bool) (d : soup) : list node :=
  List.filter matches (descendants d).

(** [soup.select_one(sel)], [soup.find(...)]: the first match. *)
Definition select_one (matches : node -> bool) (d : soup) : option node :=
  List.find matches (descendants d).

(** [a[href*='/file-']]. *)
Definition sel_file_anchor (n : node) : bool :=
  is_tag (lit "a") n &&
  match get (lit "href") n with
  | Some h => contains (lit "/file-") h
  | None => false
  end.

(** [find_all("a", href=True)]. *)
Definition sel_anchor_with_href (n : node) : bool :=
  is_tag (lit "a") n &&
  match get (lit "href") n with Some _ => true | None => false end.

(** [find("div", class_="train-status")]. *)
Definition sel_train_status (n : node) : bool :=
  is_tag (lit "div") n && has_class (lit "train-status") n.

(** [section, div.text-block, p]. *)
Definition sel_content_block (n : node) : bool :=
  is_tag (lit "section") n
  || (is_tag (lit "div") n && has_class (lit "text-block") n)
  || is_tag (lit "p") n.

(** [.content] (function_app.py). *)
Definition sel_content (n : node) : bool :=
  match n with Tag _ _ _ _ => has_class (lit "content") n | _ => false end.

Definition BASE_URL : str := lit "https://www.europarl.europa.eu".

Definition THEMES : list str :=
  [ lit "https://www.europarl.europa.eu/legislative-train/theme-a-european-green-deal";
    lit "https://www.europarl.europa.eu/legislative-train/theme-a-europe-fit-for-the-digital-age";
    lit "https://www.europarl.europa.eu/legislative-train/theme-an-economy-that-works-for-people";
    lit "https://www.europarl.europa.eu/legislative-train/theme-a-stronger-europe-in-the-world";
    lit "https://www.europarl.europa.eu/legislative-train/theme-promoting-our-european-way-of-life";
    lit "https://www.europarl.europa.eu/legislative-train/theme-a-new-push-for-european-democracy" ].

(** The loop of get_files_from_theme over [soup.select("a[href*='/file-']")]:
    the list [file_links] before deduplication. *)
Definition file_links (d : soup) : list str :=
  flat_map
    (fun link =>
       match get (lit "href") link with
       | Some href =>
           if nonempty href && startswith (lit "/legislative-train/theme-") href
           then [BASE_URL ++ href] else []
       | None => []
       end)
    (select sel_file_anchor d).

(** [list(set(file_links))]: Python leaves the iteration order of a set
    open; the order of [elements] stands for it and no result below
    depends on it. *)
Definition list_set (l : list str) : list str :=
  elements (list_to_set l : gset str).

(** ** Detail extraction (scraper.py, lines 115-130) *)

Definition extract_title (d : soup) : str :=
  match select_one (is_tag (lit "h1")) d with
  | Some title_el => strip (text title_el)
  | None => lit "Untitled"
  end.

Definition OEIL_HOST : str := lit "oeil.secure.europarl.europa.eu".

(** The loop with [break] over [find_all("a", href=True)]. *)
Fixpoint first_oeil (anchors : list node) : option str :=
  match anchors with
  | [] => None
  | a :: rest =>
      match get (lit "href") a with
      | Some h => if contains OEIL_HOST h then Some h else first_oeil rest
      | None => first_oeil rest
      end
  end.

Definition extract_oeil_link (d : soup) : option str :=
  first_oeil (select sel_anchor_with_href d).

Definition extract_status (d : soup) : str :=
  match select_one sel_train_status d with
  | Some status_el => strip (text status_el)
  | None => lit "Unknown"
  end.

Definition extract_text_content (d : soup) : str :=
  join (lit (String (ascii_of_nat 10) EmptyString))
    (List.map (get_text_strip (lit " "))
       (List.filter (fun c => nonempty (get_text_strip [] c))
          (select sel_content_block d))).


(** The test of the loop over the anchors: the href names the OEIL host. *)
Definition is_oeil_anchor (n : node) : bool :=
  sel_anchor_with_href n &&
  match get (lit "href") n with
  | Some h => contains OEIL_HOST h
  | None => false
  end.

(** The host an href targets: what stands between the first "//" and the
    next "/", "?" or "#"; an href without "//" targets no host. *)
Fixpoint after_slashes (s : str) : option str :=
  match s with
  | [] => None
  | a :: rest =>
      match rest with
      | [] => None
      | b :: rest' =>
          if (a =? 47) && (b =? 47) then Some rest' else after_slashes rest
      end
  end.

Fixpoint take_host (s : str) : str :=
  match s with
  | [] => []
  | c :: rest =>
      if (c =? 47) || (c =? 63) || (c =? 35) then [] else c :: take_host rest
  end.

Definition href_host (h : str) : option str :=
  match after_slashes h with
  | Some rest => Some (take_host rest)
  | None => None
  end.

(** The anchor of the oeil_link as the specification words it: an anchor
    whose href targets the OEIL host. *)
Definition claimed_oeil_anchor (n : node) : bool :=
  is_tag (lit "a") n &&
  match get (lit "href") n with
  | Some h =>
      match href_host h with
      | Some host => str_eqb host OEIL_HOST
      | None => false
      end
  | None => false
  end.

(** The text body as the specification words it: the blocks are every
    [section], every element that carries the text-block class and every
    [p]; a block is skipped when its text, trimmed, is empty. *)
Definition claimed_content_block (n : node) : bool :=
  is_tag (lit "section") n || has_class (lit "text-block") n
  || is_tag (lit "p") n.

Definition claimed_text_content (d : soup) : str :=
  join (lit (String (ascii_of_nat 10) EmptyString))
    (List.map (get_text_strip (lit " "))
       (List.filter (fun c => nonempty (strip (text c)))
          (select claimed_content_block d))).

(** An absolute URL the theme page [d] links to: the href of an anchor of
    [d] contains "/file-" and begins with "/legislative-train/theme-". *)
Definition detail_link (d : soup) (u : str) : Prop :=
  exists a href,
    a ∈ descendants d /\ is_tag (lit "a") a = true /\
    get (lit "href") a = Some href /\
    (exists pre post, href = pre ++ lit "/file-" ++ post) /\
    (exists rest, href = lit "/legislative-train/theme-" ++ rest) /\
    u = BASE_URL ++ href.

(** ** Effects: the remote site, the two stores, the log *)

(** What [requests.get] returns: [r.status_code] and [r.text]. *)
Record response := Response { status_code : Z; body : str }.

(** JSON values of a metadata item. *)
Inductive value := VStr (s : str) | VNone.

(** A metadata item: the dict literal, keys in source order. *)
Definition item := list (str * value).

Fixpoint item_get (key : str) (it : item) : option value :=
  match it with
  | [] => None
  | (k, v) :: rest => if str_eqb k key then Some v else item_get key rest
  end.

Inductive exn :=
| RequestException | ParserError | UnicodeEncodeError
| AzureInitError | BlobError | CosmosError.

Inductive level := INFO | WARNING | ERROR.

(** The log lines of the two programs (the text of the caught exception,
    which the source interpolates into the error lines, is left out). *)
Inductive message :=
| MsgStarted
| MsgInitFailed
| MsgCrawling (theme : str)
| MsgFetchStatus (url : str) (status : Z)
| MsgFetchError (url : str)
| MsgProcessed (title30 : str)
| MsgItemError (file_url : str)
| MsgFinished (total : Z)
| MsgSaved (title30 : str)
| MsgFileError (link : str)
| MsgThemeError (theme : str).

(** What a run does, in order. [EvRaise] marks the point where an exception
    is raised. *)
Inductive event :=
| EvSleep
| EvGet (url : str) (r : option response)
| EvUpload (name data : str) (ok : bool)
| EvUpsert (it : item) (ok : bool)
| EvRaise (e : exn)
| EvLog (lv : level) (m : message).

(** The collaborators the programs call. [W] is whatever the outside world
    keeps between calls (the site, the fault schedule, the clock); each call
    may change it. A call that raises changes no store. *)
Record services (W : Type) := Services {
  (** [requests.get(url, headers={"User-Agent": ua})]; [None]: it raises. *)
  requests_get : str -> str -> W -> option response * W;
  (** [BeautifulSoup(text, "html.parser")]; [None]: it raises. *)
  html_parser : str -> option soup;
  (** Construction of the Cosmos and Blob clients and of the container. *)
  azure_clients : W -> bool * W;
  (** Does [upload_blob(name, data, overwrite=True)] go through? *)
  upload_blob : str -> str -> W -> bool * W;
  (** Does [upsert_item(item)] go through? *)
  upsert_item : item -> W -> bool * W;
  (** [time.strftime("%Y-%m-%dT%H:%M:%SZ", time.gmtime())]. *)
  strftime_gmtime : W -> str;
  (** [blob_client.url] of the client of a blob name. *)
  blob_client_url : str -> str;
  (** [blob_container.url]. *)
  container_url : str
}.

Arguments Services {W}.
Arguments requests_get {W}.
Arguments html_parser {W}.
Arguments azure_clients {W}.
Arguments upload_blob {W}.
Arguments upsert_item {W}.
Arguments strftime_gmtime {W}.
Arguments blob_client_url {W}.
Arguments container_url {W}.

(** The state a run threads: the world, the blob container (name to text),
    the Metadata container (id to item), the local [total_processed] and the
    events so far, oldest first. *)
Record state (W : Type) := State {
  world : W;
  blobs : gmap str str;
  cosmos : gmap str item;
  total_processed : Z;
  trace : list event
}.

Arguments State {W}.
Arguments world {W}.
Arguments blobs {W}.
Arguments cosmos {W}.
Arguments total_processed {W}.
Arguments trace {W}.

Inductive outcome (A : Type) :=
| Return (a : A)
| Raise (e : exn).

Arguments Return {A}.
Arguments Raise {A}.

(** Computations with state and exceptions. *)
Definition M (W A : Type) : Type := state W -> outcome A * state W.

Definition ret {W A} (a : A) : M W A := fun st => (Return a, st).

Definition bind {W A B} (c : M W A) (k : A -> M W B) : M W B :=
  fun st =>
    match c st with
    | (Return a, st') => k a st'
    | (Raise e, st') => (Raise e, st')
    end.

Notation "'let*' x ':=' c 'in' k" := (bind c (fun x => k))
  (at level 10, x name, c at level 100, k at level 200).

Definition emit {W} (e : event) : M W unit :=
  fun st =>
    (Return tt,
     State (world st) (blobs st) (cosmos st) (total_processed st)
           (trace st ++ [e])).

(** [raise e]. *)
Definition raise {W A} (e : exn) : M W A :=
  fun st =>
    (Raise e,
     State (world st) (blobs st) (cosmos st) (total_processed st)
           (trace st ++ [EvRaise e])).

(** [try: body except Exception: handler]. *)
Definition try_except {W A} (body : M W A) (handler : exn -> M W A) : M W A :=
  fun st =>
    match body st with
    | (Return a, st') => (Return a, st')
    | (Raise e, st') => handler e st'
    end.

(** [for x in xs: body]. *)
Fixpoint for_each {W X} (xs : list X) (body : X -> M W unit) : M W unit :=
  match xs with
  | [] => ret tt
  | x :: rest => let* _ := body x in for_each rest body
  end.

Definition logging {W} (lv : level) (m : message) : M W unit :=
  emit (EvLog lv m).

(** [time.sleep(0.5)]. *)
Definition sleep {W} : M W unit := emit EvSleep.

Definition set_world {W} (w : W) (st : state W) : state W :=
  State w (blobs st) (cosmos st) (total_processed st) (trace st).

Section Primitives.
Context {W : Type} (sv : services W).

Definition http_get (url ua : str) : M W response :=
  fun st =>
    let '(r, w) := requests_get sv url ua (world st) in
    let st' := State w (blobs st) (cosmos st) (total_processed st)
                     (trace st ++ [EvGet url r]) in
    match r with
    | Some resp => (Return resp, st')
    | None => raise RequestException st'
    end.

Definition BeautifulSoup (markup : str) : M W soup :=
  match html_parser sv markup with
  | Some d => ret d
  | None => raise ParserError
  end.

Definition init_clients : M W unit :=
  fun st =>
    let '(ok, w) := azure_clients sv (world st) in
    if ok then (Return tt, set_world w st)
    else raise AzureInitError (set_world w st).

(** [upload_blob(data, overwrite=True)] under [name]: last write wins. *)
Definition upload (name data : str) : M W unit :=
  fun st =>
    let '(ok, w) := upload_blob sv name data (world st) in
    if ok then
      (Return tt,
       State w (<[name := data]> (blobs st)) (cosmos st)
             (total_processed st) (trace st ++ [EvUpload name data true]))
    else
      raise BlobError
        (State w (blobs st) (cosmos st) (total_processed st)
               (trace st ++ [EvUpload name data false])).

(** [container.upsert_item(it)]: insert or replace under [it["id"]]. *)
Definition upsert (it : item) : M W unit :=
  fun st =>
    let '(ok, w) := upsert_item sv it (world st) in
    match ok, item_get (lit "id") it with
    | true, Some (VStr doc_id) =>
        (Return tt,
         State w (blobs st) (<[doc_id := it]> (cosmos st))
               (total_processed st) (trace st ++ [EvUpsert it true]))
    | _, _ =>
        raise CosmosError
          (State w (blobs st) (cosmos st) (total_processed st)
                 (trace st ++ [EvUpsert it false]))
    end.

Definition strftime : M W str :=
  fun st => (Return (strftime_gmtime sv (world st)), st).

(** [total_processed = n]. *)
Definition set_total (n : Z) : M W unit :=
  fun st => (Return tt, State (world st) (blobs st) (cosmos st) n (trace st)).

Definition get_total : M W Z :=
  fun st => (Return (total_processed st), st).

Definition lift_option {A} (e : exn) (o : option A) : M W A :=
  match o with
  | Some a => ret a
  | None => raise e
  end.

End Primitives.

Definition opt_value (o : option str) : value :=
  match o with Some s => VStr s | None => VNone end.

(** The document [get_soup] makes of what [requests.get] gave: only a 200
    response is parsed. *)
Definition page_of {W} (sv : services W) (r : option response) : option soup :=
  match r with
  | Some resp =>
      if status_code resp =? 200 then html_parser sv (body resp) else None
  | None => None
  end.

(** What [get_soup] adds to the trace after the request. *)
Definition fetch_epilogue {W} (sv : services W) (url : str)
    (r : option response) : list event :=
  match r with
  | None => [EvRaise RequestException; EvLog ERROR (MsgFetchError url)]
  | Some resp =>
      if status_code resp =? 200 then
        match html_parser sv (body resp) with
        | Some _ => []
        | None => [EvRaise ParserError; EvLog ERROR (MsgFetchError url)]
        end
      else [EvLog WARNING (MsgFetchStatus url (status_code resp))]
  end.

(** ** scraper.py *)

Module Scraper.
Section Run.
Context {W : Type} (sv : services W).

Definition USER_AGENT : str := lit "Mozilla/5.0 AzureFunction/1.0".

Definition get_soup (url : str) : M W (option soup) :=
let* _ := sleep in
try_except
  (let* r := http_get sv url USER_AGENT in
   if negb (status_code r =? 200) then
     let* _ := logging WARNING (MsgFetchStatus url (status_code r)) in
     ret None
   else
     let* d := BeautifulSoup sv (body r) in
     ret (Some d))
  (fun _ =>
     let* _ := logging ERROR (MsgFetchError url) in
     ret None).

Definition get_files_from_theme (theme_url : str) : M W (list str) :=
let* soup := get_soup theme_url in
match soup with
| None => ret []
| Some d => ret (list_set (file_links d))
end.

Definition metadata_item (doc_id title file_url : str) (oeil_link : option str)
  (status blob_url safe_name theme scraped_at : str) : item :=
[ (lit "id", VStr doc_id);
  (lit "title", VStr title);
  (lit "original_url", VStr file_url);
  (lit "oeil_link", opt_value oeil_link);
  (lit "status", VStr status);
  (lit "blob_storage_url", VStr blob_url);
  (lit "blob_filename", VStr safe_name);
  (lit "theme_source", VStr theme);
  (lit "scraped_at", VStr scraped_at) ].

(** The body of the inner loop (lines 109-162). *)
Definition process_file (theme file_url : str) : M W unit :=
try_except
  (let* soup := get_soup file_url in
   match soup with
   | None => ret tt
   | Some d =>
       let title := extract_title d in
       let oeil_link := extract_oeil_link d in
       let status := extract_status d in
       let text_content := extract_text_content d in
       let* doc_id := lift_option UnicodeEncodeError (generate_id file_url) in
       let safe_name := safe_filename title doc_id in
       let* _ := upload sv safe_name text_content in
       let blob_url := blob_client_url sv safe_name in
       let* scraped_at := strftime sv in
       let* _ := upsert sv
                   (metadata_item doc_id title file_url oeil_link status
                                  blob_url safe_name theme scraped_at) in
       let* n := get_total in
       let* _ := set_total (n + 1) in
       logging INFO (MsgProcessed (firstn 30 title))
   end)
  (fun _ => logging ERROR (MsgItemError file_url)).

(** The body of the outer loop (lines 104-162). *)
Definition crawl_theme (theme : str) : M W unit :=
let* _ := logging INFO (MsgCrawling theme) in
let* file_urls := get_files_from_theme theme in
for_each file_urls (process_file theme).

Definition crawl_all : M W unit := for_each THEMES crawl_theme.

Definition legislative_scraper : M W unit :=
let* _ := logging INFO MsgStarted in
let* ready :=
  try_except
    (let* _ := init_clients sv in ret true)
    (fun _ => let* _ := logging ERROR MsgInitFailed in ret false) in
if ready then
  let* _ := set_total 0 in
  let* _ := crawl_all in
  let* n := get_total in
  logging INFO (MsgFinished n)
else ret tt.

End Run.
End Scraper.

(** ** function_app.py *)

Module FunctionApp.
Section Run.
Context {W : Type} (sv : services W).

Definition USER_AGENT : str := lit "Mozilla/5.0".

(** The comprehension of line 40; the selector leaves only anchors that
  have an [href], so [a['href']] is always there. *)
Definition links (d : soup) : list str :=
flat_map
  (fun a =>
     match get (lit "href") a with
     | Some href =>
         if startswith (lit "/legislative-train/theme-") href
         then [BASE_URL ++ href] else []
     | None => []
     end)
  (select sel_file_anchor d).

Definition extract_title (d : soup) : str :=
match select_one (is_tag (lit "h1")) d with
| Some title_el => get_text_strip [] title_el
| None => lit "Untitled"
end.

(** [content_div = f_soup.select_one(".content") or f_soup], then
  [content_div.get_text("\n", strip=True)]. *)
Definition extract_text (d : soup) : str :=
let nl := lit (String (ascii_of_nat 10) EmptyString) in
match select_one sel_content d with
| Some content_div => get_text_strip nl content_div
| None => soup_get_text_strip nl d
end.

(** [hashlib.md5(link.encode('utf-8')).hexdigest()] of line 53. *)
Definition doc_id_of (link : str) : option str :=
match encode_utf8 link with
| Some bs => Some (MD5.hexdigest bs)
| None => None
end.

Definition metadata_item (doc_id link title theme blob_url scraped_at : str)
  : item :=
[ (lit "id", VStr doc_id);
  (lit "url", VStr link);
  (lit "title", VStr title);
  (lit "theme", VStr theme);
  (lit "blob_url", VStr blob_url);
  (lit "scraped_at", VStr scraped_at) ].

(** The body of the inner loop (lines 43-69). *)
Definition process_link (theme link : str) : M W unit :=
try_except
  (let* f_r := http_get sv link USER_AGENT in
   let* f_soup := BeautifulSoup sv (body f_r) in
   let title := extract_title f_soup in
   let text := extract_text f_soup in
   let* doc_id := lift_option UnicodeEncodeError (doc_id_of link) in
   let blob_name := doc_id ++ lit ".txt" in
   let* _ := upload sv blob_name text in
   let* scraped_at := strftime sv in
   let* _ := upsert sv
               (metadata_item doc_id link title theme
                  (container_url sv ++ lit "/" ++ blob_name) scraped_at) in
   let* _ := logging INFO (MsgSaved (firstn 30 title)) in
   sleep)
  (fun _ => logging ERROR (MsgFileError link)).

(** The body of the outer loop (lines 37-71). *)
Definition crawl_theme (theme : str) : M W unit :=
try_except
  (let* r := http_get sv theme USER_AGENT in
   let* soup := BeautifulSoup sv (body r) in
   for_each (list_set (links soup)) (process_link theme))
  (fun _ => logging ERROR (MsgThemeError theme)).

Definition crawl_all : M W unit := for_each THEMES crawl_theme.

(** The clients are built outside every [try]. *)
Definition legislative_scraper : M W unit :=
let* _ := logging INFO MsgStarted in
let* _ := init_clients sv in
crawl_all.

End Run.
End FunctionApp.

(** ** Traces of a run *)

(** The blob container after the events [evs]: each upload that went through
    overwrites. *)
Definition replay_blobs (evs : list event) (b : gmap str str) : gmap str str :=
  fold_left
    (fun b e =>
       match e with
       | EvUpload name data true => <[name := data]> b
       | _ => b
       end)
    evs b.

(** The Metadata container after the events [evs]. *)
Definition replay_cosmos (evs : list event) (c : gmap str item)
    : gmap str item :=
  fold_left
    (fun c e =>
       match e with
       | EvUpsert it true =>
           match item_get (lit "id") it with
           | Some (VStr doc_id) => <[doc_id := it]> c
           | _ => c
           end
       | _ => c
       end)
    evs c.

Definition is_upsert_ok (e : event) : bool :=
  match e with EvUpsert _ true => true | _ => false end.

(** The number of upserts that went through. *)
Definition persisted (evs : list event) : Z :=
  Z.of_nat (length (List.filter is_upsert_ok evs)).

(** The state after the events [evs] happened in [st] and left the world
    [w]; [counting] tells whether the program counts its upserts. *)
Definition advance {W} (counting : bool) (st : state W) (w : W)
    (evs : list event) : state W :=
  State w (replay_blobs evs (blobs st)) (replay_cosmos evs (cosmos st))
        (total_processed st + if counting then persisted evs else 0)
        (trace st ++ evs).

(** The links [get_files_from_theme] returns for what the request gave. *)
Definition links_of {W} (sv : services W) (r : option response) : list str :=
  match page_of sv r with
  | Some d => list_set (file_links d)
  | None => []
  end.

Definition is_raise (e : event) : bool :=
  match e with EvRaise _ => true | _ => false end.

Definition is_upsert (e : event) : bool :=
  match e with EvUpsert _ _ => true | _ => false end.

(** Every exception of the trace is followed at once by an error line. *)
Definition raises_logged (evs : list event) : Prop :=
  forall pre e post,
    evs = pre ++ EvRaise e :: post ->
    exists m post', post = EvLog ERROR m :: post'.

Definition item_str (key : str) (it : item) : option str :=
  match item_get key it with
  | Some (VStr s) => Some s
  | _ => None
  end.

(** Every upsert of the trace, attempted or done, comes right after the
    upload that went through, and the pair satisfies [ok]. *)
Definition upserts_after_uploads (ok : str -> str -> item -> Prop)
    (evs : list event) : Prop :=
  forall pre it done post,
    evs = pre ++ EvUpsert it done :: post ->
    exists pre' name data,
      pre = pre' ++ [EvUpload name data true] /\ ok name data it.

Module ScraperTrace.
Section Shapes.
Context {W : Type} (sv : services W).

(** The events of one pass of the inner loop of scraper.py on [url]. *)
Inductive file_segment (theme url : str) : list event -> Prop :=
| seg_no_page r :
  page_of sv r = None ->
  file_segment theme url
    (EvSleep :: EvGet url r :: fetch_epilogue sv url r)
| seg_no_id r d :
  page_of sv r = Some d ->
  generate_id url = None ->
  file_segment theme url
    [EvSleep; EvGet url r; EvRaise UnicodeEncodeError;
     EvLog ERROR (MsgItemError url)]
| seg_upload_failed r d doc_id :
  page_of sv r = Some d ->
  generate_id url = Some doc_id ->
  file_segment theme url
    [EvSleep; EvGet url r;
     EvUpload (safe_filename (extract_title d) doc_id)
              (extract_text_content d) false;
     EvRaise BlobError; EvLog ERROR (MsgItemError url)]
| seg_upsert_failed r d doc_id scraped_at :
  page_of sv r = Some d ->
  generate_id url = Some doc_id ->
  file_segment theme url
    [EvSleep; EvGet url r;
     EvUpload (safe_filename (extract_title d) doc_id)
              (extract_text_content d) true;
     EvUpsert
       (Scraper.metadata_item doc_id (extract_title d) url
          (extract_oeil_link d) (extract_status d)
          (blob_client_url sv (safe_filename (extract_title d) doc_id))
          (safe_filename (extract_title d) doc_id) theme scraped_at)
       false;
     EvRaise CosmosError; EvLog ERROR (MsgItemError url)]
| seg_persisted r d doc_id scraped_at :
  page_of sv r = Some d ->
  generate_id url = Some doc_id ->
  file_segment theme url
    [EvSleep; EvGet url r;
     EvUpload (safe_filename (extract_title d) doc_id)
              (extract_text_content d) true;
     EvUpsert
       (Scraper.metadata_item doc_id (extract_title d) url
          (extract_oeil_link d) (extract_status d)
          (blob_client_url sv (safe_filename (extract_title d) doc_id))
          (safe_filename (extract_title d) doc_id) theme scraped_at)
       true;
     EvLog INFO (MsgProcessed (firstn 30 (extract_title d)))].

(** The events of one pass of the outer loop on [theme]: the theme page is
  requested, then every link found on it gets its pass. *)
Inductive theme_segment (theme : str) : list event -> Prop :=
| seg_theme r segs :
  Forall2 (file_segment theme) (links_of sv r) segs ->
  theme_segment theme
    (EvLog INFO (MsgCrawling theme) :: EvSleep :: EvGet theme r ::
     fetch_epilogue sv theme r ++ List.concat segs).

(** The record written for the blob [name]. *)
Definition item_matches_blob (name data : str) (it : item) : Prop :=
item_str (lit "blob_filename") it = Some name /\
item_str (lit "blob_storage_url") it = Some (blob_client_url sv name) /\
exists url doc_id,
  item_str (lit "original_url") it = Some url /\
  item_str (lit "id") it = Some doc_id /\
  generate_id url = Some doc_id.

End Shapes.
End ScraperTrace.

Module FunctionAppTrace.
Section Shapes.
Context {W : Type} (sv : services W).

(** The events of one pass of the inner loop of function_app.py. *)
Inductive link_segment (theme link : str) : list event -> Prop :=
| seg_no_response :
  link_segment theme link
    [EvGet link None; EvRaise RequestException;
     EvLog ERROR (MsgFileError link)]
| seg_no_parse r :
  html_parser sv (body r) = None ->
  link_segment theme link
    [EvGet link (Some r); EvRaise ParserError;
     EvLog ERROR (MsgFileError link)]
| seg_no_id r d :
  html_parser sv (body r) = Some d ->
  FunctionApp.doc_id_of link = None ->
  link_segment theme link
    [EvGet link (Some r); EvRaise UnicodeEncodeError;
     EvLog ERROR (MsgFileError link)]
| seg_upload_failed r d doc_id :
  html_parser sv (body r) = Some d ->
  FunctionApp.doc_id_of link = Some doc_id ->
  link_segment theme link
    [EvGet link (Some r);
     EvUpload (doc_id ++ lit ".txt") (FunctionApp.extract_text d) false;
     EvRaise BlobError; EvLog ERROR (MsgFileError link)]
| seg_upsert_failed r d doc_id scraped_at :
  html_parser sv (body r) = Some d ->
  FunctionApp.doc_id_of link = Some doc_id ->
  link_segment theme link
    [EvGet link (Some r);
     EvUpload (doc_id ++ lit ".txt") (FunctionApp.extract_text d) true;
     EvUpsert
       (FunctionApp.metadata_item doc_id link (FunctionApp.extract_title d)
          theme (container_url sv ++ lit "/" ++ doc_id ++ lit ".txt")
          scraped_at)
       false;
     EvRaise CosmosError; EvLog ERROR (MsgFileError link)]
| seg_saved r d doc_id scraped_at :
  html_parser sv (body r) = Some d ->
  FunctionApp.doc_id_of link = Some doc_id ->
  link_segment theme link
    [EvGet link (Some r);
     EvUpload (doc_id ++ lit ".txt") (FunctionApp.extract_text d) true;
     EvUpsert
       (FunctionApp.metadata_item doc_id link (FunctionApp.extract_title d)
          theme (container_url sv ++ lit "/" ++ doc_id ++ lit ".txt")
          scraped_at)
       true;
     EvLog INFO (MsgSaved (firstn 30 (FunctionApp.extract_title d)));
     EvSleep].

(** The events of one pass of the outer loop of function_app.py. *)
Inductive theme_segment (theme : str) : list event -> Prop :=
| seg_theme_no_response :
  theme_segment theme
    [EvGet theme None; EvRaise RequestException;
     EvLog ERROR (MsgThemeError theme)]
| seg_theme_no_parse r :
  html_parser sv (body r) = None ->
  theme_segment theme
    [EvGet theme (Some r); EvRaise ParserError;
     EvLog ERROR (MsgThemeError theme)]
| seg_theme r d segs :
  html_parser sv (body r) = Some d ->
  Forall2 (link_segment theme) (list_set (FunctionApp.links d)) segs ->
  theme_segment theme (EvGet theme (Some r) :: List.concat segs).

(** The record written for the blob [name]. *)
Definition item_matches_blob (name data : str) (it : item) : Prop :=
item_str (lit "blob_url") it
= Some (container_url sv ++ lit "/" ++ name) /\
exists url doc_id,
  item_str (lit "url") it = Some url /\
  item_str (lit "id") it = Some doc_id /\
  name = doc_id ++ lit ".txt" /\
  FunctionApp.doc_id_of url = Some doc_id.

End Shapes.
End FunctionAppTrace.

(** ** A small site to run the programs on *)

Module Fixture.

Definition detail_page : soup :=
  [ Tag (lit "h1") [] []
      [NavigableString (lit " Fit for 55: Reg. (EU) 2021/1119! ")];
    Tag (lit "div") [] [lit "train-status"] [NavigableString (lit "Adopted")];
    Tag (lit "p") [] [] [NavigableString (lit "Climate law")] ].

Definition theme_page : soup :=
  [ Tag (lit "a") [(lit "href", lit "/legislative-train/theme-x/file-1")] []
      [NavigableString (lit "Fit for 55")];
    Tag (lit "a") [(lit "href", lit "/other/file-2")] [] [];
    Tag (lit "a") [(lit "href", lit "/legislative-train/theme-x/file-1")] []
      [] ].

(** Every request is answered 200 with the URL as body; the body of a file
    URL parses to [detail_page], any other to [theme_page]; uploads go
    through; upserts go through when [upsert_ok]. *)
Definition site (upsert_ok : bool) : services unit :=
  Services
    (fun url _ w => (Some (Response 200 url), w))
    (fun markup =>
       if contains (lit "/file-") markup then Some detail_page
       else Some theme_page)
    (fun w => (true, w))
    (fun _ _ w => (true, w))
    (fun _ w => (upsert_ok, w))
    (fun _ => lit "2024-01-01T05:00:00Z")
    (fun name => lit "https://acct.blob.core.windows.net/scraped-text/" ++ name)
    (lit "https://acct.blob.core.windows.net/legislation-text").

(** A site whose every page is empty: no h1, no status, no anchor. *)
Definition bare_site : services unit :=
  Services
    (fun url _ w => (Some (Response 200 url), w))
    (fun _ => Some [])
    (fun w => (true, w))
    (fun _ _ w => (true, w))
    (fun _ w => (true, w))
    (fun _ => lit "2024-01-01T05:00:00Z")
    (fun name => lit "https://acct.blob.core.windows.net/scraped-text/" ++ name)
    (lit "https://acct.blob.core.windows.net/legislation-text").

Definition empty_state : state unit := State tt ∅ ∅ 0 [].

Definition file_url : str :=
  lit "https://www.europarl.europa.eu/legislative-train/theme-x/file-1".

Definition theme_url : str :=
  lit "https://www.europarl.europa.eu/legislative-train/theme-x".

End Fixture.

(** ** More observations on traces *)

Definition is_sleep (e : event) : bool :=
  match e with EvSleep => true | _ => false end.

Definition is_upload_ok (e : event) : bool :=
  match e with EvUpload _ _ true => true | _ => false end.

(** The URLs requested, in order. *)
Fixpoint requested (evs : list event) : list str :=
  match evs with
  | [] => []
  | EvGet url _ :: rest => url :: requested rest
  | _ :: rest => requested rest
  end.

(** Every request of the trace comes right after the delay. *)
Definition sleep_before_get (evs : list event) : Prop :=
  forall pre url r post,
    evs = pre ++ EvGet url r :: post -> exists pre', pre = pre' ++ [EvSleep].

(** A detail URL of the site: it begins with the origin and the theme
    prefix and it contains "/file-". *)
Definition on_site (u : str) : Prop :=
  (exists rest, u = BASE_URL ++ lit "/legislative-train/theme-" ++ rest)
  /\ (exists pre post, u = pre ++ lit "/file-" ++ post).

(** The names uploaded and the ids upserted by the events, failures left
    out. *)
Fixpoint uploaded (evs : list event) : list str :=
  match evs with
  | [] => []
  | EvUpload name _ true :: rest => name :: uploaded rest
  | _ :: rest => uploaded rest
  end.

Fixpoint upserted (evs : list event) : list str :=
  match evs with
  | [] => []
  | EvUpsert it true :: rest =>
      match item_str (lit "id") it with
      | Some doc_id => doc_id :: upserted rest
      | None => upserted rest
      end
  | _ :: rest => upserted rest
  end.

(** A site where the Azure clients cannot be built. *)
Module Outage.

Definition site : services unit :=
  Services
    (fun url _ w => (Some (Response 200 url), w))
    (fun _ => Some Fixture.theme_page)
    (fun w => (false, w))
    (fun _ _ w => (true, w))
    (fun _ w => (true, w))
    (fun _ => lit "2024-01-01T05:00:00Z")
    (fun name => lit "https://acct.blob.core.windows.net/scraped-text/" ++ name)
    (lit "https://acct.blob.core.windows.net/legislation-text").

(** A site that answers every request with status 404 and a body that
    parses to the theme page. *)
Definition not_found_site : services unit :=
  Services
    (fun url _ w => (Some (Response 404 url), w))
    (fun _ => Some Fixture.theme_page)
    (fun w => (true, w))
    (fun _ _ w => (true, w))
    (fun _ w => (true, w))
    (fun _ => lit "2024-01-01T05:00:00Z")
    (fun name => lit "https://acct.blob.core.windows.net/scraped-text/" ++ name)
    (lit "https://acct.blob.core.windows.net/legislation-text").

(** A site where no upload goes through. *)
Definition blob_down_site : services unit :=
  Services
    (fun url _ w => (Some (Response 200 url), w))
    (fun _ => Some Fixture.detail_page)
    (fun w => (true, w))
    (fun _ _ w => (false, w))
    (fun _ w => (true, w))
    (fun _ => lit "2024-01-01T05:00:00Z")
    (fun name => lit "https://acct.blob.core.windows.net/scraped-text/" ++ name)
    (lit "https://acct.blob.core.windows.net/legislation-text").

End Outage.

(** A site whose page has a new title from the second request on; the
    world tells whether a request was made. *)
Module Retitled.

Definition second_page : soup :=
  [ Tag (lit "h1") [] [] [NavigableString (lit "Fit for 55 (recast)")];
    Tag (lit "p") [] [] [NavigableString (lit "Climate law, recast")] ].

Definition site : services bool :=
  Services
    (fun _ _ (seen : bool) =>
       (Some (Response 200 (if seen then lit "v2" else lit "v1")), true))
    (fun markup =>
       if str_eqb markup (lit "v2") then Some second_page
       else Some Fixture.detail_page)
    (fun w => (true, w))
    (fun _ _ w => (true, w))
    (fun _ w => (true, w))
    (fun _ => lit "2024-01-01T05:00:00Z")
    (fun name => lit "https://acct.blob.core.windows.net/scraped-text/" ++ name)
    (lit "https://acct.blob.core.windows.net/legislation-text").

Definition first_state : state bool := State false ∅ ∅ 0 [].

End Retitled.

(** * Properties *)


Example md5_empty : generate_id (lit "") = Some (lit "d41d8cd98f00b204e9800998ecf8427e").
Proof. vm_compute. reflexivity. Qed.

Example md5_abc : generate_id (lit "abc") = Some (lit "900150983cd24fb0d6963f7d28e17f72").
Proof. vm_compute. reflexivity. Qed.

Example md5_long :
  generate_id (lit "12345678901234567890123456789012345678901234567890123456789012345678901234567890")
  = Some (lit "57edf4a22be3c955ac49da2e2107b67a").
Proof. vm_compute. reflexivity. Qed.

Example sanitize_fit_for_55 :
  re_sub (lit "Fit for 55: Reg. (EU) 2021/1119!") = lit "Fit_for_55_Reg_EU_2021_1119_".
Proof. reflexivity. Qed.

(** ** The identifier deriver *)

Lemma encode_codepoint_scalar c :
  is_scalar c = true -> exists bs, encode_codepoint c = Some bs.
Proof.
  intros Hc. unfold encode_codepoint. rewrite Hc. simpl.
  repeat match goal with |- context [if ?b then _ else _] => destruct b end;
    eauto.
Qed.

Lemma encode_utf8_encodable u :
  encodable u = true -> exists bs, encode_utf8 u = Some bs.
Proof.
  induction u as [|c u IH]; simpl; intros Hu.
  - eauto.
  - apply andb_prop in Hu as [Hc Hu].
    destruct (encode_codepoint_scalar c Hc) as [bs ->].
    destruct (IH Hu) as [more ->]. eauto.
Qed.

Lemma encode_utf8_surrogate u :
  encodable u = false <-> encode_utf8 u = None.
Proof.
  induction u as [|c u IH]; simpl.
  - split; discriminate.
  - destruct (is_scalar c) eqn:Hc; simpl.
    + destruct (encode_codepoint_scalar c Hc) as [bs ->].
      rewrite IH. destruct (encode_utf8 u); split; congruence.
    + unfold encode_codepoint. rewrite Hc. simpl. tauto.
Qed.

Lemma hex_digit_lower n :
  0 <= n < 16 -> is_lower_hex (MD5.hex_digit n) = true.
Proof.
  intros Hn.
  assert (Hall : forallb (fun k => is_lower_hex (MD5.hex_digit (Z.of_nat k)))
                   (seq 0 16) = true) by reflexivity.
  rewrite forallb_forall in Hall.
  rewrite <- (Z2Nat.id n) by lia. apply Hall, in_seq. lia.
Qed.

Lemma le_bytes_range n x :
  Forall (fun b => 0 <= b < 256) (MD5.le_bytes n x).
Proof.
  revert x. induction n as [|n IH]; intros x; simpl; constructor.
  - apply Z.mod_pos_bound. lia.
  - apply IH.
Qed.

Lemma le_bytes_length n x : length (MD5.le_bytes n x) = n.
Proof. revert x. induction n as [|n IH]; intros x; simpl; auto. Qed.

Lemma digest_range msg : Forall (fun b => 0 <= b < 256) (MD5.digest msg).
Proof.
  unfold MD5.digest. repeat rewrite Forall_app.
  repeat split; apply le_bytes_range.
Qed.

Lemma digest_length msg : length (MD5.digest msg) = 16%nat.
Proof.
  unfold MD5.digest. repeat rewrite length_app.
  repeat rewrite le_bytes_length. reflexivity.
Qed.

Lemma hex_bytes_length bs :
  length (List.concat (List.map MD5.hex_byte bs)) = (2 * length bs)%nat.
Proof. induction bs as [|b bs IH]; simpl; [reflexivity | rewrite IH; lia]. Qed.

Lemma hex_bytes_lower bs :
  Forall (fun b => 0 <= b < 256) bs ->
  forallb is_lower_hex (List.concat (List.map MD5.hex_byte bs)) = true.
Proof.
  induction 1 as [|b bs Hb _ IH]; simpl; [reflexivity |].
  rewrite IH, !hex_digit_lower; [reflexivity | |].
  - apply Z.mod_pos_bound. lia.
  - split; [apply Z.div_pos; lia | apply Z.div_lt_upper_bound; lia].
Qed.

Lemma hexdigest_length msg : length (MD5.hexdigest msg) = 32%nat.
Proof. unfold MD5.hexdigest. rewrite hex_bytes_length, digest_length. reflexivity. Qed.

Lemma hexdigest_lower msg : forallb is_lower_hex (MD5.hexdigest msg) = true.
Proof. apply hex_bytes_lower, digest_range. Qed.

(** C1 (as amended): the id is a function of the URL alone. For every URL
    that has a UTF-8 form, generate_id of scraper.py and the doc_id
    computation of function_app.py both return the same value, the MD5
    digest of the URL's UTF-8 bytes written as 32 lowercase hexadecimal
    characters; no title, clock or store is an argument of either. The ids of
    the six seed URLs are pairwise distinct. *)
Theorem generate_id_function_of_url (u : str) (Hu : encodable u = true) :
  exists bs h,
    encode_utf8 u = Some bs /\ h = MD5.hexdigest bs /\
    generate_id u = Some h /\ FunctionApp.doc_id_of u = Some h /\
    length h = 32%nat /\ forallb is_lower_hex h = true /\
    NoDup (List.map generate_id THEMES).
Proof.
  destruct (encode_utf8_encodable u Hu) as [bs Hbs].
  exists bs, (MD5.hexdigest bs).
  unfold generate_id, FunctionApp.doc_id_of. rewrite Hbs.
  repeat split; auto using hexdigest_length, hexdigest_lower.
  apply (bool_decide_unpack (NoDup (List.map generate_id THEMES))).
  vm_compute. exact I.
Qed.

Lemma generate_id_function_of_url_witness :
  exists bs h,
    encode_utf8 (lit "abc") = Some bs /\ h = MD5.hexdigest bs /\
    generate_id (lit "abc") = Some h /\
    FunctionApp.doc_id_of (lit "abc") = Some h /\
    length h = 32%nat /\ forallb is_lower_hex h = true /\
    NoDup (List.map generate_id THEMES).
Proof. apply (generate_id_function_of_url (lit "abc")). reflexivity. Defined.

(** C1, the claim as stated fails: two different URLs with the same id. *)
Lemma generate_id_collision :
  lit "TEXTCOLLBYfGiJUETHQ4hAcKSMd5zYpgqf1YRDhkmxHkhPWptrkoyz28wnI9V0aHeAuaKnak"
  <> lit "TEXTCOLLBYfGiJUETHQ4hEcKSMd5zYpgqf1YRDhkmxHkhPWptrkoyz28wnI9V0aHeAuaKnak"
  /\ generate_id
       (lit "TEXTCOLLBYfGiJUETHQ4hAcKSMd5zYpgqf1YRDhkmxHkhPWptrkoyz28wnI9V0aHeAuaKnak")
     = Some (lit "faad49866e9498fc1719f5289e7a0269")
  /\ generate_id
       (lit "TEXTCOLLBYfGiJUETHQ4hEcKSMd5zYpgqf1YRDhkmxHkhPWptrkoyz28wnI9V0aHeAuaKnak")
     = Some (lit "faad49866e9498fc1719f5289e7a0269").
Proof.
  split; [| split].
  - vm_compute. discriminate.
  - vm_compute. reflexivity.
  - vm_compute. reflexivity.
Qed.

(** ** The blob filename *)

Lemma re_sub_from_name_chars b s :
  forallb is_name_char (re_sub_from b s) = true.
Proof.
  revert b. induction s as [|c s IH]; intros b; simpl; [reflexivity |].
  destruct (is_name_char c) eqn:Hc; simpl.
  - rewrite Hc. apply IH.
  - destruct b; simpl; apply IH.
Qed.

Lemma forallb_firstn {A} (p : A -> bool) n l :
  forallb p l = true -> forallb p (firstn n l) = true.
Proof.
  revert l. induction n as [|n IH]; intros [|x l]; simpl; auto.
  intros H. apply andb_prop in H as [-> H]. simpl. auto.
Qed.

Lemma re_sub_from_flag b s :
  starts_with_name_char s -> re_sub_from b s = re_sub_from false s.
Proof.
  destruct s as [|c s]; simpl; [reflexivity |]. intros ->. reflexivity.
Qed.

Lemma re_sub_from_word b w rest :
  forallb is_name_char w = true -> w <> [] ->
  re_sub_from b (w ++ rest) = w ++ re_sub_from false rest.
Proof.
  revert b. induction w as [|c w IH]; intros b Hw Hne; [congruence |].
  simpl in *. apply andb_prop in Hw as [Hc Hw]. rewrite Hc. f_equal.
  destruct w as [|c' w]; [reflexivity |].
  apply IH; [exact Hw | discriminate].
Qed.

Lemma re_sub_from_run run post :
  forallb (fun c => negb (is_name_char c)) run = true ->
  starts_with_name_char post ->
  re_sub_from true (run ++ post) = re_sub_from false post.
Proof.
  induction run as [|c run IH]; simpl; intros Hrun Hpost.
  - apply re_sub_from_flag, Hpost.
  - apply andb_prop in Hrun as [Hc Hrun].
    apply negb_true_iff in Hc. rewrite Hc. auto.
Qed.

Lemma re_sub_run w run post :
  forallb is_name_char w = true ->
  run <> [] ->
  forallb (fun c => negb (is_name_char c)) run = true ->
  starts_with_name_char post ->
  re_sub (w ++ run ++ post) = w ++ lit "_" ++ re_sub post.
Proof.
  intros Hw Hne Hrun Hpost. unfold re_sub.
  assert (Hr : re_sub_from false (run ++ post)
               = lit "_" ++ re_sub_from false post).
  { destruct run as [|c run]; [congruence |]. simpl in *.
    apply andb_prop in Hrun as [Hc Hrun]. apply negb_true_iff in Hc.
    rewrite Hc. f_equal. apply re_sub_from_run; assumption. }
  destruct w as [|c w]; [exact Hr |].
  rewrite re_sub_from_word by (auto; discriminate). rewrite Hr. reflexivity.
Qed.

Lemma re_sub_names w : forallb is_name_char w = true -> re_sub w = w.
Proof.
  intros Hw. unfold re_sub. destruct w as [|c w]; [reflexivity |].
  rewrite <- (app_nil_r (c :: w)) at 1.
  rewrite re_sub_from_word by (auto; discriminate).
  simpl. rewrite app_nil_r. reflexivity.
Qed.

(** C5: the blob filename of scraper.py is the sanitized title cut to at
    most 100 characters, then an underscore, the first 6 characters of the id
    and ".txt". The part before the suffix holds only characters of
    [A-Za-z0-9_-]. Sanitizing keeps a title of such characters as it is and
    replaces each maximal run of other characters by one underscore: after a
    prefix [w] of kept characters, a non-empty run of other characters that
    ends the title or is followed by a kept character becomes one "_". *)
Theorem safe_filename_shape (title doc_id : str) :
  safe_filename title doc_id
  = firstn 100 (re_sub title) ++ lit "_" ++ firstn 6 doc_id ++ lit ".txt"
  /\ (length (firstn 100 (re_sub title)) <= 100)%nat
  /\ forallb is_name_char (firstn 100 (re_sub title)) = true
  /\ (forallb is_name_char title = true -> re_sub title = title)
  /\ (forall w run post,
        title = w ++ run ++ post ->
        forallb is_name_char w = true ->
        run <> [] ->
        forallb (fun c => negb (is_name_char c)) run = true ->
        starts_with_name_char post ->
        re_sub title = w ++ lit "_" ++ re_sub post)
  /\ (length doc_id = 32%nat -> length (firstn 6 doc_id) = 6%nat).
Proof.
  repeat split.
  - apply firstn_le_length.
  - apply forallb_firstn, re_sub_from_name_chars.
  - apply re_sub_names.
  - intros w run post ->. apply re_sub_run.
  - intros Hlen. rewrite length_firstn. lia.
Qed.

Lemma safe_filename_shape_witness :
  safe_filename (lit "Fit for 55: Reg. (EU) 2021/1119!")
                (lit "900150983cd24fb0d6963f7d28e17f72")
  = lit "Fit_for_55_Reg_EU_2021_1119__900150.txt"
  /\ re_sub (lit "Fit for 55: Reg. (EU) 2021/1119!")
     = lit "Fit" ++ lit "_" ++ re_sub (lit "for 55: Reg. (EU) 2021/1119!")
  /\ re_sub (lit "a_b-C9") = lit "a_b-C9"
  /\ length (firstn 6 (lit "900150983cd24fb0d6963f7d28e17f72")) = 6%nat.
Proof.
  pose proof (safe_filename_shape (lit "Fit for 55: Reg. (EU) 2021/1119!")
                (lit "900150983cd24fb0d6963f7d28e17f72"))
    as (Hname & _ & _ & _ & Hrun & Hid).
  pose proof (safe_filename_shape (lit "a_b-C9") [])
    as (_ & _ & _ & Hkeep & _).
  split; [| split; [| split]].
  - rewrite Hname. reflexivity.
  - apply (Hrun (lit "Fit") (lit " ") (lit "for 55: Reg. (EU) 2021/1119!"));
      [reflexivity | reflexivity | discriminate | reflexivity | reflexivity].
  - apply Hkeep. reflexivity.
  - apply Hid. reflexivity.
Defined.

(** ** Strings and documents *)

Lemma startswith_spec p s :
  startswith p s = true <-> exists rest, s = p ++ rest.
Proof.
  revert s. induction p as [|a p IH]; intros s; simpl.
  - split; eauto.
  - destruct s as [|b s].
    + split; [discriminate | intros [rest Hr]; discriminate].
    + rewrite andb_true_iff, Z.eqb_eq, IH. split.
      * intros [-> [rest ->]]. eauto.
      * intros [rest Hr]. injection Hr as -> ->. eauto.
Qed.

Lemma contains_spec p s :
  contains p s = true <-> exists pre post, s = pre ++ p ++ post.
Proof.
  induction s as [|c s IH]; simpl.
  - rewrite orb_false_r, startswith_spec. split.
    + intros [rest ->]. exists [], rest. reflexivity.
    + intros (pre & post & H). destruct pre; simpl in H.
      * eauto.
      * discriminate.
  - rewrite orb_true_iff, startswith_spec, IH. split.
    + intros [[rest ->] | (pre & post & ->)].
      * exists [], rest. reflexivity.
      * exists (c :: pre), post. reflexivity.
    + intros (pre & post & H). destruct pre as [|c' pre]; simpl in H.
      * left. eauto.
      * injection H as -> ->. right. eauto.
Qed.

Lemma find_none_iff {A} (p : A -> bool) l :
  List.find p l = None <-> forall x, In x l -> p x = false.
Proof.
  induction l as [|y l IH]; simpl.
  - split; [intros _ x [] | reflexivity].
  - destruct (p y) eqn:Hy.
    + split; [discriminate |]. intros H. rewrite H in Hy; auto. discriminate.
    + rewrite IH. split.
      * intros H x [<- | Hx]; auto.
      * intros H x Hx. auto.
Qed.

(** ** The link discoverer, on a parsed page *)

Lemma file_links_spec d u : In u (file_links d) <-> detail_link d u.
Proof.
  unfold file_links, detail_link, select, sel_file_anchor.
  rewrite in_flat_map. split.
  - intros (a & Ha & Hu). apply filter_In in Ha as [Ha Hsel].
    apply andb_prop in Hsel as [Htag Hsel].
    destruct (get (lit "href") a) as [href|] eqn:Hhref; [| destruct Hu].
    destruct (nonempty href && startswith _ href) eqn:Hp; [| destruct Hu].
    apply andb_prop in Hp as [_ Hp]. destruct Hu as [<- | []].
    exists a, href. rewrite list_elem_of_In.
    repeat split; auto.
    + apply contains_spec, Hsel.
    + apply startswith_spec, Hp.
  - intros (a & href & Ha & Htag & Hhref & Hc & Hp & ->).
    exists a. rewrite filter_In, Htag, Hhref. rewrite list_elem_of_In in Ha.
    apply contains_spec in Hc. apply startswith_spec in Hp as Hp'.
    rewrite Hc, Hp'. destruct Hp as [rest ->]. simpl. auto.
Qed.

Lemma list_set_spec l : NoDup (list_set l) /\ forall u, u ∈ list_set l <-> u ∈ l.
Proof.
  unfold list_set. split; [apply NoDup_elements |].
  intros u. rewrite elem_of_elements, elem_of_list_to_set. reflexivity.
Qed.

Lemma list_set_nil l : (forall u, ~ In u l) -> list_set l = [].
Proof.
  intros H. destruct l as [|x l]; [reflexivity |].
  exfalso. apply (H x). left. reflexivity.
Qed.

(** function_app.py builds the same links: its comprehension only leaves
    out the test that the href is not empty. *)
Lemma function_app_links d : FunctionApp.links d = file_links d.
Proof.
  unfold FunctionApp.links, file_links. apply flat_map_ext. intros a.
  destruct (get (lit "href") a) as [[|c href]|]; reflexivity.
Qed.

(** ** The detail extractor *)

Lemma existsb_false_iff {A} (p : A -> bool) l :
  existsb p l = false <-> forall x, In x l -> p x = false.
Proof.
  induction l as [|y l IH]; simpl.
  - split; [intros _ x [] | reflexivity].
  - rewrite orb_false_iff, IH. split.
    + intros [Hy H] x [<- | Hx]; auto.
    + intros H. split; auto.
Qed.

Lemma first_oeil_none anchors :
  (forall a, In a anchors -> is_oeil_anchor a = false) ->
  (forall a, In a anchors -> sel_anchor_with_href a = true) ->
  first_oeil anchors = None.
Proof.
  induction anchors as [|a anchors IH]; simpl; [reflexivity |].
  intros Hno Hsel.
  pose proof (Hno a (or_introl eq_refl)) as Ha.
  pose proof (Hsel a (or_introl eq_refl)) as Hs.
  unfold is_oeil_anchor in Ha. rewrite Hs in Ha. simpl in Ha.
  destruct (get (lit "href") a) as [h|]; [rewrite Ha |]; apply IH; auto.
Qed.

Lemma first_oeil_first_match l h :
  first_oeil (List.filter sel_anchor_with_href l) = Some h
  <-> exists pre a post,
      l = pre ++ a :: post
      /\ is_oeil_anchor a = true
      /\ get (lit "href") a = Some h
      /\ existsb is_oeil_anchor pre = false.
Proof.
  induction l as [|x l IH]; simpl.
  - split; [discriminate |].
    intros (pre & a & post & H & _). destruct pre; discriminate.
  - destruct (is_oeil_anchor x) eqn:Hx.
    + unfold is_oeil_anchor in Hx. apply andb_prop in Hx as [Hsel Hhost].
      rewrite Hsel. simpl.
      destruct (get (lit "href") x) as [hx|] eqn:Hhref; [| discriminate].
      rewrite Hhost. split.
      * intros [= <-]. exists [], x, l.
        unfold is_oeil_anchor. rewrite Hsel, Hhref, Hhost. auto.
      * intros (pre & a & post & Hl & _ & Ha & Hpre).
        destruct pre as [|y pre]; simpl in Hl; injection Hl as <- _.
        -- congruence.
        -- simpl in Hpre. unfold is_oeil_anchor in Hpre at 1.
           rewrite Hsel, Hhref, Hhost in Hpre. discriminate.
    + assert (Hskip : first_oeil
                        (if sel_anchor_with_href x
                         then x :: List.filter sel_anchor_with_href l
                         else List.filter sel_anchor_with_href l)
                      = first_oeil (List.filter sel_anchor_with_href l)).
      { unfold is_oeil_anchor in Hx.
        destruct (sel_anchor_with_href x); [| reflexivity]. simpl in *.
        destruct (get (lit "href") x); [rewrite Hx |]; reflexivity. }
      rewrite Hskip, IH. split.
      * intros (pre & a & post & -> & Ha & Hh & Hpre).
        exists (x :: pre), a, post. simpl. rewrite Hx. auto.
      * intros (pre & a & post & Hl & Ha & Hh & Hpre).
        destruct pre as [|y pre]; simpl in Hl; injection Hl as <- ->.
        -- congruence.
        -- simpl in Hpre. apply orb_false_elim in Hpre as [_ Hpre].
           exists pre, a, post. auto.
Qed.

Lemma find_first {A} (p : A -> bool) l pre x post :
  l = pre ++ x :: post -> p x = true -> existsb p pre = false ->
  List.find p l = Some x.
Proof.
  intros -> Hx. induction pre as [|y pre IH]; simpl; intros Hpre.
  - rewrite Hx. reflexivity.
  - apply orb_false_elim in Hpre as [Hy Hpre]. rewrite Hy. auto.
Qed.

Lemma after_slashes_spec s rest :
  after_slashes s = Some rest -> exists pre, s = pre ++ lit "//" ++ rest.
Proof.
  induction s as [|a s IH]; simpl; [discriminate |].
  destruct s as [|b s]; [discriminate |].
  destruct ((a =? 47) && (b =? 47)) eqn:Hab.
  - intros [= <-]. apply andb_prop in Hab as [Ha Hb].
    apply Z.eqb_eq in Ha, Hb. subst a b. exists []. reflexivity.
  - intros H. destruct (IH H) as [pre Hpre]. exists (a :: pre).
    simpl. rewrite Hpre. reflexivity.
Qed.

Lemma take_host_prefix s : exists rest, s = take_host s ++ rest.
Proof.
  induction s as [|c s [rest IH]]; simpl; [exists []; reflexivity |].
  destruct ((c =? 47) || (c =? 63) || (c =? 35)).
  - exists (c :: s). reflexivity.
  - exists rest. simpl. rewrite <- IH. reflexivity.
Qed.

(** An anchor that targets the OEIL host is one the test of the code
    takes. *)
Lemma claimed_oeil_anchor_taken n :
  claimed_oeil_anchor n = true -> is_oeil_anchor n = true.
Proof.
  unfold claimed_oeil_anchor, is_oeil_anchor, sel_anchor_with_href.
  intros H. apply andb_prop in H as [Htag H]. rewrite Htag.
  destruct (get (lit "href") n) as [h|]; [| discriminate]. simpl.
  unfold href_host in H.
  destruct (after_slashes h) as [rest|] eqn:Hrest; [| discriminate].
  apply bool_decide_eq_true in H.
  destruct (after_slashes_spec h rest Hrest) as [pre ->].
  destruct (take_host_prefix rest) as [tail Htail].
  apply contains_spec. exists (pre ++ lit "//"), tail.
  rewrite <- H, <- app_assoc, <- Htail. reflexivity.
Qed.

(** C6 (as amended): each field of the detail extractor is decided by its
    own anchor alone, whatever else the page holds. Without an h1 the title
    is "Untitled" (in both programs); with one, it is the text of the first
    h1, trimmed. Without an element of class train-status the status is
    "Unknown"; with a div of that class, it is the trimmed text of the first
    one. Without an anchor whose href contains the name
    "oeil.secure.europarl.europa.eu" the oeil_link is None; with one, it is
    the href of the first. The name may stand anywhere in the href: an
    anchor that targets the OEIL host is among those taken, and so are
    others. *)
Theorem field_defaults (d : soup) :
  (existsb (is_tag (lit "h1")) (descendants d) = false ->
   extract_title d = lit "Untitled" /\
   FunctionApp.extract_title d = lit "Untitled")
  /\ (existsb (has_class (lit "train-status")) (descendants d) = false ->
      extract_status d = lit "Unknown")
  /\ (existsb is_oeil_anchor (descendants d) = false ->
      extract_oeil_link d = None)
  /\ (forall pre title_el post,
        descendants d = pre ++ title_el :: post ->
        is_tag (lit "h1") title_el = true ->
        existsb (is_tag (lit "h1")) pre = false ->
        extract_title d = strip (text title_el) /\
        FunctionApp.extract_title d = get_text_strip [] title_el)
  /\ (forall pre status_el post,
        descendants d = pre ++ status_el :: post ->
        is_tag (lit "div") status_el = true ->
        has_class (lit "train-status") status_el = true ->
        existsb sel_train_status pre = false ->
        extract_status d = strip (text status_el))
  /\ (forall pre a h post,
        descendants d = pre ++ a :: post ->
        is_tag (lit "a") a = true ->
        get (lit "href") a = Some h ->
        (exists before after, h = before ++ OEIL_HOST ++ after) ->
        existsb is_oeil_anchor pre = false ->
        extract_oeil_link d = Some h)
  /\ (forall n, claimed_oeil_anchor n = true -> is_oeil_anchor n = true).
Proof.
  split; [| split; [| split; [| split; [| split; [| split]]]]].
  - intros H. rewrite existsb_false_iff in H.
    unfold extract_title, FunctionApp.extract_title, select_one.
    apply find_none_iff in H. rewrite H. auto.
  - intros H. rewrite existsb_false_iff in H.
    unfold extract_status, select_one.
    assert (Hf : List.find sel_train_status (descendants d) = None).
    { apply find_none_iff. intros n Hn. unfold sel_train_status.
      rewrite (H n Hn). apply andb_false_r. }
    rewrite Hf. reflexivity.
  - intros H. rewrite existsb_false_iff in H.
    unfold extract_oeil_link, select. apply first_oeil_none.
    + intros a Ha. apply filter_In in Ha as [Ha _]. auto.
    + intros a Ha. apply filter_In in Ha as [_ Ha]. exact Ha.
  - intros pre title_el post Hd Htag Hpre.
    unfold extract_title, FunctionApp.extract_title, select_one.
    rewrite (find_first _ _ pre title_el post Hd Htag Hpre). auto.
  - intros pre status_el post Hd Htag Hclass Hpre.
    unfold extract_status, select_one.
    rewrite (find_first sel_train_status _ pre status_el post Hd);
      [reflexivity | | exact Hpre].
    unfold sel_train_status. rewrite Htag, Hclass. reflexivity.
  - intros pre a h post Hd Htag Hh Hhost Hpre.
    unfold extract_oeil_link, select. apply first_oeil_first_match.
    exists pre, a, post. split; [exact Hd |].
    unfold is_oeil_anchor, sel_anchor_with_href. rewrite Htag, Hh.
    apply contains_spec in Hhost. rewrite Hhost. auto.
  - apply claimed_oeil_anchor_taken.
Qed.

Lemma field_defaults_witness :
  (extract_title [] = lit "Untitled" /\
   FunctionApp.extract_title [] = lit "Untitled")
  /\ extract_status
       [Tag (lit "h1") [] [] [NavigableString (lit " Fit for 55 ")]]
     = lit "Unknown"
  /\ extract_oeil_link
       [Tag (lit "h1") [] [] [NavigableString (lit " Fit for 55 ")];
        Tag (lit "a") [(lit "href", lit "/legislative-train/")] [] []]
     = None
  /\ extract_title
       [Tag (lit "p") [] [] [];
        Tag (lit "h1") [] [] [NavigableString (lit " Fit for 55 ")]]
     = strip (text (Tag (lit "h1") [] []
                      [NavigableString (lit " Fit for 55 ")]))
  /\ extract_status
       [Tag (lit "span") [] [lit "train-status"] [];
        Tag (lit "div") [] [lit "train-status"]
          [NavigableString (lit " Adopted ")]]
     = strip (text (Tag (lit "div") [] [lit "train-status"]
                      [NavigableString (lit " Adopted ")]))
  /\ extract_oeil_link
       [Tag (lit "a")
          [(lit "href", lit "https://oeil.secure.europarl.europa.eu/oeil/1")]
          [] []]
     = Some (lit "https://oeil.secure.europarl.europa.eu/oeil/1")
  /\ is_oeil_anchor
       (Tag (lit "a")
          [(lit "href", lit "https://oeil.secure.europarl.europa.eu/oeil/1")]
          [] [])
     = true.
Proof.
  split; [| split; [| split; [| split; [| split; [| split]]]]].
  - apply (field_defaults []). reflexivity.
  - apply (field_defaults
             [Tag (lit "h1") [] [] [NavigableString (lit " Fit for 55 ")]]).
    reflexivity.
  - apply (field_defaults
             [Tag (lit "h1") [] [] [NavigableString (lit " Fit for 55 ")];
              Tag (lit "a") [(lit "href", lit "/legislative-train/")] [] []]).
    reflexivity.
  - destruct (field_defaults
                [Tag (lit "p") [] [] [];
                 Tag (lit "h1") [] [] [NavigableString (lit " Fit for 55 ")]])
      as (_ & _ & _ & Htitle & _).
    apply (Htitle [Tag (lit "p") [] [] []]
             (Tag (lit "h1") [] [] [NavigableString (lit " Fit for 55 ")])
             [NavigableString (lit " Fit for 55 ")]);
      reflexivity.
  - destruct (field_defaults
                [Tag (lit "span") [] [lit "train-status"] [];
                 Tag (lit "div") [] [lit "train-status"]
                   [NavigableString (lit " Adopted ")]])
      as (_ & _ & _ & _ & Hstatus & _).
    apply (Hstatus [Tag (lit "span") [] [lit "train-status"] []]
             (Tag (lit "div") [] [lit "train-status"]
                [NavigableString (lit " Adopted ")])
             [NavigableString (lit " Adopted ")]);
      reflexivity.
  - destruct (field_defaults
                [Tag (lit "a")
                   [(lit "href",
                     lit "https://oeil.secure.europarl.europa.eu/oeil/1")]
                   [] []])
      as (_ & _ & _ & _ & _ & Hoeil & _).
    apply (Hoeil []
             (Tag (lit "a")
                [(lit "href",
                  lit "https://oeil.secure.europarl.europa.eu/oeil/1")]
                [] [])
             (lit "https://oeil.secure.europarl.europa.eu/oeil/1") []);
      try reflexivity.
    exists (lit "https://"), (lit "/oeil/1"). reflexivity.
  - destruct (field_defaults []) as (_ & _ & _ & _ & _ & _ & Htaken).
    apply Htaken. reflexivity.
Defined.

(** C6, the claim as stated fails: the only anchor of the page is a share
    link, which targets twitter.com and not the OEIL host, and the
    oeil_link is its href, not None. *)
Lemma oeil_link_from_share_link :
  existsb claimed_oeil_anchor
    (descendants
       [Tag (lit "a")
          [(lit "href",
            lit "https://twitter.com/share?url=https://oeil.secure.europarl.europa.eu/oeil/1")]
          [] []])
  = false
  /\ href_host
       (lit "https://twitter.com/share?url=https://oeil.secure.europarl.europa.eu/oeil/1")
     = Some (lit "twitter.com")
  /\ extract_oeil_link
       [Tag (lit "a")
          [(lit "href",
            lit "https://twitter.com/share?url=https://oeil.secure.europarl.europa.eu/oeil/1")]
          [] []]
     = Some (lit "https://twitter.com/share?url=https://oeil.secure.europarl.europa.eu/oeil/1").
Proof. repeat split. Qed.

Example title_still_extracted :
  extract_title [Tag (lit "h1") [] [] [NavigableString (lit " Fit for 55 ")]]
  = lit "Fit for 55".
Proof. reflexivity. Qed.

(** ** The text body *)

Lemma nonempty_lstrip s : nonempty (lstrip s) = existsb not_space s.
Proof.
  induction s as [|c s IH]; simpl; [reflexivity |].
  unfold not_space at 1. destruct (is_space c); simpl; auto.
Qed.

Lemma existsb_lstrip s : existsb not_space (lstrip s) = existsb not_space s.
Proof.
  induction s as [|c s IH]; simpl; [reflexivity |].
  unfold not_space at 2. destruct (is_space c) eqn:Hc; simpl; auto.
  unfold not_space at 1. rewrite Hc. reflexivity.
Qed.

Lemma existsb_rev' {A} (p : A -> bool) l : existsb p (rev l) = existsb p l.
Proof.
  induction l as [|x l IH]; simpl; [reflexivity |].
  rewrite existsb_app, IH. simpl. rewrite orb_false_r. apply orb_comm.
Qed.

Lemma nonempty_rev (s : str) : nonempty (rev s) = nonempty s.
Proof.
  destruct s as [|c s]; simpl; [reflexivity |].
  destruct (rev s); reflexivity.
Qed.

(** A string has something left after trimming exactly when one of its
    characters is not white space. *)
Lemma nonempty_strip s : nonempty (strip s) = existsb not_space s.
Proof.
  unfold strip, rstrip.
  rewrite nonempty_rev, nonempty_lstrip, existsb_rev', existsb_lstrip.
  reflexivity.
Qed.

Lemma join_empty_sep l : join [] l = List.concat l.
Proof.
  induction l as [|p l IH]; simpl; [reflexivity |].
  destruct l as [|q l]; [symmetry; apply app_nil_r |].
  simpl in IH |- *. rewrite IH. reflexivity.
Qed.

Lemma nonempty_app (a b : str) : nonempty (a ++ b) = nonempty a || nonempty b.
Proof. destruct a; reflexivity. Qed.

Lemma nonempty_concat (l : list str) :
  nonempty (List.concat l) = existsb nonempty l.
Proof.
  induction l as [|p l IH]; simpl; [reflexivity |].
  rewrite nonempty_app, IH. reflexivity.
Qed.

Lemma existsb_filter_id {A} (p : A -> bool) l :
  existsb p (List.filter p l) = existsb p l.
Proof.
  induction l as [|x l IH]; simpl; [reflexivity |].
  destruct (p x) eqn:Hx; simpl; rewrite ?Hx; auto.
Qed.

Lemma existsb_concat {A} (p : A -> bool) (l : list (list A)) :
  existsb p (List.concat l) = existsb (existsb p) l.
Proof.
  induction l as [|x l IH]; simpl; [reflexivity |].
  rewrite existsb_app, IH. reflexivity.
Qed.

Lemma existsb_pointwise {A} (p q : A -> bool) l :
  (forall x, p x = q x) -> existsb p l = existsb q l.
Proof.
  intros H. induction l as [|x l IH]; simpl; [reflexivity |].
  rewrite H, IH. reflexivity.
Qed.

Lemma existsb_map' {A B} (f : A -> B) (p : B -> bool) l :
  existsb p (List.map f l) = existsb (fun x => p (f x)) l.
Proof. induction l as [|x l IH]; simpl; [reflexivity | rewrite IH; reflexivity]. Qed.

(** The test of the source, [c.get_text(strip=True)] being non-empty, is
    the test that the trimmed text of the block is non-empty. *)
Lemma block_test c :
  nonempty (get_text_strip [] c) = nonempty (strip (text c)).
Proof.
  unfold get_text_strip, stripped_strings, text.
  rewrite join_empty_sep, nonempty_concat, existsb_filter_id, existsb_map'.
  rewrite nonempty_strip, existsb_concat.
  apply existsb_pointwise. intros s. apply nonempty_strip.
Qed.

(** C8 (as amended): the text body of scraper.py joins with newlines, in
    document order, the text of every section element, every div element
    that carries the text-block class and every p element, leaving out the
    blocks whose trimmed text is empty. On a page where every element that
    carries the text-block class is a div, a section or a p, this is the
    text body as the claim words it. *)
Theorem text_content_blocks (d : soup) :
  extract_text_content d
  = join (lit (String (ascii_of_nat 10) EmptyString))
      (List.map (get_text_strip (lit " "))
         (List.filter (fun c => nonempty (strip (text c)))
            (List.filter
               (fun n => is_tag (lit "section") n
                         || (is_tag (lit "div") n
                             && has_class (lit "text-block") n)
                         || is_tag (lit "p") n)
               (descendants d))))
  /\ (forallb
        (fun n => implb (has_class (lit "text-block") n)
                        (is_tag (lit "div") n || is_tag (lit "section") n
                         || is_tag (lit "p") n))
        (descendants d) = true ->
      extract_text_content d = claimed_text_content d).
Proof.
  assert (Hcode : extract_text_content d
                  = join (lit (String (ascii_of_nat 10) EmptyString))
                      (List.map (get_text_strip (lit " "))
                         (List.filter (fun c => nonempty (strip (text c)))
                            (select sel_content_block d)))).
  { unfold extract_text_content. do 2 f_equal.
    apply filter_ext. intros c. apply block_test. }
  split; [exact Hcode |].
  intros Hdiv. rewrite Hcode. unfold claimed_text_content, select.
  do 3 f_equal. apply filter_ext_in. intros n Hn.
  rewrite forallb_forall in Hdiv. specialize (Hdiv n Hn).
  unfold sel_content_block, claimed_content_block.
  destruct (is_tag (lit "section") n), (is_tag (lit "div") n),
    (has_class (lit "text-block") n), (is_tag (lit "p") n);
    simpl in *; congruence.
Qed.

Lemma text_content_blocks_witness :
  extract_text_content
    [Tag (lit "section") [] []
       [Tag (lit "p") [] [] [NavigableString (lit " Fit ")];
        Tag (lit "div") [] [lit "text-block"] [NavigableString (lit "for 55")];
        Tag (lit "p") [] [] [NavigableString (lit "  ")]]]
  = claimed_text_content
      [Tag (lit "section") [] []
         [Tag (lit "p") [] [] [NavigableString (lit " Fit ")];
          Tag (lit "div") [] [lit "text-block"]
            [NavigableString (lit "for 55")];
          Tag (lit "p") [] [] [NavigableString (lit "  ")]]].
Proof.
  apply (text_content_blocks
           [Tag (lit "section") [] []
              [Tag (lit "p") [] [] [NavigableString (lit " Fit ")];
               Tag (lit "div") [] [lit "text-block"]
                 [NavigableString (lit "for 55")];
               Tag (lit "p") [] [] [NavigableString (lit "  ")]]]).
  reflexivity.
Defined.

(** C8, the claim as stated fails: a span that carries the text-block class
    is an element with that class, and its text is not in the body. *)
Lemma text_content_span_left_out :
  extract_text_content
    [Tag (lit "span") [] [lit "text-block"] [NavigableString (lit "hello")]]
  = []
  /\ claimed_text_content
       [Tag (lit "span") [] [lit "text-block"] [NavigableString (lit "hello")]]
     = lit "hello".
Proof. split; reflexivity. Qed.

Example text_content_nested :
  extract_text_content
    [Tag (lit "section") [] []
       [Tag (lit "p") [] [] [NavigableString (lit " Fit ");
                             Tag (lit "b") [] [] [NavigableString (lit "for")]];
        Tag (lit "p") [] [] [NavigableString (lit "  ")]]]
  = lit "Fit for" ++ [10] ++ lit "Fit for".
Proof. reflexivity. Qed.

(** ** The page fetcher *)

Ltac unfold_m :=
  unfold logging, sleep, http_get, BeautifulSoup, init_clients, upload,
    upsert, strftime, set_total, get_total, lift_option in *;
  unfold bind, ret, emit, raise, try_except, set_world in *.

Lemma get_soup_run {W} (sv : services W) (url : str) (st : state W) :
  Scraper.get_soup sv url st
  = let r := fst (requests_get sv url Scraper.USER_AGENT (world st)) in
    (Return (page_of sv r),
     State (snd (requests_get sv url Scraper.USER_AGENT (world st)))
           (blobs st) (cosmos st) (total_processed st)
           (trace st ++ EvSleep :: EvGet url r :: fetch_epilogue sv url r)).
Proof.
  unfold Scraper.get_soup, page_of, fetch_epilogue. unfold_m. simpl.
  destruct (requests_get sv url Scraper.USER_AGENT (world st)) as [[resp|] w];
    simpl.
  - destruct (status_code resp =? 200); simpl.
    + destruct (html_parser sv (body resp)); simpl;
        repeat rewrite <- app_assoc; reflexivity.
    + repeat rewrite <- app_assoc; reflexivity.
  - repeat rewrite <- app_assoc; reflexivity.
Qed.

(** C7: get_soup never raises to its caller. When the request raises, or
    the status of the response is not 200, it returns None and its last
    action is an error or a warning log line; a document is returned only
    for a response of status 200, and it is that response's body parsed. No
    store changes. *)
Theorem get_soup_outcome {W} (sv : services W) (url : str) (st : state W) :
  exists result events,
    Scraper.get_soup sv url st
    = (Return result,
       State (snd (requests_get sv url Scraper.USER_AGENT (world st)))
             (blobs st) (cosmos st) (total_processed st)
             (trace st ++
                EvSleep ::
                EvGet url (fst (requests_get sv url Scraper.USER_AGENT (world st)))
                :: events))
    /\ match fst (requests_get sv url Scraper.USER_AGENT (world st)) with
       | None =>
           result = None /\
           events = [EvRaise RequestException; EvLog ERROR (MsgFetchError url)]
       | Some resp =>
           if status_code resp =? 200 then
             match html_parser sv (body resp) with
             | Some d => result = Some d /\ events = []
             | None =>
                 result = None /\
                 events = [EvRaise ParserError; EvLog ERROR (MsgFetchError url)]
             end
           else
             result = None /\
             events = [EvLog WARNING (MsgFetchStatus url (status_code resp))]
       end.
Proof.
  rewrite get_soup_run. simpl.
  exists (page_of sv (fst (requests_get sv url Scraper.USER_AGENT (world st)))),
    (fetch_epilogue sv url
       (fst (requests_get sv url Scraper.USER_AGENT (world st)))).
  split; [reflexivity |].
  unfold page_of, fetch_epilogue.
  destruct (fst (requests_get sv url Scraper.USER_AGENT (world st)))
    as [resp|]; [| auto].
  destruct (status_code resp =? 200); [| auto].
  destruct (html_parser sv (body resp)); auto.
Qed.

(** ** The link discoverer *)

Lemma get_files_from_theme_run {W} (sv : services W) (theme : str)
    (st : state W) :
  Scraper.get_files_from_theme sv theme st
  = let r := fst (requests_get sv theme Scraper.USER_AGENT (world st)) in
    (Return (match page_of sv r with
             | Some d => list_set (file_links d)
             | None => []
             end),
     State (snd (requests_get sv theme Scraper.USER_AGENT (world st)))
           (blobs st) (cosmos st) (total_processed st)
           (trace st ++ EvSleep :: EvGet theme r :: fetch_epilogue sv theme r)).
Proof.
  unfold Scraper.get_files_from_theme, bind. rewrite get_soup_run. simpl.
  destruct (page_of sv _); reflexivity.
Qed.

(** C4: get_files_from_theme never raises. On a fetched theme page it
    returns, without repetition, exactly the absolute URLs [BASE_URL + href]
    of the anchors whose href contains "/file-" and begins with
    "/legislative-train/theme-" (so none when no anchor matches); the
    comprehension of function_app.py builds the same set. When the fetch
    fails it returns the empty list. *)
Theorem get_files_from_theme_links {W} (sv : services W) (theme : str)
    (st : state W) :
  exists file_urls st',
    Scraper.get_files_from_theme sv theme st = (Return file_urls, st')
    /\ NoDup file_urls
    /\ match page_of sv
               (fst (requests_get sv theme Scraper.USER_AGENT (world st))) with
       | Some d =>
           (forall u, u ∈ file_urls <-> detail_link d u)
           /\ ((forall u, ~ detail_link d u) -> file_urls = [])
           /\ list_set (FunctionApp.links d) = file_urls
       | None => file_urls = []
       end.
Proof.
  rewrite get_files_from_theme_run. simpl. eexists _, _.
  split; [reflexivity |].
  destruct (page_of sv _) as [d|].
  - destruct (list_set_spec (file_links d)) as [Hnd Hin].
    split; [exact Hnd |]. split; [| split].
    + intros u. rewrite Hin, list_elem_of_In. apply file_links_spec.
    + intros Hno. apply list_set_nil. intros u Hu.
      apply (Hno u), file_links_spec, Hu.
    + rewrite function_app_links. reflexivity.
  - split; [constructor | reflexivity].
Qed.

Example link_filter :
  list_set
    (file_links
       [Tag (lit "a") [(lit "href", lit "/legislative-train/theme-x/file-1")] [] [];
        Tag (lit "a") [(lit "href", lit "/other/file-2")] [] [];
        Tag (lit "a") [(lit "href", lit "/legislative-train/theme-x/not-a-file")] [] [];
        Tag (lit "a") [(lit "href", lit "/legislative-train/theme-x/file-1")] [] []])
  = [lit "https://www.europarl.europa.eu/legislative-train/theme-x/file-1"].
Proof. vm_compute. reflexivity. Qed.

(** ** Runs as sequences of segments *)

Lemma replay_blobs_app a b s :
  replay_blobs (a ++ b) s = replay_blobs b (replay_blobs a s).
Proof. apply fold_left_app. Qed.

Lemma replay_cosmos_app a b s :
  replay_cosmos (a ++ b) s = replay_cosmos b (replay_cosmos a s).
Proof. apply fold_left_app. Qed.

Lemma persisted_app a b : persisted (a ++ b) = persisted a + persisted b.
Proof. unfold persisted. rewrite List.filter_app, List.length_app. lia. Qed.

Lemma advance_nil {W} counting (st : state W) :
  advance counting st (world st) [] = st.
Proof.
  destruct st as [w b c n tr]. unfold advance. simpl.
  rewrite app_nil_r. f_equal. destruct counting; unfold persisted; simpl; lia.
Qed.

Lemma advance_app {W} counting (st : state W) w1 w2 s1 s2 :
  advance counting (advance counting st w1 s1) w2 s2
  = advance counting st w2 (s1 ++ s2).
Proof.
  unfold advance. simpl.
  rewrite replay_blobs_app, replay_cosmos_app, app_assoc. f_equal.
  destruct counting; [rewrite persisted_app |]; lia.
Qed.

Lemma fetch_epilogue_page {W} (sv : services W) url r d :
  page_of sv r = Some d -> fetch_epilogue sv url r = [].
Proof.
  unfold page_of, fetch_epilogue. destruct r as [resp|]; [| discriminate].
  destruct (status_code resp =? 200); [| discriminate].
  destruct (html_parser sv (body resp)); [reflexivity | discriminate].
Qed.

Lemma fetch_epilogue_quiet {W} (sv : services W) url r :
  replay_blobs (fetch_epilogue sv url r) = (fun b => b)
  /\ replay_cosmos (fetch_epilogue sv url r) = (fun c => c)
  /\ persisted (fetch_epilogue sv url r) = 0.
Proof.
  unfold fetch_epilogue. destruct r as [resp|]; [| auto].
  destruct (status_code resp =? 200); [| auto].
  destruct (html_parser sv (body resp)); auto.
Qed.

Lemma get_soup_advance {W} (sv : services W) counting url (st : state W) :
  Scraper.get_soup sv url st
  = let r := fst (requests_get sv url Scraper.USER_AGENT (world st)) in
    (Return (page_of sv r),
     advance counting st
       (snd (requests_get sv url Scraper.USER_AGENT (world st)))
       (EvSleep :: EvGet url r :: fetch_epilogue sv url r)).
Proof.
  rewrite get_soup_run. simpl. unfold advance. simpl.
  destruct (fetch_epilogue_quiet sv url
              (fst (requests_get sv url Scraper.USER_AGENT (world st))))
    as (Hb & Hc & Hn).
  rewrite Hb, Hc. unfold persisted in *. simpl. rewrite Hn.
  do 2 f_equal. destruct counting; lia.
Qed.

(** One pass of the inner loop of scraper.py returns normally, whatever
    fails in it, and its events have one of the five shapes. *)
Lemma process_file_segment {W} (sv : services W) theme url (st : state W) :
  exists w seg,
    Scraper.process_file sv theme url st
    = (Return tt, advance true st w seg)
    /\ ScraperTrace.file_segment sv theme url seg.
Proof.
  unfold Scraper.process_file, try_except, bind at 1.
  rewrite (get_soup_advance sv true). simpl.
  set (r := fst (requests_get sv url Scraper.USER_AGENT (world st))).
  set (w1 := snd (requests_get sv url Scraper.USER_AGENT (world st))).
  destruct (page_of sv r) as [d|] eqn:Hpage.
  2:{ eexists _, _. split; [reflexivity |]. constructor. exact Hpage. }
  rewrite (fetch_epilogue_page sv url r d Hpage).
  destruct (generate_id url) as [doc_id|] eqn:Hid; unfold_m; simpl.
  2:{ exists w1. eexists. split; [| eapply ScraperTrace.seg_no_id; eauto].
      unfold advance, persisted. simpl. rewrite <- !app_assoc. simpl.
      do 2 f_equal; lia. }
  destruct (upload_blob sv _ _ w1) as [[|] w2] eqn:Hup; simpl.
  2:{ exists w2. eexists.
      split; [| eapply ScraperTrace.seg_upload_failed; eauto].
      unfold advance, persisted. simpl. rewrite <- !app_assoc. simpl.
      do 2 f_equal; lia. }
  destruct (upsert_item sv _ w2) as [[|] w3] eqn:Hups; simpl.
  - exists w3. eexists.
    split; [| eapply ScraperTrace.seg_persisted; eauto].
    unfold advance, persisted. simpl. rewrite <- !app_assoc. simpl.
    do 2 f_equal; try reflexivity; lia.
  - exists w3. eexists.
    split; [| eapply ScraperTrace.seg_upsert_failed; eauto].
    unfold advance, persisted. simpl. rewrite <- !app_assoc. simpl.
    do 2 f_equal; try reflexivity; lia.
Qed.

(** A loop whose every pass returns normally and adds a segment of shape
    [P] returns normally and adds one such segment per element, in order. *)
Lemma for_each_segments {W X} counting (body : X -> M W unit)
    (P : X -> list event -> Prop) :
  (forall x st, exists w seg,
      body x st = (Return tt, advance counting st w seg) /\ P x seg) ->
  forall xs st, exists w segs,
      for_each xs body st
      = (Return tt, advance counting st w (List.concat segs))
      /\ Forall2 P xs segs.
Proof.
  intros Hbody xs. induction xs as [|x xs IH]; intros st; simpl.
  - exists (world st), []. simpl. rewrite advance_nil.
    split; [reflexivity | constructor].
  - unfold bind. destruct (Hbody x st) as (w1 & seg & -> & Hseg).
    destruct (IH (advance counting st w1 seg)) as (w2 & segs & -> & Hsegs).
    exists w2, (seg :: segs). simpl. rewrite advance_app.
    split; [reflexivity | constructor; assumption].
Qed.

Lemma crawl_theme_segment {W} (sv : services W) theme (st : state W) :
  exists w seg,
    Scraper.crawl_theme sv theme st = (Return tt, advance true st w seg)
    /\ ScraperTrace.theme_segment sv theme seg.
Proof.
  unfold Scraper.crawl_theme, bind at 1 2. unfold logging, emit.
  rewrite get_files_from_theme_run. simpl.
  set (r := fst (requests_get sv theme Scraper.USER_AGENT (world st))).
  set (w1 := snd (requests_get sv theme Scraper.USER_AGENT (world st))).
  fold (links_of sv r).
  match goal with
  | |- context [for_each _ _ ?s] =>
      destruct (for_each_segments true (Scraper.process_file sv theme)
                  (ScraperTrace.file_segment sv theme)
                  (process_file_segment sv theme) (links_of sv r) s)
        as (w2 & segs & -> & Hsegs)
  end.
  exists w2. eexists. split; [| constructor; exact Hsegs].
  unfold advance. simpl.
  destruct (fetch_epilogue_quiet sv theme r) as (Hb & Hc & Hn).
  rewrite ?replay_blobs_app, ?replay_cosmos_app, ?Hb, ?Hc.
  rewrite <- ?app_assoc. simpl. rewrite <- ?app_assoc. simpl.
  do 2 f_equal.
  change (EvLog INFO (MsgCrawling theme) :: EvSleep :: EvGet theme r ::
          fetch_epilogue sv theme r ++ List.concat segs)
    with ([EvLog INFO (MsgCrawling theme); EvSleep; EvGet theme r] ++
          fetch_epilogue sv theme r ++ List.concat segs).
  rewrite !persisted_app, Hn. unfold persisted at 2. simpl. lia.
Qed.

(** The outer loop of scraper.py returns normally and adds one theme
    segment for each of the six themes, in order. *)
Lemma scraper_crawl_all_segments {W} (sv : services W) (st : state W) :
  exists w segs,
    Scraper.crawl_all sv st
    = (Return tt, advance true st w (List.concat segs))
    /\ Forall2 (ScraperTrace.theme_segment sv) THEMES segs.
Proof.
  apply for_each_segments. apply crawl_theme_segment.
Qed.

Ltac close_advance :=
  unfold advance, persisted; simpl; rewrite <- ?app_assoc; simpl;
  do 2 f_equal; try reflexivity; lia.

(** One pass of the inner loop of function_app.py returns normally and its
    events have one of the six shapes. *)
Lemma process_link_segment {W} (sv : services W) theme link (st : state W) :
  exists w seg,
    FunctionApp.process_link sv theme link st
    = (Return tt, advance false st w seg)
    /\ FunctionAppTrace.link_segment sv theme link seg.
Proof.
  unfold FunctionApp.process_link. unfold_m. simpl.
  destruct (requests_get sv link FunctionApp.USER_AGENT (world st))
    as [[r|] w1]; simpl.
  2:{ exists w1. eexists.
      split; [| apply FunctionAppTrace.seg_no_response]. close_advance. }
  destruct (html_parser sv (body r)) as [d|] eqn:Hd; simpl.
  2:{ exists w1. eexists.
      split; [| apply FunctionAppTrace.seg_no_parse; exact Hd].
      close_advance. }
  destruct (FunctionApp.doc_id_of link) as [doc_id|] eqn:Hid; simpl.
  2:{ exists w1. eexists.
      split; [| eapply FunctionAppTrace.seg_no_id; eauto]. close_advance. }
  destruct (upload_blob sv _ _ w1) as [[|] w2]; simpl.
  2:{ exists w2. eexists.
      split; [| eapply FunctionAppTrace.seg_upload_failed; eauto].
      close_advance. }
  destruct (upsert_item sv _ w2) as [[|] w3]; simpl.
  - exists w3. eexists.
    split; [| eapply FunctionAppTrace.seg_saved; eauto]. close_advance.
  - exists w3. eexists.
    split; [| eapply FunctionAppTrace.seg_upsert_failed; eauto].
    close_advance.
Qed.

Lemma function_app_crawl_theme_segment {W} (sv : services W) theme
    (st : state W) :
  exists w seg,
    FunctionApp.crawl_theme sv theme st = (Return tt, advance false st w seg)
    /\ FunctionAppTrace.theme_segment sv theme seg.
Proof.
  unfold FunctionApp.crawl_theme, try_except, bind at 1 2.
  unfold http_get, BeautifulSoup.
  destruct (requests_get sv theme FunctionApp.USER_AGENT (world st))
    as [[r|] w1]; simpl.
  2:{ exists w1. eexists.
      split; [| apply FunctionAppTrace.seg_theme_no_response].
      unfold_m. close_advance. }
  destruct (html_parser sv (body r)) as [d|] eqn:Hd; simpl.
  2:{ exists w1. eexists.
      split; [| apply FunctionAppTrace.seg_theme_no_parse; exact Hd].
      unfold_m. close_advance. }
  match goal with
  | |- context [for_each ?l _ ?s] =>
      destruct (for_each_segments false (FunctionApp.process_link sv theme)
                  (FunctionAppTrace.link_segment sv theme)
                  (process_link_segment sv theme) l s)
        as (w2 & segs & -> & Hsegs)
  end.
  exists w2. eexists.
  split; [| eapply FunctionAppTrace.seg_theme; eauto].
  unfold advance. simpl. rewrite <- ?app_assoc. simpl.
  do 2 f_equal; lia.
Qed.

(** The outer loop of function_app.py returns normally and adds one theme
    segment for each of the six themes, in order. *)
Lemma function_app_crawl_all_segments {W} (sv : services W) (st : state W) :
  exists w segs,
    FunctionApp.crawl_all sv st
    = (Return tt, advance false st w (List.concat segs))
    /\ Forall2 (FunctionAppTrace.theme_segment sv) THEMES segs.
Proof.
  apply for_each_segments. apply function_app_crawl_theme_segment.
Qed.

(** ** Properties of traces *)

Lemma app_eq_mid {A} (a b pre post : list A) x :
  a ++ b = pre ++ x :: post ->
  (exists q, a = pre ++ x :: q /\ post = q ++ b)
  \/ (exists p, pre = a ++ p /\ b = p ++ x :: post).
Proof.
  revert pre. induction a as [|y a IH]; intros pre H; simpl in H.
  - right. exists pre. auto.
  - destruct pre as [|z pre]; simpl in H; injection H as -> H.
    + left. exists a. subst. auto.
    + destruct (IH pre H) as [(q & -> & ->) | (p & -> & ->)].
      * left. exists q. auto.
      * right. exists p. auto.
Qed.

Lemma Forall2_Forall_r {A B} (P : A -> B -> Prop) (Q : B -> Prop) xs ys :
  (forall x y, P x y -> Q y) -> Forall2 P xs ys -> Forall Q ys.
Proof. intros H. induction 1; constructor; eauto. Qed.

Lemma raises_logged_nil : raises_logged [].
Proof. intros [|x pre] e post H; discriminate. Qed.

Lemma raises_logged_app a b :
  raises_logged a -> raises_logged b -> raises_logged (a ++ b).
Proof.
  intros Ha Hb pre e post H.
  destruct (app_eq_mid _ _ _ _ _ H) as [(q & Hq & ->) | (p & -> & Hp)].
  - destruct (Ha _ _ _ Hq) as (m & post' & ->). simpl. eauto.
  - exact (Hb _ _ _ Hp).
Qed.

Lemma raises_logged_concat segs :
  Forall raises_logged segs -> raises_logged (List.concat segs).
Proof.
  induction 1; simpl; [apply raises_logged_nil | apply raises_logged_app; auto].
Qed.

Lemma raises_logged_cons x l :
  is_raise x = false -> raises_logged l -> raises_logged (x :: l).
Proof.
  intros Hx Hl pre e post H. destruct pre as [|y pre]; simpl in H.
  - injection H as -> _. discriminate.
  - injection H as _ H. exact (Hl _ _ _ H).
Qed.

Lemma raises_logged_raise e m l :
  raises_logged l -> raises_logged (EvRaise e :: EvLog ERROR m :: l).
Proof.
  intros Hl pre e' post H. destruct pre as [|y pre]; simpl in H.
  - injection H as _ <-. eauto.
  - injection H as _ H. destruct pre as [|z pre]; simpl in H.
    + discriminate.
    + injection H as _ H. exact (Hl _ _ _ H).
Qed.

Ltac raises_logged_tac :=
  repeat first
    [ apply raises_logged_nil
    | apply raises_logged_raise
    | apply raises_logged_cons; [reflexivity |] ].

Lemma fetch_epilogue_raises_logged {W} (sv : services W) url r :
  raises_logged (fetch_epilogue sv url r).
Proof.
  unfold fetch_epilogue. destruct r as [resp|]; [| raises_logged_tac].
  destruct (status_code resp =? 200); [| raises_logged_tac].
  destruct (html_parser sv (body resp)); raises_logged_tac.
Qed.

Lemma file_segment_raises_logged {W} (sv : services W) theme url seg :
  ScraperTrace.file_segment sv theme url seg -> raises_logged seg.
Proof.
  destruct 1; raises_logged_tac. apply fetch_epilogue_raises_logged.
Qed.

Lemma theme_segment_raises_logged {W} (sv : services W) theme seg :
  ScraperTrace.theme_segment sv theme seg -> raises_logged seg.
Proof.
  destruct 1 as [r segs Hsegs]. raises_logged_tac.
  apply raises_logged_app; [apply fetch_epilogue_raises_logged |].
  apply raises_logged_concat.
  eapply Forall2_Forall_r; [| exact Hsegs].
  intros x y. apply file_segment_raises_logged.
Qed.

Lemma link_segment_raises_logged {W} (sv : services W) theme link seg :
  FunctionAppTrace.link_segment sv theme link seg -> raises_logged seg.
Proof. destruct 1; raises_logged_tac. Qed.

Lemma function_app_theme_segment_raises_logged {W} (sv : services W) theme seg :
  FunctionAppTrace.theme_segment sv theme seg -> raises_logged seg.
Proof.
  destruct 1 as [| r Hr | r d segs Hd Hsegs]; raises_logged_tac.
  apply raises_logged_concat.
  eapply Forall2_Forall_r; [| exact Hsegs].
  intros x y. apply link_segment_raises_logged.
Qed.

Lemma upserts_after_uploads_nil ok : upserts_after_uploads ok [].
Proof. intros [|x pre] it done post H; discriminate. Qed.

Lemma upserts_after_uploads_cons ok x l :
  is_upsert x = false ->
  upserts_after_uploads ok l -> upserts_after_uploads ok (x :: l).
Proof.
  intros Hx Hl pre it done post H. destruct pre as [|y pre]; simpl in H.
  - injection H as -> _. discriminate.
  - injection H as -> H. destruct (Hl _ _ _ _ H) as (pre' & name & data & -> & Hok).
    exists (y :: pre'), name, data. auto.
Qed.

Lemma upserts_after_uploads_pair (ok : str -> str -> item -> Prop)
    name data it done l :
  ok name data it ->
  upserts_after_uploads ok l ->
  upserts_after_uploads ok (EvUpload name data true :: EvUpsert it done :: l).
Proof.
  intros Hok Hl pre it' done' post H. destruct pre as [|y pre]; simpl in H.
  - discriminate.
  - injection H as <- H. destruct pre as [|z pre]; simpl in H.
    + injection H as <- <- _. exists [], name, data. auto.
    + injection H as <- H.
      destruct (Hl _ _ _ _ H) as (pre' & name' & data' & -> & Hok').
      exists (EvUpload name data true :: EvUpsert it done :: pre'), name', data'.
      auto.
Qed.

Lemma upserts_after_uploads_app ok a b :
  upserts_after_uploads ok a -> upserts_after_uploads ok b ->
  upserts_after_uploads ok (a ++ b).
Proof.
  intros Ha Hb pre it done post H.
  destruct (app_eq_mid _ _ _ _ _ H) as [(q & Hq & ->) | (p & -> & Hp)].
  - exact (Ha _ _ _ _ Hq).
  - destruct (Hb _ _ _ _ Hp) as (pre' & name & data & -> & Hok).
    exists (a ++ pre'), name, data. rewrite app_assoc. auto.
Qed.

Lemma upserts_after_uploads_concat ok segs :
  Forall (upserts_after_uploads ok) segs ->
  upserts_after_uploads ok (List.concat segs).
Proof.
  induction 1; simpl;
    [apply upserts_after_uploads_nil | apply upserts_after_uploads_app; auto].
Qed.

Ltac upserts_tac :=
  repeat first
    [ apply upserts_after_uploads_nil
    | apply upserts_after_uploads_pair
    | apply upserts_after_uploads_cons; [reflexivity |] ].

Lemma fetch_epilogue_upserts {W} (sv : services W) ok url r :
  upserts_after_uploads ok (fetch_epilogue sv url r).
Proof.
  unfold fetch_epilogue. destruct r as [resp|]; [| upserts_tac].
  destruct (status_code resp =? 200); [| upserts_tac].
  destruct (html_parser sv (body resp)); upserts_tac.
Qed.

Lemma scraper_item_matches {W} (sv : services W) doc_id title url oeil status
    name theme scraped_at data :
  generate_id url = Some doc_id ->
  ScraperTrace.item_matches_blob sv name data
    (Scraper.metadata_item doc_id title url oeil status
       (blob_client_url sv name) name theme scraped_at).
Proof.
  intros Hid. split; [reflexivity |]. split; [reflexivity |].
  exists url, doc_id. auto.
Qed.

Lemma file_segment_upserts {W} (sv : services W) theme url seg :
  ScraperTrace.file_segment sv theme url seg ->
  upserts_after_uploads (ScraperTrace.item_matches_blob sv) seg.
Proof.
  destruct 1; upserts_tac;
    try apply fetch_epilogue_upserts;
    try (apply scraper_item_matches; assumption).
Qed.

Lemma theme_segment_upserts {W} (sv : services W) theme seg :
  ScraperTrace.theme_segment sv theme seg ->
  upserts_after_uploads (ScraperTrace.item_matches_blob sv) seg.
Proof.
  destruct 1 as [r segs Hsegs]. upserts_tac.
  apply upserts_after_uploads_app; [apply fetch_epilogue_upserts |].
  apply upserts_after_uploads_concat.
  eapply Forall2_Forall_r; [| exact Hsegs].
  intros x y. apply file_segment_upserts.
Qed.

Lemma function_app_item_matches {W} (sv : services W) doc_id link title theme
    scraped_at data :
  FunctionApp.doc_id_of link = Some doc_id ->
  FunctionAppTrace.item_matches_blob sv (doc_id ++ lit ".txt") data
    (FunctionApp.metadata_item doc_id link title theme
       (container_url sv ++ lit "/" ++ doc_id ++ lit ".txt") scraped_at).
Proof.
  intros Hid. split; [reflexivity |]. exists link, doc_id. auto.
Qed.

Lemma link_segment_upserts {W} (sv : services W) theme link seg :
  FunctionAppTrace.link_segment sv theme link seg ->
  upserts_after_uploads (FunctionAppTrace.item_matches_blob sv) seg.
Proof.
  destruct 1; upserts_tac;
    try (apply function_app_item_matches; assumption).
Qed.

Lemma function_app_theme_segment_upserts {W} (sv : services W) theme seg :
  FunctionAppTrace.theme_segment sv theme seg ->
  upserts_after_uploads (FunctionAppTrace.item_matches_blob sv) seg.
Proof.
  destruct 1 as [| r Hr | r d segs Hd Hsegs]; upserts_tac.
  apply upserts_after_uploads_concat.
  eapply Forall2_Forall_r; [| exact Hsegs].
  intros x y. apply link_segment_upserts.
Qed.

(** ** The orchestrator *)

Lemma legislative_scraper_run {W} (sv : services W) (st : state W) :
  if fst (azure_clients sv (world st)) then
    exists w segs,
      Forall2 (ScraperTrace.theme_segment sv) THEMES segs /\
      Scraper.legislative_scraper sv st
      = (Return tt,
         State w (replay_blobs (List.concat segs) (blobs st))
               (replay_cosmos (List.concat segs) (cosmos st))
               (persisted (List.concat segs))
               (trace st ++ EvLog INFO MsgStarted :: List.concat segs ++
                  [EvLog INFO (MsgFinished (persisted (List.concat segs)))]))
  else
    Scraper.legislative_scraper sv st
    = (Return tt,
       State (snd (azure_clients sv (world st))) (blobs st) (cosmos st)
             (total_processed st)
             (trace st ++ [EvLog INFO MsgStarted; EvRaise AzureInitError;
                           EvLog ERROR MsgInitFailed])).
Proof.
  unfold Scraper.legislative_scraper.
  unfold logging, init_clients, set_total, get_total.
  unfold bind, ret, emit, raise, try_except, set_world. simpl.
  destruct (azure_clients sv (world st)) as [[|] w0]; simpl.
  - match goal with
    | |- context [Scraper.crawl_all sv ?s] =>
        destruct (scraper_crawl_all_segments sv s) as (w & segs & Hrun & Hsegs)
    end.
    exists w, segs. split; [exact Hsegs |].
    rewrite Hrun. unfold advance. simpl. rewrite <- ?app_assoc. simpl.
    rewrite <- ?app_assoc. reflexivity.
  - rewrite <- ?app_assoc. reflexivity.
Qed.

(** The model can tell an escaping exception: function_app.py builds its
    clients outside every try, and a failure there ends the run with the
    exception. *)
Lemma function_app_init_escapes {W} (sv : services W) (st : state W) :
  fst (azure_clients sv (world st)) = false ->
  fst (FunctionApp.legislative_scraper sv st) = Raise AzureInitError.
Proof.
  intros H. unfold FunctionApp.legislative_scraper.
  unfold logging, init_clients. unfold bind, emit, raise, set_world. simpl.
  destruct (azure_clients sv (world st)) as [ok w0]. simpl in H. subst ok.
  reflexivity.
Qed.

(** C3: no exception leaves a pass of the item loop or of the theme loop,
    in either program: each pass returns normally whatever fails in it. So
    the loop over the six themes returns normally, its events are one theme
    segment per theme, in order, and a theme segment holds one item segment
    for every link found on the theme page: a failure stops neither the
    other items nor the other themes. Every exception raised is followed at
    once by an error log line, and the whole run of scraper.py returns
    normally as well. *)
Theorem no_exception_escapes {W} (sv : services W) (st : state W) :
  (forall theme url (s : state W), exists w seg,
      Scraper.process_file sv theme url s = (Return tt, advance true s w seg)
      /\ ScraperTrace.file_segment sv theme url seg)
  /\ (forall theme link (s : state W), exists w seg,
      FunctionApp.process_link sv theme link s
      = (Return tt, advance false s w seg)
      /\ FunctionAppTrace.link_segment sv theme link seg)
  /\ (exists w segs,
      Scraper.crawl_all sv st
      = (Return tt, advance true st w (List.concat segs))
      /\ Forall2 (ScraperTrace.theme_segment sv) THEMES segs
      /\ raises_logged (List.concat segs))
  /\ (exists w segs,
      FunctionApp.crawl_all sv st
      = (Return tt, advance false st w (List.concat segs))
      /\ Forall2 (FunctionAppTrace.theme_segment sv) THEMES segs
      /\ raises_logged (List.concat segs))
  /\ (exists st', Scraper.legislative_scraper sv st = (Return tt, st'))
  /\ length THEMES = 6%nat.
Proof.
  split; [intros; apply process_file_segment |].
  split; [intros; apply process_link_segment |].
  split; [| split; [| split; [| reflexivity]]].
  - destruct (scraper_crawl_all_segments sv st) as (w & segs & Hrun & Hsegs).
    exists w, segs. repeat split; auto.
    apply raises_logged_concat. eapply Forall2_Forall_r; [| exact Hsegs].
    intros x y. apply theme_segment_raises_logged.
  - destruct (function_app_crawl_all_segments sv st)
      as (w & segs & Hrun & Hsegs).
    exists w, segs. repeat split; auto.
    apply raises_logged_concat. eapply Forall2_Forall_r; [| exact Hsegs].
    intros x y. apply function_app_theme_segment_raises_logged.
  - pose proof (legislative_scraper_run sv st) as Hrun.
    destruct (fst (azure_clients sv (world st))).
    + destruct Hrun as (w & segs & _ & ->). eauto.
    + rewrite Hrun. eauto.
Qed.

Lemma fetch_epilogue_no_upsert {W} (sv : services W) url r :
  List.filter is_upsert_ok (fetch_epilogue sv url r) = [].
Proof.
  unfold fetch_epilogue. destruct r as [resp|]; [| reflexivity].
  destruct (status_code resp =? 200); [| reflexivity].
  destruct (html_parser sv (body resp)); reflexivity.
Qed.

(** A pass of the inner loop counts one exactly when its upload and then
    its upsert went through, and nothing otherwise. *)
Lemma file_segment_persisted {W} (sv : services W) theme url seg :
  ScraperTrace.file_segment sv theme url seg ->
  (persisted seg = 1 /\
   exists r name data it m,
     seg = [EvSleep; EvGet url r; EvUpload name data true; EvUpsert it true;
            EvLog INFO m])
  \/ (persisted seg = 0 /\ List.filter is_upsert_ok seg = []).
Proof.
  destruct 1; try (right; split; reflexivity).
  - right. unfold persisted. simpl. rewrite fetch_epilogue_no_upsert. auto.
  - left. split; [reflexivity |]. eauto 10.
Qed.

(** C9: total_processed is set to zero when the crawl starts, whatever it
    held; a pass of the inner loop adds one to it when its upload and then
    its upsert both went through and leaves it as it is otherwise; and the
    run ends on the log line that gives its value, the number of upserts
    that went through, each of them coming right after the upload of the
    same pass. *)
Theorem total_processed_counts {W} (sv : services W) (st : state W)
    (Hready : fst (azure_clients sv (world st)) = true) :
  (forall theme url (s : state W), exists s' seg,
      Scraper.process_file sv theme url s = (Return tt, s')
      /\ trace s' = trace s ++ seg
      /\ total_processed s' = total_processed s + persisted seg
      /\ ((persisted seg = 1 /\
           exists r name data it m,
             seg = [EvSleep; EvGet url r; EvUpload name data true;
                    EvUpsert it true; EvLog INFO m])
          \/ (persisted seg = 0 /\ List.filter is_upsert_ok seg = [])))
  /\ exists st' segs,
      Scraper.legislative_scraper sv st = (Return tt, st')
      /\ Forall2 (ScraperTrace.theme_segment sv) THEMES segs
      /\ trace st'
         = trace st ++ EvLog INFO MsgStarted :: List.concat segs ++
             [EvLog INFO (MsgFinished (total_processed st'))]
      /\ total_processed st' = persisted (List.concat segs)
      /\ upserts_after_uploads (fun _ _ _ => True) (List.concat segs).
Proof.
  split.
  - intros theme url s.
    destruct (process_file_segment sv theme url s) as (w & seg & Hrun & Hseg).
    exists (advance true s w seg), seg.
    repeat split; auto. eapply file_segment_persisted; eauto.
  - pose proof (legislative_scraper_run sv st) as Hrun.
    rewrite Hready in Hrun. destruct Hrun as (w & segs & Hsegs & Hrun).
    eexists _, segs. split; [exact Hrun |]. simpl.
    repeat split; auto.
    apply upserts_after_uploads_concat.
    eapply Forall2_Forall_r; [| exact Hsegs].
    intros x y Hy pre it done post Hpre.
    destruct (theme_segment_upserts sv x y Hy pre it done post Hpre)
      as (pre' & name & data & -> & _).
    eauto.
Qed.

Lemma total_processed_counts_witness :
  fst (azure_clients (Fixture.site true) (world Fixture.empty_state)) = true
  /\ exists st' segs,
      Scraper.legislative_scraper (Fixture.site true) Fixture.empty_state
      = (Return tt, st')
      /\ total_processed st' = persisted (List.concat segs)
      /\ trace st'
         = trace Fixture.empty_state ++
             EvLog INFO MsgStarted :: List.concat segs ++
             [EvLog INFO (MsgFinished (total_processed st'))].
Proof.
  split; [reflexivity |].
  destruct (total_processed_counts (Fixture.site true) Fixture.empty_state
              eq_refl)
    as (_ & st' & segs & Hrun & _ & Htrace & Htotal & _).
  exists st', segs. auto.
Defined.

Example fixture_run_counts_six :
  total_processed
    (snd (Scraper.legislative_scraper (Fixture.site true) Fixture.empty_state))
  = 6.
Proof. vm_compute. reflexivity. Qed.

Example fixture_run_counts_no_failed_upsert :
  total_processed
    (snd (Scraper.legislative_scraper (Fixture.site false) Fixture.empty_state))
  = 0.
Proof. vm_compute. reflexivity. Qed.

Lemma fetch_epilogue_In_upsert {W} (sv : services W) url r it done :
  ~ In (EvUpsert it done) (fetch_epilogue sv url r).
Proof.
  unfold fetch_epilogue. destruct r as [resp|].
  - destruct (status_code resp =? 200).
    + destruct (html_parser sv (body resp)); simpl; intuition discriminate.
    + simpl; intuition discriminate.
  - simpl; intuition discriminate.
Qed.

(** After a pass of the inner loop of scraper.py whose upsert went through,
    the record is in the Metadata container under its id and the blob it
    names is in the blob container. *)
Lemma process_file_stores {W} (sv : services W) theme url (s : state W) :
  exists s' seg,
    Scraper.process_file sv theme url s = (Return tt, s')
    /\ trace s' = trace s ++ seg
    /\ forall it,
        In (EvUpsert it true) seg ->
        exists name data doc_id,
          In (EvUpload name data true) seg
          /\ ScraperTrace.item_matches_blob sv name data it
          /\ item_str (lit "id") it = Some doc_id
          /\ blobs s' !! name = Some data
          /\ cosmos s' !! doc_id = Some it.
Proof.
  destruct (process_file_segment sv theme url s) as (w & seg & Hrun & Hseg).
  exists (advance true s w seg), seg.
  split; [exact Hrun |]. split; [reflexivity |].
  intros it Hin. destruct Hseg as [r Hr | r d Hr Hid | r d doc_id Hr Hid
                                   | r d doc_id ts Hr Hid | r d doc_id ts Hr Hid].
  - simpl in Hin. destruct Hin as [Hin | [Hin | Hin]]; try discriminate.
    destruct (fetch_epilogue_In_upsert sv url r it true Hin).
  - simpl in Hin. intuition discriminate.
  - simpl in Hin. intuition discriminate.
  - simpl in Hin. intuition discriminate.
  - simpl in Hin.
    destruct Hin as [Hin | [Hin | [Hin | [Hin | [Hin | []]]]]];
      try discriminate.
    injection Hin as <-.
    exists (safe_filename (extract_title d) doc_id),
      (extract_text_content d), doc_id.
    split; [simpl; auto |].
    split; [apply scraper_item_matches; exact Hid |].
    split; [reflexivity |].
    unfold advance. simpl. split; apply lookup_insert_eq.
Qed.

(** C10: in every run of either program, each upsert comes right after the
    upload of the same pass that went through, and its record matches that
    blob: in scraper.py the blob_filename is the name uploaded, the
    blob_storage_url is the URL of the client of that name, and the id is
    generate_id of the original_url (in function_app.py the blob_url is the
    container URL, a slash and the name uploaded, the name is the id and
    ".txt", and the id is the digest of the url). After a pass of scraper.py
    that persisted its item, both stores hold the pair. *)
Theorem metadata_matches_blob {W} (sv : services W) (st : state W) :
  (exists w segs,
      Scraper.crawl_all sv st
      = (Return tt, advance true st w (List.concat segs))
      /\ upserts_after_uploads (ScraperTrace.item_matches_blob sv)
           (List.concat segs))
  /\ (exists w segs,
      FunctionApp.crawl_all sv st
      = (Return tt, advance false st w (List.concat segs))
      /\ upserts_after_uploads (FunctionAppTrace.item_matches_blob sv)
           (List.concat segs))
  /\ (forall theme url (s : state W), exists s' seg,
      Scraper.process_file sv theme url s = (Return tt, s')
      /\ trace s' = trace s ++ seg
      /\ forall it,
          In (EvUpsert it true) seg ->
          exists name data doc_id,
            In (EvUpload name data true) seg
            /\ ScraperTrace.item_matches_blob sv name data it
            /\ item_str (lit "id") it = Some doc_id
            /\ blobs s' !! name = Some data
            /\ cosmos s' !! doc_id = Some it).
Proof.
  split; [| split].
  - destruct (scraper_crawl_all_segments sv st) as (w & segs & Hrun & Hsegs).
    exists w, segs. split; [exact Hrun |].
    apply upserts_after_uploads_concat.
    eapply Forall2_Forall_r; [| exact Hsegs].
    intros x y. apply theme_segment_upserts.
  - destruct (function_app_crawl_all_segments sv st)
      as (w & segs & Hrun & Hsegs).
    exists w, segs. split; [exact Hrun |].
    apply upserts_after_uploads_concat.
    eapply Forall2_Forall_r; [| exact Hsegs].
    intros x y. apply function_app_theme_segment_upserts.
  - intros theme url s. apply process_file_stores.
Qed.

(** A page with none of the three anchors is still persisted, with the
    three defaults in its record. *)
Example bare_page_persisted :
  exists it,
    cosmos
      (snd (Scraper.process_file Fixture.bare_site Fixture.theme_url
              Fixture.file_url Fixture.empty_state))
    !! lit "526bdbe6270c3a5a5f12757c1636f4cd" = Some it
    /\ item_get (lit "title") it = Some (VStr (lit "Untitled"))
    /\ item_get (lit "status") it = Some (VStr (lit "Unknown"))
    /\ item_get (lit "oeil_link") it = Some VNone
    /\ item_get (lit "blob_filename") it
       = Some (VStr (lit "Untitled_526bdb.txt")).
Proof. eexists. split; [vm_compute; reflexivity |]. repeat split. Qed.

(** ** The persistence reconciler *)

Lemma for_each_cons {W X} (body : X -> M W unit) x xs (s s' : state W) :
  body x s = (Return tt, s') ->
  for_each (x :: xs) body s = for_each xs body s'.
Proof. intros H. simpl. unfold bind. rewrite H. reflexivity. Qed.

Lemma scraper_orphan {W} (sv : services W) theme url (st : state W)
    r w1 d doc_id w2 w3 :
  requests_get sv url Scraper.USER_AGENT (world st) = (r, w1) ->
  page_of sv r = Some d ->
  generate_id url = Some doc_id ->
  upload_blob sv (safe_filename (extract_title d) doc_id)
    (extract_text_content d) w1 = (true, w2) ->
  upsert_item sv
    (Scraper.metadata_item doc_id (extract_title d) url (extract_oeil_link d)
       (extract_status d)
       (blob_client_url sv (safe_filename (extract_title d) doc_id))
       (safe_filename (extract_title d) doc_id) theme (strftime_gmtime sv w2))
    w2 = (false, w3) ->
  Scraper.process_file sv theme url st
  = (Return tt,
     State w3
       (<[safe_filename (extract_title d) doc_id := extract_text_content d]>
          (blobs st))
       (cosmos st) (total_processed st)
       (trace st ++
          [EvSleep; EvGet url r;
           EvUpload (safe_filename (extract_title d) doc_id)
                    (extract_text_content d) true;
           EvUpsert
             (Scraper.metadata_item doc_id (extract_title d) url
                (extract_oeil_link d) (extract_status d)
                (blob_client_url sv (safe_filename (extract_title d) doc_id))
                (safe_filename (extract_title d) doc_id) theme
                (strftime_gmtime sv w2))
             false;
           EvRaise CosmosError; EvLog ERROR (MsgItemError url)])).
Proof.
  intros Hget Hpage Hid Hup Hups.
  unfold Scraper.process_file, try_except, bind at 1.
  rewrite get_soup_run, Hget. simpl. rewrite Hpage.
  rewrite (fetch_epilogue_page sv url r d Hpage), Hid.
  unfold_m. simpl. rewrite Hup. simpl. rewrite Hups. simpl.
  rewrite <- ?app_assoc. reflexivity.
Qed.

Lemma function_app_orphan {W} (sv : services W) theme link (st : state W)
    r w1 d doc_id w2 w3 :
  requests_get sv link FunctionApp.USER_AGENT (world st) = (Some r, w1) ->
  html_parser sv (body r) = Some d ->
  FunctionApp.doc_id_of link = Some doc_id ->
  upload_blob sv (doc_id ++ lit ".txt") (FunctionApp.extract_text d) w1
  = (true, w2) ->
  upsert_item sv
    (FunctionApp.metadata_item doc_id link (FunctionApp.extract_title d) theme
       (container_url sv ++ lit "/" ++ doc_id ++ lit ".txt")
       (strftime_gmtime sv w2))
    w2 = (false, w3) ->
  FunctionApp.process_link sv theme link st
  = (Return tt,
     State w3
       (<[doc_id ++ lit ".txt" := FunctionApp.extract_text d]> (blobs st))
       (cosmos st) (total_processed st)
       (trace st ++
          [EvGet link (Some r);
           EvUpload (doc_id ++ lit ".txt") (FunctionApp.extract_text d) true;
           EvUpsert
             (FunctionApp.metadata_item doc_id link
                (FunctionApp.extract_title d) theme
                (container_url sv ++ lit "/" ++ doc_id ++ lit ".txt")
                (strftime_gmtime sv w2))
             false;
           EvRaise CosmosError; EvLog ERROR (MsgFileError link)])).
Proof.
  intros Hget Hd Hid Hup Hups.
  unfold FunctionApp.process_link. unfold_m.
  cbn [world blobs cosmos total_processed trace].
  rewrite Hget. cbn [world blobs cosmos total_processed trace].
  rewrite Hd, Hid. cbn [world blobs cosmos total_processed trace].
  rewrite Hup. cbn [world blobs cosmos total_processed trace].
  rewrite Hups. cbn [world blobs cosmos total_processed trace].
  rewrite <- ?app_assoc. reflexivity.
Qed.

(** C2: in every pass of either program the upload comes before the upsert
    (every upsert of a run comes right after the upload of its pass that
    went through), and the pair is not undone: when the upload goes through
    and the upsert raises, the pass logs the error and returns normally, the
    blob is in the blob container under its name (overwriting what was
    there), the Metadata container and the counter are as before, and the
    loop goes on with the next item. *)
Theorem blob_then_metadata_no_rollback {W} (sv : services W) (theme url : str)
    (rest : list str) (st : state W) :
  (forall r w1 d doc_id w2 w3,
      requests_get sv url Scraper.USER_AGENT (world st) = (r, w1) ->
      page_of sv r = Some d ->
      generate_id url = Some doc_id ->
      upload_blob sv (safe_filename (extract_title d) doc_id)
        (extract_text_content d) w1 = (true, w2) ->
      upsert_item sv
        (Scraper.metadata_item doc_id (extract_title d) url
           (extract_oeil_link d) (extract_status d)
           (blob_client_url sv (safe_filename (extract_title d) doc_id))
           (safe_filename (extract_title d) doc_id) theme
           (strftime_gmtime sv w2))
        w2 = (false, w3) ->
      exists st' it,
        Scraper.process_file sv theme url st = (Return tt, st')
        /\ blobs st'
           = <[safe_filename (extract_title d) doc_id
               := extract_text_content d]> (blobs st)
        /\ cosmos st' = cosmos st
        /\ total_processed st' = total_processed st
        /\ trace st'
           = trace st ++
               [EvSleep; EvGet url r;
                EvUpload (safe_filename (extract_title d) doc_id)
                         (extract_text_content d) true;
                EvUpsert it false;
                EvRaise CosmosError; EvLog ERROR (MsgItemError url)]
        /\ for_each (url :: rest) (Scraper.process_file sv theme) st
           = for_each rest (Scraper.process_file sv theme) st')
  /\ (forall r w1 d doc_id w2 w3,
      requests_get sv url FunctionApp.USER_AGENT (world st) = (Some r, w1) ->
      html_parser sv (body r) = Some d ->
      FunctionApp.doc_id_of url = Some doc_id ->
      upload_blob sv (doc_id ++ lit ".txt") (FunctionApp.extract_text d) w1
      = (true, w2) ->
      upsert_item sv
        (FunctionApp.metadata_item doc_id url (FunctionApp.extract_title d)
           theme (container_url sv ++ lit "/" ++ doc_id ++ lit ".txt")
           (strftime_gmtime sv w2))
        w2 = (false, w3) ->
      exists st' it,
        FunctionApp.process_link sv theme url st = (Return tt, st')
        /\ blobs st'
           = <[doc_id ++ lit ".txt" := FunctionApp.extract_text d]> (blobs st)
        /\ cosmos st' = cosmos st
        /\ trace st'
           = trace st ++
               [EvGet url (Some r);
                EvUpload (doc_id ++ lit ".txt") (FunctionApp.extract_text d)
                         true;
                EvUpsert it false;
                EvRaise CosmosError; EvLog ERROR (MsgFileError url)]
        /\ for_each (url :: rest) (FunctionApp.process_link sv theme) st
           = for_each rest (FunctionApp.process_link sv theme) st')
  /\ (exists w segs,
      Scraper.crawl_all sv st
      = (Return tt, advance true st w (List.concat segs))
      /\ upserts_after_uploads (fun _ _ _ => True) (List.concat segs))
  /\ (exists w segs,
      FunctionApp.crawl_all sv st
      = (Return tt, advance false st w (List.concat segs))
      /\ upserts_after_uploads (fun _ _ _ => True) (List.concat segs)).
Proof.
  split; [| split; [| split]].
  - intros r w1 d doc_id w2 w3 Hget Hpage Hid Hup Hups.
    pose proof (scraper_orphan sv theme url st r w1 d doc_id w2 w3
                  Hget Hpage Hid Hup Hups) as Hrun.
    eexists _, _. split; [exact Hrun |]. simpl.
    repeat split. apply for_each_cons, Hrun.
  - intros r w1 d doc_id w2 w3 Hget Hd Hid Hup Hups.
    pose proof (function_app_orphan sv theme url st r w1 d doc_id w2 w3
                  Hget Hd Hid Hup Hups) as Hrun.
    eexists _, _. split; [exact Hrun |]. simpl.
    repeat split. apply for_each_cons, Hrun.
  - destruct (scraper_crawl_all_segments sv st) as (w & segs & Hrun & Hsegs).
    exists w, segs. split; [exact Hrun |].
    apply upserts_after_uploads_concat.
    eapply Forall2_Forall_r; [| exact Hsegs].
    intros x y Hy pre it done post Hpre.
    destruct (theme_segment_upserts sv x y Hy pre it done post Hpre)
      as (pre' & name & data & -> & _).
    eauto.
  - destruct (function_app_crawl_all_segments sv st)
      as (w & segs & Hrun & Hsegs).
    exists w, segs. split; [exact Hrun |].
    apply upserts_after_uploads_concat.
    eapply Forall2_Forall_r; [| exact Hsegs].
    intros x y Hy pre it done post Hpre.
    destruct (function_app_theme_segment_upserts sv x y Hy pre it done post
                Hpre)
      as (pre' & name & data & -> & _).
    eauto.
Qed.

Lemma blob_then_metadata_no_rollback_witness :
  (exists d doc_id st' it,
      generate_id Fixture.file_url = Some doc_id
      /\ Scraper.process_file (Fixture.site false) Fixture.theme_url
           Fixture.file_url Fixture.empty_state = (Return tt, st')
      /\ blobs st'
         = <[safe_filename (extract_title d) doc_id
             := extract_text_content d]> (blobs Fixture.empty_state)
      /\ cosmos st' = cosmos Fixture.empty_state
      /\ total_processed st' = total_processed Fixture.empty_state
      /\ trace st'
         = trace Fixture.empty_state ++
             [EvSleep;
              EvGet Fixture.file_url (Some (Response 200 Fixture.file_url));
              EvUpload (safe_filename (extract_title d) doc_id)
                       (extract_text_content d) true;
              EvUpsert it false;
              EvRaise CosmosError; EvLog ERROR (MsgItemError Fixture.file_url)])
  /\ (exists d doc_id st' it,
      FunctionApp.doc_id_of Fixture.file_url = Some doc_id
      /\ FunctionApp.process_link (Fixture.site false) Fixture.theme_url
           Fixture.file_url Fixture.empty_state = (Return tt, st')
      /\ blobs st'
         = <[doc_id ++ lit ".txt" := FunctionApp.extract_text d]>
             (blobs Fixture.empty_state)
      /\ cosmos st' = cosmos Fixture.empty_state
      /\ trace st'
         = trace Fixture.empty_state ++
             [EvGet Fixture.file_url (Some (Response 200 Fixture.file_url));
              EvUpload (doc_id ++ lit ".txt") (FunctionApp.extract_text d)
                       true;
              EvUpsert it false;
              EvRaise CosmosError; EvLog ERROR (MsgFileError Fixture.file_url)]).
Proof.
  destruct (blob_then_metadata_no_rollback (Fixture.site false)
              Fixture.theme_url Fixture.file_url [] Fixture.empty_state)
    as (Hscraper & Hfunction_app & _).
  split.
  - destruct (Hscraper (Some (Response 200 Fixture.file_url)) tt
                Fixture.detail_page
                (lit "526bdbe6270c3a5a5f12757c1636f4cd") tt tt
                eq_refl eq_refl)
      as (st' & it & Hrun & Hb & Hc & Hn & Ht & _);
      [vm_compute; reflexivity | reflexivity | reflexivity |].
    exists Fixture.detail_page, (lit "526bdbe6270c3a5a5f12757c1636f4cd"), st', it.
    split; [vm_compute; reflexivity |]. auto.
  - destruct (Hfunction_app (Response 200 Fixture.file_url) tt
                Fixture.detail_page
                (lit "526bdbe6270c3a5a5f12757c1636f4cd") tt tt
                eq_refl eq_refl)
      as (st' & it & Hrun & Hb & Hc & Ht & _);
      [vm_compute; reflexivity | reflexivity | reflexivity |].
    exists Fixture.detail_page, (lit "526bdbe6270c3a5a5f12757c1636f4cd"), st', it.
    split; [vm_compute; reflexivity |]. auto.
Defined.

(** * Further properties of the two programs *)

(** ** Start-up *)

Lemma requested_app a b : requested (a ++ b) = requested a ++ requested b.
Proof.
  induction a as [|e a IH]; simpl; [reflexivity |].
  destruct e; simpl; rewrite ?IH; reflexivity.
Qed.

(** X1: when the Azure clients cannot be built, scraper.py logs the start
    line and one error line and returns normally: nothing is requested,
    nothing is written, the stores and the counter are as they were. *)
Theorem scraper_init_failure_ends_run {W} (sv : services W) (st : state W)
    (Hdown : fst (azure_clients sv (world st)) = false) :
  exists st',
    Scraper.legislative_scraper sv st = (Return tt, st')
    /\ blobs st' = blobs st
    /\ cosmos st' = cosmos st
    /\ total_processed st' = total_processed st
    /\ trace st'
       = trace st ++ [EvLog INFO MsgStarted; EvRaise AzureInitError;
                      EvLog ERROR MsgInitFailed]
    /\ requested (trace st') = requested (trace st).
Proof.
  pose proof (legislative_scraper_run sv st) as Hrun. rewrite Hdown in Hrun.
  eexists. split; [exact Hrun |]. simpl. repeat split.
  rewrite requested_app. simpl. apply app_nil_r.
Qed.

Lemma scraper_init_failure_ends_run_witness :
  exists st',
    Scraper.legislative_scraper Outage.site Fixture.empty_state
    = (Return tt, st')
    /\ blobs st' = ∅ /\ cosmos st' = ∅
    /\ trace st' = [EvLog INFO MsgStarted; EvRaise AzureInitError;
                    EvLog ERROR MsgInitFailed].
Proof.
  destruct (scraper_init_failure_ends_run Outage.site Fixture.empty_state
              eq_refl)
    as (st' & Hrun & Hb & Hc & _ & Ht & _).
  exists st'. auto.
Defined.

(** X2: function_app.py builds its clients outside every try: when they
    cannot be built the exception leaves the function right after the start
    line, no theme is requested and no store is touched. *)
Theorem function_app_init_failure_escapes {W} (sv : services W) (st : state W)
    (Hdown : fst (azure_clients sv (world st)) = false) :
  FunctionApp.legislative_scraper sv st
  = (Raise AzureInitError,
     State (snd (azure_clients sv (world st))) (blobs st) (cosmos st)
           (total_processed st)
           (trace st ++ [EvLog INFO MsgStarted; EvRaise AzureInitError])).
Proof.
  unfold FunctionApp.legislative_scraper.
  unfold logging, init_clients. unfold bind, emit, raise, set_world. simpl.
  destruct (azure_clients sv (world st)) as [ok w0]. simpl in Hdown.
  subst ok. simpl. rewrite <- app_assoc. reflexivity.
Qed.

Lemma function_app_init_failure_escapes_witness :
  FunctionApp.legislative_scraper Outage.site Fixture.empty_state
  = (Raise AzureInitError,
     State tt ∅ ∅ 0 [EvLog INFO MsgStarted; EvRaise AzureInitError]).
Proof.
  apply (function_app_init_failure_escapes Outage.site Fixture.empty_state).
  reflexivity.
Defined.

(** ** What a run requests *)

Lemma requested_fetch_epilogue {W} (sv : services W) url r :
  requested (fetch_epilogue sv url r) = [].
Proof.
  unfold fetch_epilogue. destruct r as [resp|]; [| reflexivity].
  destruct (status_code resp =? 200); [| reflexivity].
  destruct (html_parser sv (body resp)); reflexivity.
Qed.

Lemma file_segment_requested {W} (sv : services W) theme url seg :
  ScraperTrace.file_segment sv theme url seg -> requested seg = [url].
Proof.
  destruct 1; try reflexivity.
  simpl. rewrite requested_fetch_epilogue. reflexivity.
Qed.

Lemma segments_requested {X} (P : X -> list event -> Prop)
    (f : X -> list str) xs segs :
  (forall x seg, P x seg -> requested seg = f x) ->
  Forall2 P xs segs ->
  requested (List.concat segs) = List.concat (List.map f xs).
Proof.
  intros HP. induction 1 as [|x seg xs segs Hx _ IH]; simpl; [reflexivity |].
  rewrite requested_app, (HP x seg Hx), IH. reflexivity.
Qed.

Lemma concat_map_singleton {A} (l : list A) :
  List.concat (List.map (fun x => [x]) l) = l.
Proof. induction l as [|x l IH]; simpl; [reflexivity | rewrite IH; reflexivity]. Qed.

Lemma theme_segment_requested {W} (sv : services W) theme seg :
  ScraperTrace.theme_segment sv theme seg ->
  exists r, In (EvGet theme r) seg /\ requested seg = theme :: links_of sv r.
Proof.
  destruct 1 as [r segs Hsegs]. exists r. split; [simpl; auto |].
  simpl. rewrite requested_app, requested_fetch_epilogue. simpl. f_equal.
  rewrite (segments_requested _ (fun u => [u]) _ _
             (file_segment_requested sv theme) Hsegs).
  apply concat_map_singleton.
Qed.

Lemma links_of_NoDup {W} (sv : services W) r : NoDup (links_of sv r).
Proof.
  unfold links_of. destruct (page_of sv r) as [d|]; [| constructor].
  apply list_set_spec.
Qed.

(** X3: scraper.py never retries and never skips: in a crawl, each of the
    six themes is requested once, in order, and right after a theme the
    links found in the answer to that request are requested once each, a
    link list being without repetition. *)
Theorem scraper_requests_once {W} (sv : services W) (st : state W) :
  exists st' evs pages,
    Scraper.crawl_all sv st = (Return tt, st')
    /\ trace st' = trace st ++ evs
    /\ requested evs = List.concat pages
    /\ Forall2
         (fun theme page =>
            exists r, In (EvGet theme r) evs
                      /\ page = theme :: links_of sv r
                      /\ NoDup (links_of sv r))
         THEMES pages.
Proof.
  destruct (scraper_crawl_all_segments sv st) as (w & segs & Hrun & Hsegs).
  exists (advance true st w (List.concat segs)), (List.concat segs).
  assert (Hpages : forall themes segs0,
             Forall2 (ScraperTrace.theme_segment sv) themes segs0 ->
             exists pages,
               requested (List.concat segs0) = List.concat pages
               /\ Forall2
                    (fun theme page =>
                       exists r, In (EvGet theme r) (List.concat segs0)
                                 /\ page = theme :: links_of sv r
                                 /\ NoDup (links_of sv r))
                    themes pages).
  { induction 1 as [|t seg ts segs0 Hseg _ IH].
    - exists []. split; [reflexivity | constructor].
    - destruct IH as (pages & Hreq & Hall).
      destruct (theme_segment_requested sv t seg Hseg) as (r & Hin & Hr).
      exists ((t :: links_of sv r) :: pages). split.
      + simpl. rewrite requested_app, Hr, Hreq. reflexivity.
      + constructor.
        * exists r. split; [simpl; apply in_or_app; auto |].
          split; [reflexivity | apply links_of_NoDup].
        * eapply Forall2_impl; [exact Hall |].
          intros t' p (r' & Hin' & Hp & Hnd). exists r'.
          split; [simpl; apply in_or_app; auto | auto]. }
  destruct (Hpages THEMES segs Hsegs) as (pages & Hreq & Hall).
  exists pages. auto.
Qed.

Lemma detail_link_on_site d u : detail_link d u -> on_site u.
Proof.
  intros (a & href & _ & _ & _ & (pre & post & Hfile) & (rest & Hpre) & ->).
  split.
  - exists rest. rewrite Hpre. reflexivity.
  - exists (BASE_URL ++ pre), post. rewrite Hfile, <- app_assoc. reflexivity.
Qed.

Lemma links_of_on_site {W} (sv : services W) r u :
  In u (links_of sv r) -> on_site u.
Proof.
  unfold links_of. destruct (page_of sv r) as [d|]; [| intros []].
  intros Hu. apply (detail_link_on_site d), file_links_spec.
  apply list_elem_of_In. apply list_set_spec. apply list_elem_of_In, Hu.
Qed.

Lemma link_segment_requested {W} (sv : services W) theme link seg :
  FunctionAppTrace.link_segment sv theme link seg -> requested seg = [link].
Proof. destruct 1; reflexivity. Qed.

Lemma function_app_theme_segment_requested {W} (sv : services W) theme seg :
  FunctionAppTrace.theme_segment sv theme seg ->
  requested seg = [theme]
  \/ exists r d,
      html_parser sv (body r) = Some d
      /\ requested seg = theme :: list_set (file_links d).
Proof.
  destruct 1 as [| r Hr | r d segs Hd Hsegs]; [left; reflexivity .. |].
  right. exists r, d. split; [exact Hd |]. simpl. f_equal.
  rewrite (segments_requested _ (fun u => [u]) _ _
             (link_segment_requested sv theme) Hsegs).
  rewrite concat_map_singleton, function_app_links. reflexivity.
Qed.

Lemma segments_requested_Forall {X} (P : X -> list event -> Prop)
    (Q : str -> Prop) (xs : list X) segs :
  (forall x seg, In x xs -> P x seg -> Forall Q (requested seg)) ->
  Forall2 P xs segs ->
  Forall Q (requested (List.concat segs)).
Proof.
  intros HP H. induction H as [|x seg xs segs Hx _ IH]; simpl; [constructor |].
  rewrite requested_app. apply Forall_app. split.
  - apply (HP x seg); [left; reflexivity | exact Hx].
  - apply IH. intros y s Hy. apply HP. right. exact Hy.
Qed.

(** X4: neither program leaves the site: every URL requested in a crawl is
    one of the six theme URLs or a detail URL, which begins with
    "https://www.europarl.europa.eu/legislative-train/theme-" and contains
    "/file-". *)
Theorem crawl_stays_on_site {W} (sv : services W) (st : state W) :
  (exists st' evs,
      Scraper.crawl_all sv st = (Return tt, st')
      /\ trace st' = trace st ++ evs
      /\ Forall (fun u => In u THEMES \/ on_site u) (requested evs))
  /\ (exists st' evs,
      FunctionApp.crawl_all sv st = (Return tt, st')
      /\ trace st' = trace st ++ evs
      /\ Forall (fun u => In u THEMES \/ on_site u) (requested evs)).
Proof.
  split.
  - destruct (scraper_crawl_all_segments sv st) as (w & segs & Hrun & Hsegs).
    eexists _, (List.concat segs). split; [exact Hrun |].
    split; [reflexivity |].
    eapply segments_requested_Forall; [| exact Hsegs].
    intros theme seg Hin Hseg.
    destruct (theme_segment_requested sv theme seg Hseg) as (r & _ & ->).
    constructor; [left; exact Hin |].
    apply Forall_forall. intros u Hu. right.
    apply (links_of_on_site sv r), list_elem_of_In, Hu.
  - destruct (function_app_crawl_all_segments sv st)
      as (w & segs & Hrun & Hsegs).
    eexists _, (List.concat segs). split; [exact Hrun |].
    split; [reflexivity |].
    eapply segments_requested_Forall; [| exact Hsegs].
    intros theme seg Hin Hseg.
    destruct (function_app_theme_segment_requested sv theme seg Hseg)
      as [-> | (r & d & Hd & ->)].
    + constructor; [left; exact Hin | constructor].
    + constructor; [left; exact Hin |].
      apply Forall_forall. intros u Hu. right.
      apply (detail_link_on_site d), file_links_spec.
      apply list_elem_of_In. apply list_set_spec. exact Hu.
Qed.

(** ** The delay *)

Lemma sleep_before_get_nil : sleep_before_get [].
Proof. intros [|x pre] url r post H; discriminate. Qed.

Lemma sleep_before_get_cons x l :
  requested [x] = [] -> sleep_before_get l -> sleep_before_get (x :: l).
Proof.
  intros Hx Hl pre url r post H. destruct pre as [|y pre]; simpl in H.
  - injection H as -> _. discriminate.
  - injection H as -> H. destruct (Hl _ _ _ _ H) as (pre' & ->).
    exists (y :: pre'). reflexivity.
Qed.

Lemma sleep_before_get_pair url r l :
  sleep_before_get l -> sleep_before_get (EvSleep :: EvGet url r :: l).
Proof.
  intros Hl pre url' r' post H. destruct pre as [|y pre]; simpl in H.
  - discriminate.
  - injection H as <- H. destruct pre as [|z pre]; simpl in H.
    + exists []. reflexivity.
    + injection H as <- H. destruct (Hl _ _ _ _ H) as (pre' & ->).
      exists (EvSleep :: EvGet url r :: pre'). reflexivity.
Qed.

Lemma sleep_before_get_app a b :
  sleep_before_get a -> sleep_before_get b -> sleep_before_get (a ++ b).
Proof.
  intros Ha Hb pre url r post H.
  destruct (app_eq_mid _ _ _ _ _ H) as [(q & Hq & ->) | (p & -> & Hp)].
  - exact (Ha _ _ _ _ Hq).
  - destruct (Hb _ _ _ _ Hp) as (pre' & ->).
    exists (a ++ pre'). rewrite app_assoc. reflexivity.
Qed.

Lemma sleep_before_get_concat segs :
  Forall sleep_before_get segs -> sleep_before_get (List.concat segs).
Proof.
  induction 1; simpl;
    [apply sleep_before_get_nil | apply sleep_before_get_app; auto].
Qed.

Ltac sleep_tac :=
  repeat first
    [ apply sleep_before_get_nil
    | apply sleep_before_get_pair
    | apply sleep_before_get_cons; [reflexivity |] ].

Lemma fetch_epilogue_sleep {W} (sv : services W) url r :
  sleep_before_get (fetch_epilogue sv url r)
  /\ List.filter is_sleep (fetch_epilogue sv url r) = [].
Proof.
  unfold fetch_epilogue. destruct r as [resp|]; [| split; [sleep_tac | auto]].
  destruct (status_code resp =? 200); [| split; [sleep_tac | auto]].
  destruct (html_parser sv (body resp)); split; auto; sleep_tac.
Qed.

Lemma file_segment_sleep {W} (sv : services W) theme url seg :
  ScraperTrace.file_segment sv theme url seg ->
  sleep_before_get seg /\ length (List.filter is_sleep seg) = 1%nat.
Proof.
  destruct 1; try (split; [sleep_tac | reflexivity]).
  destruct (fetch_epilogue_sleep sv url r) as [Hs Hn].
  split; [sleep_tac; exact Hs | simpl; rewrite Hn; reflexivity].
Qed.

Lemma segments_count {X} (P : X -> list event -> Prop) (p : event -> bool)
    (n : list event -> nat) (xs : list X) segs :
  (forall a b, n (a ++ b) = (n a + n b)%nat) -> n [] = 0%nat ->
  (forall x seg, P x seg -> length (List.filter p seg) = n seg) ->
  Forall2 P xs segs ->
  length (List.filter p (List.concat segs)) = n (List.concat segs).
Proof.
  intros Happ Hnil HP. induction 1 as [|x seg xs segs Hx _ IH]; simpl.
  - symmetry. exact Hnil.
  - rewrite List.filter_app, List.length_app, Happ, (HP x seg Hx), IH.
    reflexivity.
Qed.

Lemma length_requested_app a b :
  length (requested (a ++ b))
  = (length (requested a) + length (requested b))%nat.
Proof. rewrite requested_app. apply List.length_app. Qed.

Lemma theme_segment_sleep {W} (sv : services W) theme seg :
  ScraperTrace.theme_segment sv theme seg ->
  sleep_before_get seg
  /\ length (List.filter is_sleep seg) = length (requested seg).
Proof.
  destruct 1 as [r segs Hsegs].
  destruct (fetch_epilogue_sleep sv theme r) as [Hs Hn]. split.
  - sleep_tac. apply sleep_before_get_app; [exact Hs |].
    apply sleep_before_get_concat.
    eapply Forall2_Forall_r; [| exact Hsegs].
    intros x y Hy. apply (file_segment_sleep sv theme x y Hy).
  - simpl. rewrite List.filter_app, List.length_app, Hn.
    rewrite requested_app, requested_fetch_epilogue. simpl. f_equal.
    apply (segments_count (ScraperTrace.file_segment sv theme) is_sleep
             (fun evs => length (requested evs)) (links_of sv r) segs);
      [apply length_requested_app | reflexivity | | exact Hsegs].
    intros x seg Hseg.
    rewrite (file_segment_requested sv theme x seg Hseg).
    apply (file_segment_sleep sv theme x seg Hseg).
Qed.

(** X5: in a crawl of scraper.py every request, to a theme page or to a
    detail page, comes right after the half-second delay, and there is no
    other delay: the crawl sleeps exactly once per request. *)
Theorem scraper_sleeps_before_each_request {W} (sv : services W)
    (st : state W) :
  exists st' evs,
    Scraper.crawl_all sv st = (Return tt, st')
    /\ trace st' = trace st ++ evs
    /\ sleep_before_get evs
    /\ length (List.filter is_sleep evs) = length (requested evs).
Proof.
  destruct (scraper_crawl_all_segments sv st) as (w & segs & Hrun & Hsegs).
  eexists _, (List.concat segs). split; [exact Hrun |].
  split; [reflexivity |]. split.
  - apply sleep_before_get_concat.
    eapply Forall2_Forall_r; [| exact Hsegs].
    intros x y Hy. apply (theme_segment_sleep sv x y Hy).
  - apply (segments_count (ScraperTrace.theme_segment sv) is_sleep
             (fun evs => length (requested evs)) THEMES segs);
      [apply length_requested_app | reflexivity | | exact Hsegs].
    intros x seg Hseg. apply (theme_segment_sleep sv x seg Hseg).
Qed.

Lemma length_filter_app {A} (p : A -> bool) a b :
  length (List.filter p (a ++ b))
  = (length (List.filter p a) + length (List.filter p b))%nat.
Proof. rewrite List.filter_app. apply List.length_app. Qed.

Lemma link_segment_sleep {W} (sv : services W) theme link seg :
  FunctionAppTrace.link_segment sv theme link seg ->
  length (List.filter is_sleep seg) = length (List.filter is_upsert_ok seg).
Proof. destruct 1; reflexivity. Qed.

Lemma function_app_theme_segment_sleep {W} (sv : services W) theme seg :
  FunctionAppTrace.theme_segment sv theme seg ->
  length (List.filter is_sleep seg) = length (List.filter is_upsert_ok seg).
Proof.
  destruct 1 as [| r Hr | r d segs Hd Hsegs]; try reflexivity.
  simpl.
  apply (segments_count (FunctionAppTrace.link_segment sv theme) is_sleep
           (fun evs => length (List.filter is_upsert_ok evs))
           (list_set (FunctionApp.links d)) segs);
    [apply length_filter_app | reflexivity | | exact Hsegs].
  intros x seg. apply link_segment_sleep.
Qed.

(** X6: function_app.py has no delay before its requests: it sleeps only
    at the end of a pass that saved its item, so a crawl sleeps exactly as
    many times as upserts went through, and a failed item is followed by the
    next request without delay. *)
Theorem function_app_sleeps_after_saves {W} (sv : services W) (st : state W) :
  exists st' evs,
    FunctionApp.crawl_all sv st = (Return tt, st')
    /\ trace st' = trace st ++ evs
    /\ length (List.filter is_sleep evs)
       = length (List.filter is_upsert_ok evs)
    /\ forall theme link s, exists s' seg,
        FunctionApp.process_link sv theme link s = (Return tt, s')
        /\ trace s' = trace s ++ seg
        /\ (List.filter is_upsert_ok seg = [] -> List.filter is_sleep seg = []).
Proof.
  destruct (function_app_crawl_all_segments sv st)
    as (w & segs & Hrun & Hsegs).
  eexists _, (List.concat segs). split; [exact Hrun |].
  split; [reflexivity |]. split.
  - apply (segments_count (FunctionAppTrace.theme_segment sv) is_sleep
             (fun evs => length (List.filter is_upsert_ok evs)) THEMES segs);
      [apply length_filter_app | reflexivity | | exact Hsegs].
    intros x seg. apply function_app_theme_segment_sleep.
  - intros theme link s.
    destruct (process_link_segment sv theme link s) as (w' & seg & Hs & Hseg).
    eexists _, seg. split; [exact Hs |]. split; [reflexivity |].
    intros Hnone. pose proof (link_segment_sleep sv theme link seg Hseg) as Hn.
    rewrite Hnone in Hn. simpl in Hn.
    destruct (List.filter is_sleep seg); [reflexivity | discriminate].
Qed.

(** ** The stores only grow *)

Lemma replay_blobs_frame (evs : list event) (b : gmap str str) (name : str) :
  ~ In name (uploaded evs) -> replay_blobs evs b !! name = b !! name.
Proof.
  revert b. induction evs as [|e evs IH]; intros b Hno; [reflexivity |].
  destruct e as [| | n data [|] | | |]; simpl in *;
    try (apply IH; exact Hno).
  unfold replay_blobs in *. simpl. rewrite IH by tauto.
  apply lookup_insert_ne. intros ->. tauto.
Qed.

Lemma replay_blobs_keeps (evs : list event) (b : gmap str str) (name : str) :
  is_Some (b !! name) -> is_Some (replay_blobs evs b !! name).
Proof.
  revert b. induction evs as [|e evs IH]; intros b Hb; [exact Hb |].
  destruct e as [| | n data [|] | | |]; simpl in *;
    try (apply IH; exact Hb).
  unfold replay_blobs in *. simpl. apply IH.
  destruct (decide (n = name)) as [-> | Hne].
  - rewrite lookup_insert_eq. eauto.
  - rewrite lookup_insert_ne by exact Hne. exact Hb.
Qed.

Lemma replay_cosmos_frame (evs : list event) (c : gmap str item)
    (doc_id : str) :
  ~ In doc_id (upserted evs) -> replay_cosmos evs c !! doc_id = c !! doc_id.
Proof.
  revert c. induction evs as [|e evs IH]; intros c Hno; [reflexivity |].
  destruct e as [| | | it [|] | |]; simpl in *; try (apply IH; exact Hno).
  unfold replay_cosmos in *. simpl. unfold item_str in Hno.
  destruct (item_get (lit "id") it) as [[i|]|]; simpl in Hno;
    try (apply IH; exact Hno).
  rewrite IH by tauto. apply lookup_insert_ne. intros ->. tauto.
Qed.

Lemma replay_cosmos_keeps (evs : list event) (c : gmap str item)
    (doc_id : str) :
  is_Some (c !! doc_id) -> is_Some (replay_cosmos evs c !! doc_id).
Proof.
  revert c. induction evs as [|e evs IH]; intros c Hc; [exact Hc |].
  destruct e as [| | | it [|] | |]; simpl in *; try (apply IH; exact Hc).
  unfold replay_cosmos in *. simpl.
  destruct (item_get (lit "id") it) as [[i|]|]; try (apply IH; exact Hc).
  apply IH. destruct (decide (i = doc_id)) as [-> | Hne].
  - rewrite lookup_insert_eq. eauto.
  - rewrite lookup_insert_ne by exact Hne. exact Hc.
Qed.

(** X7: a crawl of either program never deletes: every blob name and every
    record id that was in a store before the crawl is still there after it,
    a blob whose name was not uploaded in the crawl has its text as before,
    and a record whose id was not upserted in the crawl is as before. *)
Theorem crawl_never_deletes {W} (sv : services W) (st : state W) :
  (exists st' evs,
      Scraper.crawl_all sv st = (Return tt, st')
      /\ trace st' = trace st ++ evs
      /\ (forall name, is_Some (blobs st !! name) ->
                       is_Some (blobs st' !! name))
      /\ (forall name, ~ In name (uploaded evs) ->
                       blobs st' !! name = blobs st !! name)
      /\ (forall doc_id, is_Some (cosmos st !! doc_id) ->
                         is_Some (cosmos st' !! doc_id))
      /\ (forall doc_id, ~ In doc_id (upserted evs) ->
                         cosmos st' !! doc_id = cosmos st !! doc_id))
  /\ (exists st' evs,
      FunctionApp.crawl_all sv st = (Return tt, st')
      /\ trace st' = trace st ++ evs
      /\ (forall name, is_Some (blobs st !! name) ->
                       is_Some (blobs st' !! name))
      /\ (forall name, ~ In name (uploaded evs) ->
                       blobs st' !! name = blobs st !! name)
      /\ (forall doc_id, is_Some (cosmos st !! doc_id) ->
                         is_Some (cosmos st' !! doc_id))
      /\ (forall doc_id, ~ In doc_id (upserted evs) ->
                         cosmos st' !! doc_id = cosmos st !! doc_id)).
Proof.
  split.
  - destruct (scraper_crawl_all_segments sv st) as (w & segs & Hrun & _).
    eexists _, (List.concat segs). split; [exact Hrun |].
    split; [reflexivity |]. simpl.
    split; [intros name; apply replay_blobs_keeps |].
    split; [intros name; apply replay_blobs_frame |].
    split; [intros i; apply replay_cosmos_keeps |].
    intros i; apply replay_cosmos_frame.
  - destruct (function_app_crawl_all_segments sv st) as (w & segs & Hrun & _).
    eexists _, (List.concat segs). split; [exact Hrun |].
    split; [reflexivity |]. simpl.
    split; [intros name; apply replay_blobs_keeps |].
    split; [intros name; apply replay_blobs_frame |].
    split; [intros i; apply replay_cosmos_keeps |].
    intros i; apply replay_cosmos_frame.
Qed.

(** ** Failures inside a pass *)

(** X8: when the upload raises, the pass of scraper.py never calls
    upsert_item: it logs the error and returns normally with both stores and
    the counter as they were, and the loop goes on with the next link. *)
Theorem scraper_upload_failure_skips_upsert {W} (sv : services W)
    (theme url : str) (rest : list str) (st : state W) r w1 d doc_id w2
    (Hget : requests_get sv url Scraper.USER_AGENT (world st) = (r, w1))
    (Hpage : page_of sv r = Some d)
    (Hid : generate_id url = Some doc_id)
    (Hup : upload_blob sv (safe_filename (extract_title d) doc_id)
             (extract_text_content d) w1 = (false, w2)) :
  Scraper.process_file sv theme url st
  = (Return tt,
     State w2 (blobs st) (cosmos st) (total_processed st)
       (trace st ++
          [EvSleep; EvGet url r;
           EvUpload (safe_filename (extract_title d) doc_id)
                    (extract_text_content d) false;
           EvRaise BlobError; EvLog ERROR (MsgItemError url)]))
  /\ for_each (url :: rest) (Scraper.process_file sv theme) st
     = for_each rest (Scraper.process_file sv theme)
         (State w2 (blobs st) (cosmos st) (total_processed st)
            (trace st ++
               [EvSleep; EvGet url r;
                EvUpload (safe_filename (extract_title d) doc_id)
                         (extract_text_content d) false;
                EvRaise BlobError; EvLog ERROR (MsgItemError url)])).
Proof.
  assert (Hrun : Scraper.process_file sv theme url st
                 = (Return tt,
                    State w2 (blobs st) (cosmos st) (total_processed st)
                      (trace st ++
                         [EvSleep; EvGet url r;
                          EvUpload (safe_filename (extract_title d) doc_id)
                                   (extract_text_content d) false;
                          EvRaise BlobError; EvLog ERROR (MsgItemError url)]))).
  { unfold Scraper.process_file, try_except, bind at 1.
    rewrite get_soup_run, Hget. simpl. rewrite Hpage.
    rewrite (fetch_epilogue_page sv url r d Hpage), Hid.
    unfold_m. simpl. rewrite Hup. simpl.
    rewrite <- ?app_assoc. reflexivity. }
  split; [exact Hrun | apply for_each_cons, Hrun].
Qed.

Lemma scraper_upload_failure_skips_upsert_witness :
  Scraper.process_file Outage.blob_down_site Fixture.theme_url
    Fixture.file_url Fixture.empty_state
  = (Return tt,
     State tt ∅ ∅ 0
       [EvSleep;
        EvGet Fixture.file_url (Some (Response 200 Fixture.file_url));
        EvUpload
          (safe_filename (extract_title Fixture.detail_page)
             (lit "526bdbe6270c3a5a5f12757c1636f4cd"))
          (extract_text_content Fixture.detail_page) false;
        EvRaise BlobError; EvLog ERROR (MsgItemError Fixture.file_url)]).
Proof.
  apply (scraper_upload_failure_skips_upsert Outage.blob_down_site
           Fixture.theme_url Fixture.file_url [] Fixture.empty_state
           (Some (Response 200 Fixture.file_url)) tt Fixture.detail_page
           (lit "526bdbe6270c3a5a5f12757c1636f4cd") tt);
    [reflexivity | reflexivity | vm_compute; reflexivity | reflexivity].
Defined.

(** X9: a link that has no UTF-8 form (it holds a lone surrogate) is
    requested, and then generate_id raises: the pass of scraper.py logs the
    error and returns normally without any upload or upsert. *)
Theorem scraper_unencodable_link_not_persisted {W} (sv : services W)
    (theme url : str) (st : state W) r w1 d
    (Hget : requests_get sv url Scraper.USER_AGENT (world st) = (r, w1))
    (Hpage : page_of sv r = Some d)
    (Hurl : encodable url = false) :
  Scraper.process_file sv theme url st
  = (Return tt,
     State w1 (blobs st) (cosmos st) (total_processed st)
       (trace st ++
          [EvSleep; EvGet url r; EvRaise UnicodeEncodeError;
           EvLog ERROR (MsgItemError url)])).
Proof.
  assert (Hid : generate_id url = None).
  { unfold generate_id. apply encode_utf8_surrogate in Hurl.
    rewrite Hurl. reflexivity. }
  unfold Scraper.process_file, try_except, bind at 1.
  rewrite get_soup_run, Hget. simpl. rewrite Hpage.
  rewrite (fetch_epilogue_page sv url r d Hpage), Hid.
  unfold_m. simpl. rewrite <- ?app_assoc. reflexivity.
Qed.

Lemma scraper_unencodable_link_not_persisted_witness :
  Scraper.process_file (Fixture.site true) Fixture.theme_url
    (BASE_URL ++ lit "/legislative-train/theme-x/file-" ++ [0xD800])
    Fixture.empty_state
  = (Return tt,
     State tt ∅ ∅ 0
       [EvSleep;
        EvGet (BASE_URL ++ lit "/legislative-train/theme-x/file-" ++ [0xD800])
          (Some (Response 200
                   (BASE_URL ++ lit "/legislative-train/theme-x/file-"
                             ++ [0xD800])));
        EvRaise UnicodeEncodeError;
        EvLog ERROR
          (MsgItemError
             (BASE_URL ++ lit "/legislative-train/theme-x/file-"
                       ++ [0xD800]))]).
Proof.
  apply (scraper_unencodable_link_not_persisted (Fixture.site true)
           Fixture.theme_url
           (BASE_URL ++ lit "/legislative-train/theme-x/file-" ++ [0xD800])
           Fixture.empty_state
           (Some (Response 200
                    (BASE_URL ++ lit "/legislative-train/theme-x/file-"
                              ++ [0xD800])))
           tt Fixture.detail_page);
    reflexivity.
Defined.

(** ** Titles and file names *)

Lemma nonempty_false (s : str) : nonempty s = false -> s = [].
Proof. destruct s; [reflexivity | discriminate]. Qed.

(** X10: the default title is for a page without h1 only. When the first
    h1 is there but its text is blank, both programs take the empty string
    as the title, not "Untitled", and the blob of scraper.py is then named
    "_", the first six characters of the id and ".txt". *)
Theorem blank_h1_gives_empty_title (d : soup) (title_el : node)
    (doc_id : str)
    (Hfirst : select_one (is_tag (lit "h1")) d = Some title_el)
    (Hblank : existsb not_space (text title_el) = false) :
  extract_title d = []
  /\ FunctionApp.extract_title d = []
  /\ safe_filename (extract_title d) doc_id
     = lit "_" ++ firstn 6 doc_id ++ lit ".txt".
Proof.
  assert (Hstrip : strip (text title_el) = []).
  { apply nonempty_false. rewrite nonempty_strip. exact Hblank. }
  assert (Htitle : extract_title d = []).
  { unfold extract_title. rewrite Hfirst. exact Hstrip. }
  split; [exact Htitle |]. split.
  - unfold FunctionApp.extract_title. rewrite Hfirst.
    apply nonempty_false. rewrite block_test, Hstrip. reflexivity.
  - rewrite Htitle. reflexivity.
Qed.

Lemma blank_h1_gives_empty_title_witness :
  extract_title [Tag (lit "h1") [] [] [NavigableString (lit "  ")]] = []
  /\ FunctionApp.extract_title
       [Tag (lit "h1") [] [] [NavigableString (lit "  ")]] = []
  /\ safe_filename
       (extract_title [Tag (lit "h1") [] [] [NavigableString (lit "  ")]])
       (lit "526bdbe6270c3a5a5f12757c1636f4cd")
     = lit "_" ++ firstn 6 (lit "526bdbe6270c3a5a5f12757c1636f4cd")
         ++ lit ".txt".
Proof.
  apply (blank_h1_gives_empty_title
           [Tag (lit "h1") [] [] [NavigableString (lit "  ")]]
           (Tag (lit "h1") [] [] [NavigableString (lit "  ")])
           (lit "526bdbe6270c3a5a5f12757c1636f4cd"));
    reflexivity.
Defined.

Lemma re_sub_from_length b s :
  (length (re_sub_from b s) <= length s)%nat.
Proof.
  revert b. induction s as [|c s IH]; intros b; simpl; [lia |].
  destruct (is_name_char c); simpl.
  - specialize (IH false). lia.
  - destruct b; simpl; specialize (IH true); lia.
Qed.

(** X11: sanitizing a title a second time changes nothing, a sanitized
    title is never longer than the title, and it is empty only for the empty
    title. *)
Theorem sanitize_idempotent_not_longer (title : str) :
  re_sub (re_sub title) = re_sub title
  /\ (length (re_sub title) <= length title)%nat
  /\ (re_sub title = [] <-> title = []).
Proof.
  split; [| split].
  - apply re_sub_names, re_sub_from_name_chars.
  - apply re_sub_from_length.
  - split.
    + destruct title as [|c title]; [reflexivity |].
      unfold re_sub. simpl. destruct (is_name_char c); discriminate.
    + intros ->. reflexivity.
Qed.

Lemma lower_hex_name_char c : is_lower_hex c = true -> is_name_char c = true.
Proof.
  unfold is_lower_hex, is_name_char. intros H.
  apply orb_prop in H as [H | H]; apply andb_prop in H as [H1 H2];
    apply Z.leb_le in H1, H2.
  - replace ((48 <=? c) && (c <=? 57)) with true
      by (symmetry; apply andb_true_intro; split; apply Z.leb_le; lia).
    rewrite !orb_true_r. reflexivity.
  - replace ((97 <=? c) && (c <=? 122)) with true
      by (symmetry; apply andb_true_intro; split; apply Z.leb_le; lia).
    reflexivity.
Qed.

Lemma forallb_weaken {A} (p q : A -> bool) l :
  (forall x, p x = true -> q x = true) ->
  forallb p l = true -> forallb q l = true.
Proof.
  intros Hpq. induction l as [|x l IH]; simpl; [reflexivity |].
  intros H. apply andb_prop in H as [Hx Hl].
  rewrite (Hpq x Hx), (IH Hl). reflexivity.
Qed.

(** X12: the name under which scraper.py uploads is always a plain file
    name: for the id of any link, it is made of letters, digits, "_", "-"
    and "." only (no slash, no white space), it has between 11 and 111
    characters, and its last 11 characters are "_", the first six
    characters of the id and ".txt". *)
Theorem safe_filename_plain (title url doc_id : str)
    (Hid : generate_id url = Some doc_id) :
  forallb (fun c => is_name_char c || (c =? 46))
    (safe_filename title doc_id) = true
  /\ (11 <= length (safe_filename title doc_id) <= 111)%nat
  /\ length (safe_filename title doc_id)
     = (Nat.min 100 (length (re_sub title)) + 11)%nat
  /\ skipn (Nat.min 100 (length (re_sub title))) (safe_filename title doc_id)
     = lit "_" ++ firstn 6 doc_id ++ lit ".txt".
Proof.
  assert (Hhex : length doc_id = 32%nat /\ forallb is_lower_hex doc_id = true).
  { unfold generate_id in Hid. destruct (encode_utf8 url); [| discriminate].
    injection Hid as <-. split; [apply hexdigest_length | apply hexdigest_lower]. }
  destruct Hhex as [Hlen Hhex].
  assert (Hpre : length (firstn 100 (re_sub title))
                 = Nat.min 100 (length (re_sub title)))
    by apply length_firstn.
  assert (Hsix : length (firstn 6 doc_id) = 6%nat)
    by (rewrite length_firstn; lia).
  assert (Hall : length (safe_filename title doc_id)
                 = (Nat.min 100 (length (re_sub title)) + 11)%nat).
  { unfold safe_filename. rewrite !List.length_app, Hpre, Hsix. simpl. lia. }
  split; [| split; [| split]].
  - unfold safe_filename. rewrite !forallb_app.
    rewrite (forallb_weaken is_name_char _ (firstn 100 (re_sub title))).
    + rewrite (forallb_weaken is_lower_hex _ (firstn 6 doc_id)).
      * reflexivity.
      * intros c Hc. rewrite (lower_hex_name_char c Hc). reflexivity.
      * apply forallb_firstn, Hhex.
    + intros c Hc. rewrite Hc. reflexivity.
    + apply forallb_firstn, re_sub_from_name_chars.
  - rewrite Hall. lia.
  - exact Hall.
  - unfold safe_filename. rewrite <- Hpre.
    rewrite skipn_app, skipn_all, Nat.sub_diag. reflexivity.
Qed.

Lemma safe_filename_plain_witness :
  forallb (fun c => is_name_char c || (c =? 46))
    (safe_filename (lit "Fit for 55: Reg. (EU) 2021/1119!")
       (lit "526bdbe6270c3a5a5f12757c1636f4cd")) = true
  /\ (11 <= length
              (safe_filename (lit "Fit for 55: Reg. (EU) 2021/1119!")
                 (lit "526bdbe6270c3a5a5f12757c1636f4cd")) <= 111)%nat.
Proof.
  destruct (safe_filename_plain (lit "Fit for 55: Reg. (EU) 2021/1119!")
              Fixture.file_url (lit "526bdbe6270c3a5a5f12757c1636f4cd"))
    as (Hchars & Hlen & _); [vm_compute; reflexivity |].
  split; assumption.
Defined.

(** X13: two items of scraper.py get the same blob name exactly when their
    titles sanitize, cut to 100 characters, to the same string and their ids
    begin with the same six characters: the rest of the id and what the
    sanitizing removed play no part, so the later upload overwrites the
    earlier blob. *)
Theorem safe_filename_collides_iff (title1 title2 id1 id2 : str)
    (Hlen1 : (6 <= length id1)%nat) (Hlen2 : (6 <= length id2)%nat) :
  safe_filename title1 id1 = safe_filename title2 id2
  <-> firstn 100 (re_sub title1) = firstn 100 (re_sub title2)
      /\ firstn 6 id1 = firstn 6 id2.
Proof.
  unfold safe_filename. split.
  - intros H. apply app_inj_2 in H as [Hpre Hsuf].
    + split; [exact Hpre |]. simpl in Hsuf. injection Hsuf as Hsuf.
      apply app_inj_1 in Hsuf as [Hsix _]; [exact Hsix |].
      rewrite !length_firstn. lia.
    + rewrite !List.length_app, !length_firstn.
      rewrite !Nat.min_l by lia. reflexivity.
  - intros [-> ->]. reflexivity.
Qed.

Lemma safe_filename_collides_iff_witness :
  safe_filename (lit "Fit for 55") (lit "526bdbe6270c3a5a5f12757c1636f4cd")
  = safe_filename (lit "Fit/for?55") (lit "526bdb00000000000000000000000000")
  <-> firstn 100 (re_sub (lit "Fit for 55"))
      = firstn 100 (re_sub (lit "Fit/for?55"))
      /\ firstn 6 (lit "526bdbe6270c3a5a5f12757c1636f4cd")
         = firstn 6 (lit "526bdb00000000000000000000000000").
Proof.
  apply (safe_filename_collides_iff (lit "Fit for 55") (lit "Fit/for?55")
           (lit "526bdbe6270c3a5a5f12757c1636f4cd")
           (lit "526bdb00000000000000000000000000"));
    simpl; lia.
Defined.

Example same_blob_for_different_titles :
  safe_filename (lit "Fit for 55") (lit "526bdbe6270c3a5a5f12757c1636f4cd")
  = safe_filename (lit "Fit/for?55") (lit "526bdb00000000000000000000000000").
Proof. reflexivity. Qed.

(** ** The OEIL link *)

(** X14: the oeil_link of scraper.py is the href of the first anchor of the
    page, in document order, whose href contains
    "oeil.secure.europarl.europa.eu", wherever in the href the name stands:
    later such anchors are not looked at. *)
Theorem oeil_link_is_first_match (d : soup) (h : str) :
  extract_oeil_link d = Some h
  <-> exists pre a post,
      descendants d = pre ++ a :: post
      /\ is_tag (lit "a") a = true
      /\ get (lit "href") a = Some h
      /\ (exists before after, h = before ++ OEIL_HOST ++ after)
      /\ existsb is_oeil_anchor pre = false.
Proof.
  unfold extract_oeil_link, select. rewrite first_oeil_first_match.
  split; intros (pre & a & post & Hd & H).
  - destruct H as (Ha & Hh & Hpre). exists pre, a, post.
    unfold is_oeil_anchor, sel_anchor_with_href in Ha. rewrite Hh in Ha.
    apply andb_prop in Ha as [Htag Hhost]. rewrite andb_true_r in Htag.
    apply contains_spec in Hhost. auto.
  - destruct H as (Htag & Hh & Hhost & Hpre). exists pre, a, post.
    unfold is_oeil_anchor, sel_anchor_with_href. rewrite Htag, Hh.
    apply contains_spec in Hhost. rewrite Hhost. auto.
Qed.

Example oeil_link_in_query_string :
  extract_oeil_link
    [Tag (lit "a")
       [(lit "href", lit "https://example.org/?ref=oeil.secure.europarl.europa.eu")]
       [] [];
     Tag (lit "a")
       [(lit "href", lit "https://oeil.secure.europarl.europa.eu/oeil/1")]
       [] []]
  = Some (lit "https://example.org/?ref=oeil.secure.europarl.europa.eu").
Proof. reflexivity. Qed.

(** ** The status of a response *)

(** X15: only scraper.py looks at the status of a response. For an answer
    whose status is not 200 and whose body parses, scraper.py logs a warning
    and requests none of the links of the page, while function_app.py takes
    the page as good and requests every link found in it. *)
Theorem status_checked_in_scraper_only {W} (sv : services W) (theme : str)
    (st : state W) r w1 d
    (Hget : requests_get sv theme Scraper.USER_AGENT (world st)
            = (Some r, w1))
    (Hget' : requests_get sv theme FunctionApp.USER_AGENT (world st)
             = (Some r, w1))
    (Hstatus : (status_code r =? 200) = false)
    (Hparse : html_parser sv (body r) = Some d) :
  Scraper.crawl_theme sv theme st
  = (Return tt,
     State w1 (blobs st) (cosmos st) (total_processed st)
       (trace st ++
          [EvLog INFO (MsgCrawling theme); EvSleep; EvGet theme (Some r);
           EvLog WARNING (MsgFetchStatus theme (status_code r))]))
  /\ exists st' evs,
      FunctionApp.crawl_theme sv theme st = (Return tt, st')
      /\ trace st' = trace st ++ EvGet theme (Some r) :: evs
      /\ requested evs = list_set (file_links d).
Proof.
  split.
  - unfold Scraper.crawl_theme, bind at 1 2. unfold logging, emit.
    rewrite get_files_from_theme_run. simpl. rewrite Hget. simpl.
    unfold page_of, fetch_epilogue. rewrite Hstatus. simpl.
    unfold ret. rewrite <- ?app_assoc. reflexivity.
  - unfold FunctionApp.crawl_theme, try_except, bind at 1 2.
    unfold http_get, BeautifulSoup. rewrite Hget'. simpl. rewrite Hparse.
    simpl.
    match goal with
    | |- context [for_each ?l _ ?s] =>
        destruct (for_each_segments false (FunctionApp.process_link sv theme)
                    (FunctionAppTrace.link_segment sv theme)
                    (process_link_segment sv theme) l s)
          as (w2 & segs & -> & Hsegs)
    end.
    eexists _, (List.concat segs). split; [reflexivity |].
    simpl. split; [rewrite <- app_assoc; reflexivity |].
    rewrite (segments_requested _ (fun u => [u]) _ _
               (link_segment_requested sv theme) Hsegs).
    rewrite concat_map_singleton, function_app_links. reflexivity.
Qed.

Lemma status_checked_in_scraper_only_witness :
  Scraper.crawl_theme Outage.not_found_site Fixture.theme_url
    Fixture.empty_state
  = (Return tt,
     State tt ∅ ∅ 0
       [EvLog INFO (MsgCrawling Fixture.theme_url); EvSleep;
        EvGet Fixture.theme_url (Some (Response 404 Fixture.theme_url));
        EvLog WARNING (MsgFetchStatus Fixture.theme_url 404)])
  /\ exists st' evs,
      FunctionApp.crawl_theme Outage.not_found_site Fixture.theme_url
        Fixture.empty_state = (Return tt, st')
      /\ trace st'
         = EvGet Fixture.theme_url (Some (Response 404 Fixture.theme_url))
           :: evs
      /\ requested evs = list_set (file_links Fixture.theme_page).
Proof.
  apply (status_checked_in_scraper_only Outage.not_found_site
           Fixture.theme_url Fixture.empty_state
           (Response 404 Fixture.theme_url) tt Fixture.theme_page);
    reflexivity.
Defined.

(** ** Running a pass again *)

Lemma scraper_persisted {W} (sv : services W) theme url (st : state W)
    r w1 d doc_id w2 w3 :
  requests_get sv url Scraper.USER_AGENT (world st) = (r, w1) ->
  page_of sv r = Some d ->
  generate_id url = Some doc_id ->
  upload_blob sv (safe_filename (extract_title d) doc_id)
    (extract_text_content d) w1 = (true, w2) ->
  upsert_item sv
    (Scraper.metadata_item doc_id (extract_title d) url (extract_oeil_link d)
       (extract_status d)
       (blob_client_url sv (safe_filename (extract_title d) doc_id))
       (safe_filename (extract_title d) doc_id) theme (strftime_gmtime sv w2))
    w2 = (true, w3) ->
  Scraper.process_file sv theme url st
  = (Return tt,
     State w3
       (<[safe_filename (extract_title d) doc_id := extract_text_content d]>
          (blobs st))
       (<[doc_id :=
            Scraper.metadata_item doc_id (extract_title d) url
              (extract_oeil_link d) (extract_status d)
              (blob_client_url sv (safe_filename (extract_title d) doc_id))
              (safe_filename (extract_title d) doc_id) theme
              (strftime_gmtime sv w2)]> (cosmos st))
       (total_processed st + 1)
       (trace st ++
          [EvSleep; EvGet url r;
           EvUpload (safe_filename (extract_title d) doc_id)
                    (extract_text_content d) true;
           EvUpsert
             (Scraper.metadata_item doc_id (extract_title d) url
                (extract_oeil_link d) (extract_status d)
                (blob_client_url sv (safe_filename (extract_title d) doc_id))
                (safe_filename (extract_title d) doc_id) theme
                (strftime_gmtime sv w2))
             true;
           EvLog INFO (MsgProcessed (firstn 30 (extract_title d)))])).
Proof.
  intros Hget Hpage Hid Hup Hups.
  unfold Scraper.process_file, try_except, bind at 1.
  rewrite get_soup_run, Hget. simpl. rewrite Hpage.
  rewrite (fetch_epilogue_page sv url r d Hpage), Hid.
  unfold_m. simpl. rewrite Hup. simpl. rewrite Hups. simpl.
  rewrite <- ?app_assoc. reflexivity.
Qed.

(** X16: running the pass of scraper.py again on a link whose page has not
    changed writes nothing new: the blob container is as after the first
    pass, the Metadata container has the same ids, the record of the link is
    replaced by the one of the second pass (which differs in scraped_at
    only), and the counter has counted the link twice. *)
Theorem scraper_rerun_overwrites {W} (sv : services W) (theme url : str)
    (st : state W) r w1 d doc_id w2 w3 r' w4 w5 w6
    (Hget : requests_get sv url Scraper.USER_AGENT (world st) = (r, w1))
    (Hpage : page_of sv r = Some d)
    (Hid : generate_id url = Some doc_id)
    (Hup : upload_blob sv (safe_filename (extract_title d) doc_id)
             (extract_text_content d) w1 = (true, w2))
    (Hups : upsert_item sv
              (Scraper.metadata_item doc_id (extract_title d) url
                 (extract_oeil_link d) (extract_status d)
                 (blob_client_url sv (safe_filename (extract_title d) doc_id))
                 (safe_filename (extract_title d) doc_id) theme
                 (strftime_gmtime sv w2))
              w2 = (true, w3))
    (Hget2 : requests_get sv url Scraper.USER_AGENT w3 = (r', w4))
    (Hpage2 : page_of sv r' = Some d)
    (Hup2 : upload_blob sv (safe_filename (extract_title d) doc_id)
              (extract_text_content d) w4 = (true, w5))
    (Hups2 : upsert_item sv
               (Scraper.metadata_item doc_id (extract_title d) url
                  (extract_oeil_link d) (extract_status d)
                  (blob_client_url sv (safe_filename (extract_title d) doc_id))
                  (safe_filename (extract_title d) doc_id) theme
                  (strftime_gmtime sv w5))
               w5 = (true, w6)) :
  exists st1 st2,
    Scraper.process_file sv theme url st = (Return tt, st1)
    /\ Scraper.process_file sv theme url st1 = (Return tt, st2)
    /\ blobs st2 = blobs st1
    /\ dom (cosmos st2) = dom (cosmos st1)
    /\ cosmos st2 !! doc_id
       = Some (Scraper.metadata_item doc_id (extract_title d) url
                 (extract_oeil_link d) (extract_status d)
                 (blob_client_url sv (safe_filename (extract_title d) doc_id))
                 (safe_filename (extract_title d) doc_id) theme
                 (strftime_gmtime sv w5))
    /\ (forall other, other <> doc_id ->
                      cosmos st2 !! other = cosmos st1 !! other)
    /\ total_processed st2 = total_processed st + 2.
Proof.
  pose proof (scraper_persisted sv theme url st r w1 d doc_id w2 w3
                Hget Hpage Hid Hup Hups) as Hrun1.
  eexists _, _. split; [exact Hrun1 |].
  split; [apply (scraper_persisted sv theme url _ r' w4 d doc_id w5 w6);
          assumption |].
  simpl. split; [apply insert_insert_eq |].
  split; [rewrite insert_insert_eq, !dom_insert_L; reflexivity |].
  split; [apply lookup_insert_eq |].
  split; [| lia].
  intros other Hne. rewrite !lookup_insert_ne by congruence. reflexivity.
Qed.

Lemma scraper_rerun_overwrites_witness :
  exists st1 st2,
    Scraper.process_file (Fixture.site true) Fixture.theme_url
      Fixture.file_url Fixture.empty_state = (Return tt, st1)
    /\ Scraper.process_file (Fixture.site true) Fixture.theme_url
         Fixture.file_url st1 = (Return tt, st2)
    /\ blobs st2 = blobs st1
    /\ dom (cosmos st2) = dom (cosmos st1)
    /\ total_processed st2 = total_processed Fixture.empty_state + 2.
Proof.
  assert (Hid : generate_id Fixture.file_url
                = Some (lit "526bdbe6270c3a5a5f12757c1636f4cd"))
    by (vm_compute; reflexivity).
  destruct (scraper_rerun_overwrites (Fixture.site true) Fixture.theme_url
              Fixture.file_url Fixture.empty_state
              (Some (Response 200 Fixture.file_url)) tt Fixture.detail_page
              (lit "526bdbe6270c3a5a5f12757c1636f4cd") tt tt
              (Some (Response 200 Fixture.file_url)) tt tt tt
              eq_refl eq_refl Hid eq_refl eq_refl eq_refl eq_refl eq_refl
              eq_refl)
    as (st1 & st2 & H1 & H2 & Hb & Hc & _ & _ & Hn).
  exists st1, st2. auto.
Defined.

(** ** More on the text body and the title *)

Lemma join_nil_iff sep (l : list str) :
  Forall (fun s => nonempty s = true) l -> (join sep l = [] <-> l = []).
Proof.
  intros Hl. split; [| intros ->; reflexivity].
  destruct l as [|x l]; [reflexivity |].
  apply Forall_cons in Hl as [Hx _].
  destruct x as [|c x]; [discriminate |].
  destruct l; simpl; discriminate.
Qed.

Lemma stripped_strings_nonempty ss :
  Forall (fun s => nonempty s = true) (stripped_strings ss).
Proof.
  unfold stripped_strings. apply Forall_forall. intros s Hs.
  apply list_elem_of_In, filter_In in Hs. tauto.
Qed.

Lemma get_text_strip_sep sep c :
  nonempty (get_text_strip sep c) = nonempty (strip (text c)).
Proof.
  rewrite <- block_test. unfold get_text_strip.
  pose proof (stripped_strings_nonempty (strings c)) as Hall.
  destruct (stripped_strings (strings c)) as [|x l]; [reflexivity |].
  apply Forall_cons in Hall as [Hx _].
  destruct x as [|a x]; [discriminate |].
  destruct l; reflexivity.
Qed.

(** X17: the text body of scraper.py is empty exactly when no section, no
    div of class text-block and no p of the page has text other than white
    space. *)
Theorem text_content_empty_iff (d : soup) :
  extract_text_content d = []
  <-> forall c, In c (select sel_content_block d) ->
                existsb not_space (text c) = false.
Proof.
  unfold extract_text_content.
  rewrite join_nil_iff.
  - split.
    + intros Hmap c Hc. apply map_eq_nil in Hmap.
      rewrite <- nonempty_strip, <- block_test.
      destruct (nonempty (get_text_strip [] c)) eqn:Hne; [| reflexivity].
      assert (Hin : In c (List.filter
                            (fun c0 => nonempty (get_text_strip [] c0))
                            (select sel_content_block d)))
        by (apply filter_In; auto).
      rewrite Hmap in Hin. destruct Hin.
    + intros Hall.
      assert (Hnil : List.filter (fun c0 => nonempty (get_text_strip [] c0))
                       (select sel_content_block d) = []).
      { induction (select sel_content_block d) as [|c l IH];
          [reflexivity |].
        simpl. rewrite block_test, nonempty_strip, (Hall c (or_introl eq_refl)).
        apply IH. intros c' Hc'. apply Hall. right. exact Hc'. }
      rewrite Hnil. reflexivity.
  - apply Forall_forall. intros s Hs.
    apply list_elem_of_In, in_map_iff in Hs as (c & <- & Hc).
    apply filter_In in Hc as [_ Hc].
    rewrite get_text_strip_sep. rewrite block_test in Hc. exact Hc.
Qed.

(** X18: on a page whose first h1 holds a single text string, the two
    programs extract the same title, that string trimmed. With markup inside
    the h1 they can differ: scraper.py keeps the white space between the
    pieces, function_app.py trims every piece and joins them. *)
Theorem titles_agree_on_plain_h1 (d : soup) (title_el : node) (s : str)
    (Hfirst : select_one (is_tag (lit "h1")) d = Some title_el)
    (Hplain : strings title_el = [s]) :
  extract_title d = strip s /\ FunctionApp.extract_title d = strip s.
Proof.
  unfold extract_title, FunctionApp.extract_title. rewrite Hfirst.
  unfold text, get_text_strip, stripped_strings. rewrite Hplain. simpl.
  rewrite app_nil_r. split; [reflexivity |].
  destruct (strip s) as [|c t]; reflexivity.
Qed.

Lemma titles_agree_on_plain_h1_witness :
  extract_title Fixture.detail_page
  = strip (lit " Fit for 55: Reg. (EU) 2021/1119! ")
  /\ FunctionApp.extract_title Fixture.detail_page
     = strip (lit " Fit for 55: Reg. (EU) 2021/1119! ").
Proof.
  apply (titles_agree_on_plain_h1 Fixture.detail_page
           (Tag (lit "h1") [] []
              [NavigableString (lit " Fit for 55: Reg. (EU) 2021/1119! ")])
           (lit " Fit for 55: Reg. (EU) 2021/1119! "));
    reflexivity.
Defined.

Example titles_differ_on_markup :
  extract_title
    [Tag (lit "h1") [] []
       [NavigableString (lit "Fit ");
        Tag (lit "b") [] [] [NavigableString (lit "for")];
        NavigableString (lit " 55")]]
  = lit "Fit for 55"
  /\ FunctionApp.extract_title
       [Tag (lit "h1") [] []
          [NavigableString (lit "Fit ");
           Tag (lit "b") [] [] [NavigableString (lit "for")];
           NavigableString (lit " 55")]]
     = lit "Fitfor55".
Proof. split; reflexivity. Qed.

(** ** A title that changes between two runs *)

Lemma safe_filename_prefix_inj title1 title2 doc_id :
  (6 <= length doc_id)%nat ->
  safe_filename title1 doc_id = safe_filename title2 doc_id ->
  firstn 100 (re_sub title1) = firstn 100 (re_sub title2).
Proof.
  unfold safe_filename. intros Hlen H.
  apply app_inj_2 in H as [Hpre _]; [exact Hpre | reflexivity].
Qed.

(** X19: the blob name of scraper.py follows the title. When the page of a
    link comes back with a title that sanitizes differently, the second pass
    uploads under a new name and replaces the record, and the blob of the
    first pass stays in the container with no record naming it any more. *)
Theorem scraper_title_change_leaves_old_blob {W} (sv : services W)
    (theme url : str) (st : state W) r w1 d doc_id w2 w3 r' w4 d' w5 w6
    (Hget : requests_get sv url Scraper.USER_AGENT (world st) = (r, w1))
    (Hpage : page_of sv r = Some d)
    (Hid : generate_id url = Some doc_id)
    (Hup : upload_blob sv (safe_filename (extract_title d) doc_id)
             (extract_text_content d) w1 = (true, w2))
    (Hups : upsert_item sv
              (Scraper.metadata_item doc_id (extract_title d) url
                 (extract_oeil_link d) (extract_status d)
                 (blob_client_url sv (safe_filename (extract_title d) doc_id))
                 (safe_filename (extract_title d) doc_id) theme
                 (strftime_gmtime sv w2))
              w2 = (true, w3))
    (Hget2 : requests_get sv url Scraper.USER_AGENT w3 = (r', w4))
    (Hpage2 : page_of sv r' = Some d')
    (Htitle : firstn 100 (re_sub (extract_title d))
              <> firstn 100 (re_sub (extract_title d')))
    (Hup2 : upload_blob sv (safe_filename (extract_title d') doc_id)
              (extract_text_content d') w4 = (true, w5))
    (Hups2 : upsert_item sv
               (Scraper.metadata_item doc_id (extract_title d') url
                  (extract_oeil_link d') (extract_status d')
                  (blob_client_url sv
                     (safe_filename (extract_title d') doc_id))
                  (safe_filename (extract_title d') doc_id) theme
                  (strftime_gmtime sv w5))
               w5 = (true, w6)) :
  exists st1 st2 it,
    Scraper.process_file sv theme url st = (Return tt, st1)
    /\ Scraper.process_file sv theme url st1 = (Return tt, st2)
    /\ safe_filename (extract_title d) doc_id
       <> safe_filename (extract_title d') doc_id
    /\ blobs st2 !! safe_filename (extract_title d) doc_id
       = Some (extract_text_content d)
    /\ blobs st2 !! safe_filename (extract_title d') doc_id
       = Some (extract_text_content d')
    /\ cosmos st2 !! doc_id = Some it
    /\ item_str (lit "blob_filename") it
       = Some (safe_filename (extract_title d') doc_id)
    /\ dom (cosmos st2) = dom (cosmos st1).
Proof.
  assert (Hlen : (6 <= length doc_id)%nat).
  { unfold generate_id in Hid. destruct (encode_utf8 url); [| discriminate].
    injection Hid as <-. rewrite hexdigest_length. lia. }
  assert (Hne : safe_filename (extract_title d) doc_id
                <> safe_filename (extract_title d') doc_id).
  { intros Heq. apply Htitle.
    apply (safe_filename_prefix_inj _ _ doc_id Hlen Heq). }
  pose proof (scraper_persisted sv theme url st r w1 d doc_id w2 w3
                Hget Hpage Hid Hup Hups) as Hrun1.
  eexists _, _, _. split; [exact Hrun1 |].
  split; [apply (scraper_persisted sv theme url _ r' w4 d' doc_id w5 w6);
          assumption |].
  simpl. split; [exact Hne |].
  split; [rewrite lookup_insert_ne by congruence; apply lookup_insert_eq |].
  split; [apply lookup_insert_eq |].
  split; [apply lookup_insert_eq |].
  split; [reflexivity |].
  rewrite insert_insert_eq, !dom_insert_L. reflexivity.
Qed.

Lemma scraper_title_change_leaves_old_blob_witness :
  exists st1 st2 it,
    Scraper.process_file Retitled.site Fixture.theme_url Fixture.file_url
      Retitled.first_state = (Return tt, st1)
    /\ Scraper.process_file Retitled.site Fixture.theme_url Fixture.file_url
         st1 = (Return tt, st2)
    /\ blobs st2
       !! safe_filename (extract_title Fixture.detail_page)
            (lit "526bdbe6270c3a5a5f12757c1636f4cd")
       = Some (extract_text_content Fixture.detail_page)
    /\ blobs st2
       !! safe_filename (extract_title Retitled.second_page)
            (lit "526bdbe6270c3a5a5f12757c1636f4cd")
       = Some (extract_text_content Retitled.second_page)
    /\ cosmos st2 !! lit "526bdbe6270c3a5a5f12757c1636f4cd" = Some it
    /\ item_str (lit "blob_filename") it
       = Some (safe_filename (extract_title Retitled.second_page)
                 (lit "526bdbe6270c3a5a5f12757c1636f4cd")).
Proof.
  assert (Hid : generate_id Fixture.file_url
                = Some (lit "526bdbe6270c3a5a5f12757c1636f4cd"))
    by (vm_compute; reflexivity).
  assert (Htitle : firstn 100 (re_sub (extract_title Fixture.detail_page))
                   <> firstn 100 (re_sub (extract_title Retitled.second_page)))
    by (vm_compute; discriminate).
  destruct (scraper_title_change_leaves_old_blob Retitled.site
              Fixture.theme_url Fixture.file_url Retitled.first_state
              (Some (Response 200 (lit "v1"))) true Fixture.detail_page
              (lit "526bdbe6270c3a5a5f12757c1636f4cd") true true
              (Some (Response 200 (lit "v2"))) true Retitled.second_page
              true true
              eq_refl eq_refl Hid eq_refl eq_refl eq_refl eq_refl Htitle
              eq_refl eq_refl)
    as (st1 & st2 & it & H1 & H2 & _ & Hold & Hnew & Hrec & Hname & _).
  exists st1, st2, it. repeat split; assumption.
Defined.

Lemma function_app_saved {W} (sv : services W) theme link (st : state W)
    r w1 d doc_id w2 w3 :
  requests_get sv link FunctionApp.USER_AGENT (world st) = (Some r, w1) ->
  html_parser sv (body r) = Some d ->
  FunctionApp.doc_id_of link = Some doc_id ->
  upload_blob sv (doc_id ++ lit ".txt") (FunctionApp.extract_text d) w1
  = (true, w2) ->
  upsert_item sv
    (FunctionApp.metadata_item doc_id link (FunctionApp.extract_title d) theme
       (container_url sv ++ lit "/" ++ doc_id ++ lit ".txt")
       (strftime_gmtime sv w2))
    w2 = (true, w3) ->
  FunctionApp.process_link sv theme link st
  = (Return tt,
     State w3
       (<[doc_id ++ lit ".txt" := FunctionApp.extract_text d]> (blobs st))
       (<[doc_id :=
            FunctionApp.metadata_item doc_id link
              (FunctionApp.extract_title d) theme
              (container_url sv ++ lit "/" ++ doc_id ++ lit ".txt")
              (strftime_gmtime sv w2)]> (cosmos st))
       (total_processed st)
       (trace st ++
          [EvGet link (Some r);
           EvUpload (doc_id ++ lit ".txt") (FunctionApp.extract_text d) true;
           EvUpsert
             (FunctionApp.metadata_item doc_id link
                (FunctionApp.extract_title d) theme
                (container_url sv ++ lit "/" ++ doc_id ++ lit ".txt")
                (strftime_gmtime sv w2))
             true;
           EvLog INFO (MsgSaved (firstn 30 (FunctionApp.extract_title d)));
           EvSleep])).
Proof.
  intros Hget Hd Hid Hup Hups.
  unfold FunctionApp.process_link. unfold_m.
  cbn [world blobs cosmos total_processed trace].
  rewrite Hget. cbn [world blobs cosmos total_processed trace].
  rewrite Hd, Hid. cbn [world blobs cosmos total_processed trace].
  rewrite Hup. cbn [world blobs cosmos total_processed trace].
  rewrite Hups. simpl. rewrite <- ?app_assoc. reflexivity.
Qed.

(** X20: in function_app.py the blob name is the id and ".txt", so it
    follows the link alone: when the page of a link comes back changed, with
    another title or another text, the second pass overwrites the same blob
    and the same record, and no blob is left behind. *)
Theorem function_app_page_change_overwrites {W} (sv : services W)
    (theme link : str) (st : state W) r w1 d doc_id w2 w3 r' w4 d' w5 w6
    (Hget : requests_get sv link FunctionApp.USER_AGENT (world st)
            = (Some r, w1))
    (Hpage : html_parser sv (body r) = Some d)
    (Hid : FunctionApp.doc_id_of link = Some doc_id)
    (Hup : upload_blob sv (doc_id ++ lit ".txt") (FunctionApp.extract_text d)
             w1 = (true, w2))
    (Hups : upsert_item sv
              (FunctionApp.metadata_item doc_id link
                 (FunctionApp.extract_title d) theme
                 (container_url sv ++ lit "/" ++ doc_id ++ lit ".txt")
                 (strftime_gmtime sv w2))
              w2 = (true, w3))
    (Hget2 : requests_get sv link FunctionApp.USER_AGENT w3 = (Some r', w4))
    (Hpage2 : html_parser sv (body r') = Some d')
    (Hup2 : upload_blob sv (doc_id ++ lit ".txt")
              (FunctionApp.extract_text d') w4 = (true, w5))
    (Hups2 : upsert_item sv
               (FunctionApp.metadata_item doc_id link
                  (FunctionApp.extract_title d') theme
                  (container_url sv ++ lit "/" ++ doc_id ++ lit ".txt")
                  (strftime_gmtime sv w5))
               w5 = (true, w6)) :
  exists st1 st2,
    FunctionApp.process_link sv theme link st = (Return tt, st1)
    /\ FunctionApp.process_link sv theme link st1 = (Return tt, st2)
    /\ blobs st2
       = <[doc_id ++ lit ".txt" := FunctionApp.extract_text d']> (blobs st)
    /\ dom (blobs st2) = dom (blobs st1)
    /\ dom (cosmos st2) = dom (cosmos st1)
    /\ item_str (lit "title") <$> cosmos st2 !! doc_id
       = Some (Some (FunctionApp.extract_title d')).
Proof.
  pose proof (function_app_saved sv theme link st r w1 d doc_id w2 w3
                Hget Hpage Hid Hup Hups) as Hrun1.
  eexists _, _. split; [exact Hrun1 |].
  split; [apply (function_app_saved sv theme link _ r' w4 d' doc_id w5 w6);
          assumption |].
  cbn [world blobs cosmos total_processed trace].
  split; [apply insert_insert_eq |].
  split; [rewrite insert_insert_eq, !dom_insert_L; reflexivity |].
  split; [rewrite insert_insert_eq, !dom_insert_L; reflexivity |].
  rewrite lookup_insert_eq. reflexivity.
Qed.

Lemma function_app_page_change_overwrites_witness :
  exists st1 st2,
    FunctionApp.process_link Retitled.site Fixture.theme_url Fixture.file_url
      Retitled.first_state = (Return tt, st1)
    /\ FunctionApp.process_link Retitled.site Fixture.theme_url
         Fixture.file_url st1 = (Return tt, st2)
    /\ dom (blobs st2) = dom (blobs st1)
    /\ dom (cosmos st2) = dom (cosmos st1).
Proof.
  assert (Hid : FunctionApp.doc_id_of Fixture.file_url
                = Some (lit "526bdbe6270c3a5a5f12757c1636f4cd"))
    by (vm_compute; reflexivity).
  destruct (function_app_page_change_overwrites Retitled.site
              Fixture.theme_url Fixture.file_url Retitled.first_state
              (Response 200 (lit "v1")) true Fixture.detail_page
              (lit "526bdbe6270c3a5a5f12757c1636f4cd") true true
              (Response 200 (lit "v2")) true Retitled.second_page
              true true
              eq_refl eq_refl Hid eq_refl eq_refl eq_refl eq_refl
              eq_refl eq_refl)
    as (st1 & st2 & H1 & H2 & _ & Hb & Hc & _).
  exists st1, st2. repeat split; assumption.
Defined.
